(** * price-updater: the batch loops of the three scripts

    A shallow embedding of [mark_not_spam_evm.py], [mark_not_spam_solana.py]
    and [run.py].  Each script reads rows of a CSV file, resolves an address
    to an asset id with one POST, and applies a mutation with a second POST.

    Modelling choices, shared by the three scripts:
    - a Python value decoded from JSON is a [json]; Python's [None] is
      [JNull];
    - a Python [str] is a [string] whose characters are code points below
      256;
    - the network and the requests library are a [server]: for each
      endpoint, what the n-th call of [requests.post] on it does during the
      run: it returns a response, it raises a [RequestException] (no
      connection, a timeout, a header that the library refuses to send), or
      an exception of another class leaves the library.  A [Post] in the
      trace records that [requests.post] was called, whatever became of the
      call;
    - a function of the scripts is a computation in [M L]: it threads the
      trace of observable events and the local counters [L] of
      [process_csv], and it either returns or raises a Python exception;
    - [logger.debug] calls are dropped ([basicConfig] sets the level to
      INFO), and so are the lines that only draw a separator; the other log
      and print messages keep their text, without the pictographs, and
      their interpolated values as arguments;
    - a row of the reader maps the column names to cells; the cell of a
      column that a short line does not reach is [None], as [csv.DictReader]
      yields it;
    - the input of [process_csv] is the list of the rows that the reader
      yields: the file is one that can be opened, decoded and parsed;
    - the exceptions of a run are those that the rows and the replies
      cause; writing to the log and to the terminal is taken to succeed, and
      the exceptions that the interpreter raises on its own account
      ([KeyboardInterrupt], [MemoryError]) are not modelled. *)

From Stdlib Require Import ZArith QArith String Ascii List Lia.
From stdpp Require Import base option list strings gmap fin_maps.

Local Close Scope Q_scope.
Local Open Scope string_scope.
Local Open Scope nat_scope.

(** ** Python values *)

#[local] Unset Elimination Schemes.
Inductive json : Type :=
| JNull
| JBool (b : bool)
| JInt (z : Z)
| JFloat (q : Q)
| JStr (s : string)
| JArr (items : list json)
| JObj (items : list (string * json)).
#[local] Set Elimination Schemes.

(** [LibraryError name] is an exception of the class [name] that leaves the
    requests library and is not a [RequestException]: the [ValueError] of
    [response.json()] on an integer of more than 4300 digits, its
    [RecursionError] on a deeply nested body, the [ValueError] of
    [http.client] on a header value that ends in a line feed. *)
Inductive exn : Type :=
| AttributeError
| TypeError
| KeyError
| LibraryError (name : string)
| SystemExit (code : Z).

Inductive result (A : Type) : Type :=
| Ok (a : A)
| Raise (e : exn).
Arguments Ok {A} a.
Arguments Raise {A} e.

Definition is_ok {A} (r : result A) : bool :=
  match r with Ok _ => true | Raise _ => false end.

(** [bool(v)]: what [not v] and [if v] test. *)
Definition truthy (v : json) : bool :=
  match v with
  | JNull => false
  | JBool b => b
  | JInt z => negb (z =? 0)%Z
  | JFloat q => negb (Qnum q =? 0)%Z
  | JStr s => negb (String.eqb s "")
  | JArr l => match l with [] => false | _ => true end
  | JObj kv => match kv with [] => false | _ => true end
  end.

(** The value bound to [key] in a decoded object; the decoder keeps the last
    binding of a repeated key. *)
Fixpoint assoc_last (key : string) (kv : list (string * json)) : option json :=
  match kv with
  | [] => None
  | (k, v) :: rest =>
      match assoc_last key rest with
      | Some v' => Some v'
      | None => if String.eqb k key then Some v else None
      end
  end.

(** [v.get(key, default)]; only a dict has the method. *)
Definition py_get (v : json) (key : string) (default : json) : result json :=
  match v with
  | JObj kv => Ok (match assoc_last key kv with Some x => x | None => default end)
  | _ => Raise AttributeError
  end.

(** [len(v)]. *)
Definition py_len (v : json) : result nat :=
  match v with
  | JStr s => Ok (String.length s)
  | JArr l => Ok (List.length l)
  | JObj kv => Ok (List.length kv)
  | _ => Raise TypeError
  end.

(** [v[:n]].  A dict takes the slice for a key that it does not have:
    [KeyError] (Python 3.12 and later; before, a slice could not be hashed
    and the exception was [TypeError]). *)
Definition py_prefix (n : nat) (v : json) : result json :=
  match v with
  | JStr s => Ok (JStr (String.substring 0 (Nat.min n (String.length s)) s))
  | JArr l => Ok (JArr (firstn n l))
  | JObj _ => Raise KeyError
  | _ => Raise TypeError
  end.

Definition py_int (n : nat) : json := JInt (Z.of_nat n).

(** ** Python strings *)

(** [str.isspace] on the code points below 256. *)
Definition is_space (c : ascii) : bool :=
  let n := nat_of_ascii c in
  ((9 <=? n) && (n <=? 13)) || ((28 <=? n) && (n <=? 32))
  || (n =? 133) || (n =? 160).

Fixpoint lstrip (s : string) : string :=
  match s with
  | EmptyString => EmptyString
  | String c s' => if is_space c then lstrip s' else s
  end.

Definition rstrip (s : string) : string := String.rev (lstrip (String.rev s)).

Definition strip (s : string) : string := rstrip (lstrip s).

(** [not s] for a [str]. *)
Definition str_empty (s : string) : bool := String.eqb s "".

(** A cell of a row of [csv.DictReader]: its text, or [None] (the reader's
    [restval]) for a column that the line is too short to reach. *)
Abbreviation cell := (option string).

(** A row of [csv.DictReader]: column name to cell. *)
Abbreviation row := (gmap string cell).

(** [row.get(key, '')]; the default stands in for a column that the header
    does not have, not for a cell that is [None]. *)
Definition row_get (r : row) (key : string) : cell := default (Some "") (r !! key).

(** [c.strip()]; [None] has no such method. *)
Definition py_strip (c : cell) : result string :=
  match c with
  | Some s => Ok (strip s)
  | None => Raise AttributeError
  end.

(** The text of a cell that is not [None]. *)
Definition cell_text (c : cell) : string := default "" c.

(** A cell as an f-string shows it. *)
Definition cell_json (c : cell) : json :=
  match c with
  | Some s => JStr s
  | None => JNull
  end.

(** ** The network and the trace *)

Inductive endpoint : Type :=
| AssetInfos    (* POST /api/v1/assets/asset-infos *)
| MarkAsSpam    (* POST /csm/assets/assets_mark_as_spam *)
| UpdatePrice.  (* POST /csm/pricing/update_price *)

Definition endpoint_eqb (a b : endpoint) : bool :=
  match a, b with
  | AssetInfos, AssetInfos | MarkAsSpam, MarkAsSpam | UpdatePrice, UpdatePrice => true
  | _, _ => false
  end.

(** What a call of [requests.post] does, and what [response.json()] does on
    the response.
    - [ConnectionFailed]: the call raises a [RequestException] whose
      [response] is [None]: [ConnectionError], [Timeout], or [InvalidHeader]
      when the library refuses the bearer token (a carriage return or a line
      feed inside it) and sends nothing.
    - [FailedWithResponse]: the call raises a [RequestException] that
      carries a response ([TooManyRedirects]).
    - [PostRaises name]: an exception of the class [name], not a
      [RequestException], leaves the call.
    - [Response status_code body]: the call returns a response; [body] is
      the decoded JSON body, [None] when the body is not JSON.  On such a
      body [response.json()] raises the [JSONDecodeError] of requests, which
      is a [RequestException] (requests 2.27 and later) and carries no
      response.
    - [Undecodable status_code name]: the call returns a response on which
      [response.json()] raises an exception of the class [name] that is not
      a [JSONDecodeError]. *)
Inductive http_result : Type :=
| ConnectionFailed
| FailedWithResponse
| PostRaises (name : string)
| Response (status_code : Z) (body : option json)
| Undecodable (status_code : Z) (name : string).

(** What the n-th call (from 0) of [requests.post] on each endpoint does. *)
Definition server : Type := endpoint → nat → http_result.

(** The levels of [logger], and [PRINT] for a line written by [print]. *)
Inductive level : Type := INFO | WARNING | ERROR | PRINT.

Inductive event : Type :=
| Post (ep : endpoint) (bearer_token : string) (payload : json)
| Sleep (seconds : nat)
| Log (lvl : level) (msg : string) (args : list json).

Definition is_post (ep : endpoint) (e : event) : bool :=
  match e with
  | Post ep' _ _ => endpoint_eqb ep ep'
  | _ => false
  end.

(** Number of calls to [ep] in a trace. *)
Fixpoint calls (ep : endpoint) (t : list event) : nat :=
  match t with
  | [] => 0
  | e :: t' => (if is_post ep e then 1 else 0) + calls ep t'
  end.

(** Number of network calls of either kind. *)
Fixpoint net_calls (t : list event) : nat :=
  match t with
  | [] => 0
  | Post _ _ _ :: t' => S (net_calls t')
  | _ :: t' => net_calls t'
  end.

(** ** The monad of the scripts *)

Record state (L : Type) : Type := mkState { locals : L; trace : list event }.
Arguments mkState {L} locals trace.
Arguments locals {L} s.
Arguments trace {L} s.

Definition M (L A : Type) : Type := state L → result A * state L.

Definition M_ret {L A} (a : A) : M L A := λ st, (Ok a, st).

Definition M_bind {L A B} (f : A → M L B) (m : M L A) : M L B :=
  λ st, match m st with
        | (Ok a, st') => f a st'
        | (Raise e, st') => (Raise e, st')
        end.

Definition M_throw {L A} (e : exn) : M L A := λ st, (Raise e, st).

#[global] Instance M_MRet {L} : MRet (M L) := @M_ret L.
#[global] Instance M_MBind {L} : MBind (M L) := @M_bind L.
#[global] Instance M_MThrow {L} : MThrow exn (M L) := @M_throw L.

(** A pure Python operation that may raise. *)
Definition lift {L A} (r : result A) : M L A := λ st, (r, st).

Definition emit {L} (e : event) : M L unit :=
  λ st, (Ok tt, mkState (locals st) (trace st ++ [e])).

Definition log {L} (lvl : level) (msg : string) (args : list json) : M L unit :=
  emit (Log lvl msg args).

Definition sleep {L} (seconds : nat) : M L unit := emit (Sleep seconds).

Definition get_locals {L} : M L L := λ st, (Ok (locals st), st).

Definition modify {L} (f : L → L) : M L unit :=
  λ st, (Ok tt, mkState (f (locals st)) (trace st)).

(** [requests.post(url, headers=..., json=... or data=...)]: the call is
    recorded, and the server says what it does. *)
Definition requests_post {L} (srv : server) (ep : endpoint)
    (bearer_token : string) (payload : json) : M L http_result :=
  λ st, (Ok (srv ep (calls ep (trace st))),
         mkState (locals st) (trace st ++ [Post ep bearer_token payload])).

(** [response.raise_for_status()] raises for 4xx and 5xx. *)
Definition is_error_status (status_code : Z) : bool :=
  ((400 <=? status_code) && (status_code <? 600))%Z.

(** [for x in l: body(x)]; an exception leaves the loop. *)
Fixpoint for_each {L A} (l : list A) (body : A → M L unit) : M L unit :=
  match l with
  | [] => mret tt
  | x :: l' => body x ;; for_each l' body
  end.

(** [for i, x in enumerate(l, start): body(i, x)]. *)
Fixpoint for_enumerate {L A} (start : nat) (l : list A)
    (body : nat → A → M L unit) : M L unit :=
  match l with
  | [] => mret tt
  | x :: l' => body start x ;; for_enumerate (S start) l' body
  end.

(** [sys.exit(code)]. *)
Definition sys_exit {L A} (code : Z) : M L A := mthrow (SystemExit code).

(** The exit status of the interpreter: 0 when [main] returns, the code of
    [sys.exit], 1 after an uncaught exception. *)
Definition exit_code (r : result unit) : Z :=
  match r with
  | Ok _ => 0
  | Raise (SystemExit code) => code
  | Raise _ => 1
  end%Z.

(** [os.getenv(name)] as tested by [if not TOKEN]: the token when it is set
    and not empty. *)
Definition nonempty (v : option string) : option string :=
  match v with
  | Some s => if str_empty s then None else Some s
  | None => None
  end.

(** ** mark_asset_not_spam, the same function in both spam scripts *)

Definition mark_asset_not_spam {L} (srv : server) (asset_id : json)
    (bearer_token : string) : M L bool :=
  let data := JObj [("asset_id", asset_id); ("spam", JStr "false")] in
  r ← requests_post srv MarkAsSpam bearer_token data;
  match r with
  | ConnectionFailed =>
      log ERROR "Error marking asset {} as not spam" [asset_id];;
      mret false
  | FailedWithResponse =>
      log ERROR "Error marking asset {} as not spam" [asset_id];;
      log ERROR "Response: {}" [];;
      mret false
  | PostRaises name => mthrow (LibraryError name)
  | Response status_code _ | Undecodable status_code _ =>
      (* the body is not decoded here *)
      if is_error_status status_code then
        log ERROR "Error marking asset {} as not spam" [asset_id];;
        log ERROR "Response: {}" [];;
        mret false
      else if (status_code =? 200)%Z then
        log INFO "Successfully marked asset {} as not spam (200 OK)" [asset_id];;
        mret true
      else
        log WARNING "Unexpected status code for asset {}: {}" [asset_id; JInt status_code];;
        mret false
  end.

(** ** Outcomes

    What the client functions return on a reply, and the outcome of one
    (row, chain) pair as a function of the replies it receives.  The lemmas
    below prove that the loop bodies compute exactly these. *)

(** What the next call to [ep] does. *)
Definition next_reply {L} (srv : server) (ep : endpoint) (st : state L) : http_result :=
  srv ep (calls ep (trace st)).

(** The exception that leaves [get_asset_info] and [update_asset_price],
    which catch [RequestException] only: that of the call, or that of
    [response.json()], which is reached when the status is not an error. *)
Definition client_raises (r : http_result) : option exn :=
  match r with
  | PostRaises name => Some (LibraryError name)
  | Undecodable status_code name =>
      if is_error_status status_code then None else Some (LibraryError name)
  | _ => None
  end.

(** The exception that leaves [mark_asset_not_spam], which does not decode
    the body. *)
Definition post_raises (r : http_result) : option exn :=
  match r with
  | PostRaises name => Some (LibraryError name)
  | _ => None
  end.

(** The value of [get_asset_info] and of [update_asset_price] when they
    return: the decoded body, [None] after a [RequestException]. *)
Definition decoded (r : http_result) : json :=
  match r with
  | Response status_code body =>
      if is_error_status status_code then JNull
      else match body with Some v => v | None => JNull end
  | _ => JNull
  end.

(** What [get_asset_info] and [update_asset_price] end with. *)
Definition client_result (r : http_result) : result json :=
  match client_raises r with
  | Some e => Raise e
  | None => Ok (decoded r)
  end.

(** The value of [mark_asset_not_spam] when it returns. *)
Definition marked (r : http_result) : bool :=
  match r with
  | Response status_code _ | Undecodable status_code _ =>
      negb (is_error_status status_code) && (status_code =? 200)%Z
  | _ => false
  end.

(** The status of the response that the call returns, if it returns one. *)
Definition status_of (r : http_result) : option Z :=
  match r with
  | Response status_code _ | Undecodable status_code _ => Some status_code
  | _ => None
  end.

(** What [mark_asset_not_spam] ends with. *)
Definition mark_result (r : http_result) : result bool :=
  match post_raises r with
  | Some e => Raise e
  | None => Ok (marked r)
  end.

(** A resolution call that fails with a [RequestException]: the call
    raises one, the status is an error, or the body is not JSON. *)
Definition resolution_failed (r : http_result) : bool :=
  match r with
  | ConnectionFailed | FailedWithResponse => true
  | PostRaises _ => false
  | Response status_code body =>
      is_error_status status_code || match body with Some _ => false | None => true end
  | Undecodable status_code _ => is_error_status status_code
  end.

(** The [RequestException] that was caught carries a response: the line
    with its text is written. *)
Definition failed_with_response (r : http_result) : bool :=
  match r with
  | FailedWithResponse => true
  | Response status_code _ | Undecodable status_code _ => is_error_status status_code
  | _ => false
  end.

Inductive outcome : Type :=
| Success
| Failed
| NotFound
| Skipped
| Uncaught (e : exn).

Definition outcome_result (o : outcome) : result unit :=
  match o with
  | Uncaught e => Raise e
  | _ => Ok tt
  end.

Definition recorded (o : outcome) : bool :=
  match o with
  | Uncaught _ => false
  | _ => true
  end.

(** The outcome of a pair in the two spam scripts. *)
Definition spam_outcome (dry_run : bool) (resolve mutate : http_result) : outcome :=
  match client_result resolve with
  | Raise e => Uncaught e
  | Ok asset_info =>
      if negb (truthy asset_info) then NotFound
      else match py_get asset_info "id" JNull with
           | Raise e => Uncaught e
           | Ok asset_id =>
               if negb (truthy asset_id) then Failed
               else if dry_run then Success
               else match mark_result mutate with
                    | Raise e => Uncaught e
                    | Ok ok => if ok then Success else Failed
                    end
           end
  end.

(** Whether the pair reaches the call of [mark_asset_not_spam]. *)
Definition spam_mutates (dry_run : bool) (resolve : http_result) : bool :=
  negb dry_run && truthy (decoded resolve)
  && match py_get (decoded resolve) "id" JNull with
     | Ok asset_id => truthy asset_id
     | Raise _ => false
     end.

(** A resolution that returns nothing usable: the call failed with a
    [RequestException], or the decoded body is falsy (an empty object or
    array, [null], 0, an empty string, [false]). *)
Definition nothing_resolved (r : http_result) : bool :=
  match client_result r with
  | Ok asset_info => negb (truthy asset_info)
  | Raise _ => false
  end.

(** A resolution that succeeds with a non-empty JSON object in which ["id"]
    is absent or falsy. *)
Definition lacks_id (r : http_result) : bool :=
  match r with
  | Response status_code (Some (JObj kv)) =>
      negb (is_error_status status_code)
      && truthy (JObj kv)
      && negb (truthy (match assoc_last "id" kv with Some x => x | None => JNull end))
  | _ => false
  end.

(** A price update that succeeds with a non-empty JSON object in which
    ["stdout"] is absent or falsy. *)
Definition lacks_stdout (r : http_result) : bool :=
  match r with
  | Response status_code (Some (JObj kv)) =>
      negb (is_error_status status_code)
      && truthy (JObj kv)
      && negb (truthy (match assoc_last "stdout" kv with Some x => x | None => JStr "" end))
  | _ => false
  end.

Definition level_eqb (a b : level) : bool :=
  match a, b with
  | INFO, INFO | WARNING, WARNING | ERROR, ERROR | PRINT, PRINT => true
  | _, _ => false
  end.

(** Whether a trace holds a line of level [lvl] with the text [msg]. *)
Fixpoint logged (lvl : level) (msg : string) (t : list event) : bool :=
  match t with
  | [] => false
  | Log lvl' msg' _ :: t' => (level_eqb lvl lvl' && String.eqb msg msg') || logged lvl msg t'
  | _ :: t' => logged lvl msg t'
  end.

(** ** mark_not_spam_evm.py *)

Module Evm.

Definition CSV_FILE : string := "backed_list.csv".

Record chain_stats : Type :=
  { success : nat; failed : nat; not_found : nat }.

Record stats : Type :=
  { total_rows : nat;
    skipped : nat;
    processed_chains : nat;
    failed_chains : nat;
    by_chain : gmap string chain_stats }.

Definition zero_chain : chain_stats :=
  {| success := 0; failed := 0; not_found := 0 |}.

(** The [stats] dict as [process_csv] creates it. *)
Definition init_stats (chains : list string) : stats :=
  {| total_rows := 0; skipped := 0; processed_chains := 0; failed_chains := 0;
     by_chain := list_to_map ((λ chain, (chain, zero_chain)) <$> chains) |}.

Definition incr_success (c : chain_stats) : chain_stats :=
  {| success := S (success c); failed := failed c; not_found := not_found c |}.
Definition incr_failed (c : chain_stats) : chain_stats :=
  {| success := success c; failed := S (failed c); not_found := not_found c |}.
Definition incr_not_found (c : chain_stats) : chain_stats :=
  {| success := success c; failed := failed c; not_found := S (not_found c) |}.

Definition incr_total_rows (s : stats) : stats :=
  {| total_rows := S (total_rows s); skipped := skipped s;
     processed_chains := processed_chains s; failed_chains := failed_chains s;
     by_chain := by_chain s |}.
Definition incr_processed_chains (s : stats) : stats :=
  {| total_rows := total_rows s; skipped := skipped s;
     processed_chains := S (processed_chains s); failed_chains := failed_chains s;
     by_chain := by_chain s |}.
Definition incr_failed_chains (s : stats) : stats :=
  {| total_rows := total_rows s; skipped := skipped s;
     processed_chains := processed_chains s; failed_chains := S (failed_chains s);
     by_chain := by_chain s |}.
Definition set_by_chain (m : gmap string chain_stats) (s : stats) : stats :=
  {| total_rows := total_rows s; skipped := skipped s;
     processed_chains := processed_chains s; failed_chains := failed_chains s;
     by_chain := m |}.

(** [stats["by_chain"][chain][field] += 1]; the subscript raises [KeyError]
    for a chain without a bucket. *)
Definition bump (chain : string) (f : chain_stats → chain_stats) : M stats unit :=
  s ← get_locals;
  match by_chain s !! chain with
  | None => mthrow KeyError
  | Some c => modify (set_by_chain (<[chain := f c]> (by_chain s)))
  end.

Definition get_asset_info (srv : server) (evm_address chain bearer_token : string)
    : M stats json :=
  let payload :=
    JObj [("asset_identifier",
           JObj [("type", JStr "evm");
                 ("details",
                  JObj [("type", JStr "erc20");
                        ("token", JObj [("chain", JStr chain);
                                        ("hex_repr", JStr evm_address)])])])] in
  r ← requests_post srv AssetInfos bearer_token payload;
  match r with
  | ConnectionFailed =>
      log ERROR "Error getting asset info for {} on {}" [JStr evm_address; JStr chain];;
      mret JNull
  | FailedWithResponse =>
      log ERROR "Error getting asset info for {} on {}" [JStr evm_address; JStr chain];;
      log ERROR "Response: {}" [];;
      mret JNull
  | PostRaises name => mthrow (LibraryError name)
  | Response status_code body =>
      if is_error_status status_code then
        log ERROR "Error getting asset info for {} on {}" [JStr evm_address; JStr chain];;
        log ERROR "Response: {}" [];;
        mret JNull
      else
        match body with
        | None =>
            (* response.json() raises requests' JSONDecodeError, a
               RequestException with no response attached *)
            log ERROR "Error getting asset info for {} on {}" [JStr evm_address; JStr chain];;
            mret JNull
        | Some v => mret v
        end
  | Undecodable status_code name =>
      if is_error_status status_code then
        log ERROR "Error getting asset info for {} on {}" [JStr evm_address; JStr chain];;
        log ERROR "Response: {}" [];;
        mret JNull
      else mthrow (LibraryError name)
  end.

(** The body of [for chain in EVM_CHAINS]. *)
Definition process_chain (srv : server) (bearer_token_asset_info bearer_token_pricing : string)
    (dry_run : bool) (evm_address chain : string) : M stats unit :=
  log INFO "Processing chain: {}" [JStr chain];;
  log INFO "Getting asset info..." [];;
  asset_info ← get_asset_info srv evm_address chain bearer_token_asset_info;
  if negb (truthy asset_info) then
    log WARNING "Asset not found on {}" [JStr chain];;
    bump chain incr_not_found
  else
    asset_id ← lift (py_get asset_info "id" JNull);
    if negb (truthy asset_id) then
      log ERROR "No asset ID in response" [];;
      bump chain incr_failed;;
      modify incr_failed_chains
    else
      log INFO "Got asset ID: {}" [asset_id];;
      name ← lift (py_get asset_info "name" (JStr "N/A"));
      log INFO "Asset Name: {}" [name];;
      symbol ← lift (py_get asset_info "symbol" (JStr "N/A"));
      log INFO "Symbol: {}" [symbol];;
      (if negb dry_run then
         log INFO "Marking asset as not spam..." [];;
         ok ← mark_asset_not_spam srv asset_id bearer_token_pricing;
         if ok : bool then
           bump chain incr_success;;
           modify incr_processed_chains
         else
           bump chain incr_failed;;
           modify incr_failed_chains
       else
         log INFO "DRY RUN: Would mark asset {} as not spam" [asset_id];;
         bump chain incr_success;;
         modify incr_processed_chains);;
      sleep 1.

(** The body of [for row_num, row in enumerate(reader, start=2)]. *)
Definition process_row (srv : server) (bearer_token_asset_info bearer_token_pricing : string)
    (dry_run : bool) (chains : list string) (row_num : nat) (r : row) : M stats unit :=
  product_name ← lift (py_strip (row_get r "Product name"));
  token_symbol ← lift (py_strip (row_get r "Token Symbol"));
  evm_address ← lift (py_strip (row_get r "EVM address"));
  if str_empty evm_address || str_empty product_name then
    mret tt
  else
    modify incr_total_rows;;
    log INFO "Processing row {}: {} ({})" [py_int row_num; JStr product_name; JStr token_symbol];;
    log INFO "EVM Address: {}" [JStr evm_address];;
    (if dry_run then log INFO "DRY RUN MODE - No changes will be made" [] else mret tt);;
    for_each chains
      (process_chain srv bearer_token_asset_info bearer_token_pricing dry_run evm_address);;
    log INFO "Pausing for 0 seconds to respect rate limits..." [];;
    sleep 0.

Definition process_rows (srv : server) (bearer_token_asset_info bearer_token_pricing : string)
    (dry_run : bool) (chains : list string) (start : nat) (rows : list row) : M stats unit :=
  for_enumerate start rows
    (process_row srv bearer_token_asset_info bearer_token_pricing dry_run chains).

(** The summary, one line per counter. *)
Definition summary (chains : list string) : M stats unit :=
  s ← get_locals;
  log INFO "SUMMARY" [];;
  log INFO "Total rows processed: {}" [py_int (total_rows s)];;
  log INFO "Chains successfully processed: {}" [py_int (processed_chains s)];;
  log INFO "Chains failed: {}" [py_int (failed_chains s)];;
  log INFO "Rows skipped: {}" [py_int (skipped s)];;
  log INFO "BY CHAIN BREAKDOWN" [];;
  for_each chains (λ chain,
    match by_chain s !! chain with
    | None => mthrow KeyError
    | Some chain_stats =>
        log INFO "{}:" [JStr chain];;
        log INFO "Success: {}" [py_int (success chain_stats)];;
        log INFO "Failed: {}" [py_int (failed chain_stats)];;
        log INFO "Not found: {}" [py_int (not_found chain_stats)]
    end).

(** [process_csv], on the rows that [csv.DictReader] yields; [chains] is the
    module's [EVM_CHAINS]. *)
Definition process_csv (srv : server) (chains : list string) (rows : list row)
    (bearer_token_asset_info bearer_token_pricing : string) (dry_run : bool)
    : M stats unit :=
  modify (λ _, init_stats chains);;
  log INFO "Starting to process CSV file" [];;
  process_rows srv bearer_token_asset_info bearer_token_pricing dry_run chains 2 rows;;
  summary chains.

(** The configuration block of the script and what it finds at start-up:
    the two tokens as [os.getenv] returns them, and the rows of [CSV_FILE],
    [None] when the file does not exist.  The script sets [DRY_RUN] to
    [False] and [EVM_CHAINS] to [["evm_56"]]. *)
Record config : Type :=
  { BEARER_TOKEN_ASSET_INFO : option string;
    BEARER_TOKEN_PRICING : option string;
    csv_rows : option (list row);
    DRY_RUN : bool;
    EVM_CHAINS : list string }.

Definition main (cfg : config) (srv : server) : M stats unit :=
  log INFO "Log file created" [];;
  match nonempty (BEARER_TOKEN_ASSET_INFO cfg) with
  | None =>
      log ERROR "Error: BEARER_TOKEN_ASSET_INFO environment variable not set" [];;
      log ERROR "Please set it in your .env file or environment" [];;
      sys_exit 1
  | Some token_asset_info =>
      match nonempty (BEARER_TOKEN_PRICING cfg) with
      | None =>
          log ERROR "Error: BEARER_TOKEN_PRICING environment variable not set" [];;
          log ERROR "Please set it in your .env file or environment" [];;
          sys_exit 1
      | Some token_pricing =>
          match csv_rows cfg with
          | None =>
              log ERROR "Error: CSV file not found" [];;
              sys_exit 1
          | Some rows =>
              log INFO "BACKED ASSETS - MARK AS NOT SPAM (EVM)" [];;
              log INFO "CSV file: {}" [JStr CSV_FILE];;
              log INFO "Chains to process: {}" (JStr <$> EVM_CHAINS cfg);;
              (if DRY_RUN cfg
               then log WARNING "Running in DRY-RUN mode - no changes will be made" []
               else mret tt);;
              log INFO "" [];;
              process_csv srv (EVM_CHAINS cfg) rows token_asset_info token_pricing (DRY_RUN cfg);;
              log INFO "Script completed" []
          end
      end
  end.

(** A run starts with an empty trace. *)
Definition start : state stats := mkState (init_stats []) [].

(** *** Outcomes and sums *)

(** The validation of a row: the three cells are stripped, which raises on
    a cell that is [None], and then [not evm_address or not product_name]. *)
Definition row_skipped (r : row) : result bool :=
  match py_strip (row_get r "Product name"), py_strip (row_get r "Token Symbol"),
        py_strip (row_get r "EVM address") with
  | Ok product_name, Ok _, Ok evm_address =>
      Ok (str_empty evm_address || str_empty product_name)
  | _, _, _ => Raise AttributeError
  end.

(** The counters after the outcome [o] of a pair on [chain], whose bucket
    was [c]. *)
Definition record (chain : string) (c : chain_stats) (o : outcome) (s : stats) : stats :=
  match o with
  | Success => incr_processed_chains (set_by_chain (<[chain := incr_success c]> (by_chain s)) s)
  | Failed => incr_failed_chains (set_by_chain (<[chain := incr_failed c]> (by_chain s)) s)
  | NotFound => set_by_chain (<[chain := incr_not_found c]> (by_chain s)) s
  | _ => s
  end.

(** The sum of a counter over the per-chain buckets. *)
Definition bucket_sum (g : chain_stats → nat) (m : gmap string chain_stats) : nat :=
  map_fold (λ _ c acc, g c + acc) 0 m.

Definition outcome_total (s : stats) : nat :=
  bucket_sum success (by_chain s) + bucket_sum failed (by_chain s)
  + bucket_sum not_found (by_chain s) + skipped s.

(** The run-wide totals are the sums of the per-chain buckets. *)
Definition totals_derivable (s : stats) : Prop :=
  processed_chains s = bucket_sum success (by_chain s)
  ∧ failed_chains s = bucket_sum failed (by_chain s).

(** Every chain of the list has a bucket. *)
Definition has_buckets (chains : list string) (s : stats) : Prop :=
  ∀ chain, chain ∈ chains → is_Some (by_chain s !! chain).

(** A dry run [sd] and a live run [sl] in step: they agree on the counters
    and on the number of resolutions, and the dry run has made no mutation
    call since [base]. *)
Definition dry_live (chains : list string) (base : nat) (sd sl : state stats) : Prop :=
  locals sd = locals sl
  ∧ has_buckets chains (locals sd)
  ∧ calls AssetInfos (trace sd) = calls AssetInfos (trace sl)
  ∧ calls MarkAsSpam (trace sd) = base.

End Evm.

(** ** mark_not_spam_solana.py *)

Module Solana.

Definition CSV_FILE : string := "backed_list.csv".

Definition SOLANA_CHAIN : string := "solana_mainnet".

Record stats : Type :=
  { total_rows : nat;
    skipped : nat;
    success : nat;
    failed : nat;
    not_found : nat }.

Definition init_stats : stats :=
  {| total_rows := 0; skipped := 0; success := 0; failed := 0; not_found := 0 |}.

Definition incr_total_rows (s : stats) : stats :=
  {| total_rows := S (total_rows s); skipped := skipped s; success := success s;
     failed := failed s; not_found := not_found s |}.
Definition incr_success (s : stats) : stats :=
  {| total_rows := total_rows s; skipped := skipped s; success := S (success s);
     failed := failed s; not_found := not_found s |}.
Definition incr_failed (s : stats) : stats :=
  {| total_rows := total_rows s; skipped := skipped s; success := success s;
     failed := S (failed s); not_found := not_found s |}.
Definition incr_not_found (s : stats) : stats :=
  {| total_rows := total_rows s; skipped := skipped s; success := success s;
     failed := failed s; not_found := S (not_found s) |}.

Definition get_asset_info (srv : server) (solana_address bearer_token : string)
    : M stats json :=
  let payload :=
    JObj [("asset_identifier",
           JObj [("type", JStr "solana");
                 ("details",
                  JObj [("type", JStr "spl_token");
                        ("token", JObj [("chain", JStr SOLANA_CHAIN);
                                        ("base58_repr", JStr solana_address)])])])] in
  r ← requests_post srv AssetInfos bearer_token payload;
  match r with
  | ConnectionFailed =>
      log ERROR "Error getting asset info for {}" [JStr solana_address];;
      mret JNull
  | FailedWithResponse =>
      log ERROR "Error getting asset info for {}" [JStr solana_address];;
      log ERROR "Response: {}" [];;
      mret JNull
  | PostRaises name => mthrow (LibraryError name)
  | Response status_code body =>
      if is_error_status status_code then
        log ERROR "Error getting asset info for {}" [JStr solana_address];;
        log ERROR "Response: {}" [];;
        mret JNull
      else
        match body with
        | None =>
            log ERROR "Error getting asset info for {}" [JStr solana_address];;
            mret JNull
        | Some v => mret v
        end
  | Undecodable status_code name =>
      if is_error_status status_code then
        log ERROR "Error getting asset info for {}" [JStr solana_address];;
        log ERROR "Response: {}" [];;
        mret JNull
      else mthrow (LibraryError name)
  end.

(** The body of [for row_num, row in enumerate(reader, start=2)]. *)
Definition process_row (srv : server) (bearer_token_asset_info bearer_token_pricing : string)
    (dry_run : bool) (row_num : nat) (r : row) : M stats unit :=
  product_name ← lift (py_strip (row_get r "Product name"));
  token_symbol ← lift (py_strip (row_get r "Token Symbol"));
  solana_address ← lift (py_strip (row_get r "Solana Address"));
  if str_empty solana_address || str_empty product_name then
    mret tt
  else
    modify incr_total_rows;;
    log INFO "Processing row {}: {} ({})" [py_int row_num; JStr product_name; JStr token_symbol];;
    log INFO "Solana Address: {}" [JStr solana_address];;
    (if dry_run then log INFO "DRY RUN MODE - No changes will be made" [] else mret tt);;
    log INFO "Getting asset info from Solana..." [];;
    asset_info ← get_asset_info srv solana_address bearer_token_asset_info;
    if negb (truthy asset_info) then
      log WARNING "Asset not found on Solana" [];;
      modify incr_not_found;;
      sleep 2
    else
      asset_id ← lift (py_get asset_info "id" JNull);
      if negb (truthy asset_id) then
        log ERROR "No asset ID in response" [];;
        modify incr_failed;;
        sleep 2
      else
        log INFO "Got asset ID: {}" [asset_id];;
        name ← lift (py_get asset_info "name" (JStr "N/A"));
        log INFO "Asset Name: {}" [name];;
        symbol ← lift (py_get asset_info "symbol" (JStr "N/A"));
        log INFO "Symbol: {}" [symbol];;
        (if negb dry_run then
           log INFO "Marking asset as not spam..." [];;
           ok ← mark_asset_not_spam srv asset_id bearer_token_pricing;
           if ok : bool then modify incr_success else modify incr_failed
         else
           log INFO "DRY RUN: Would mark asset {} as not spam" [asset_id];;
           modify incr_success);;
        log INFO "Pausing for 3 seconds to respect rate limits..." [];;
        sleep 3.

Definition process_rows (srv : server) (bearer_token_asset_info bearer_token_pricing : string)
    (dry_run : bool) (start : nat) (rows : list row) : M stats unit :=
  for_enumerate start rows
    (process_row srv bearer_token_asset_info bearer_token_pricing dry_run).

Definition summary : M stats unit :=
  s ← get_locals;
  log INFO "SUMMARY" [];;
  log INFO "Total rows processed: {}" [py_int (total_rows s)];;
  log INFO "Successfully marked as not spam: {}" [py_int (success s)];;
  log INFO "Failed: {}" [py_int (failed s)];;
  log INFO "Not found on Solana: {}" [py_int (not_found s)];;
  log INFO "Rows skipped: {}" [py_int (skipped s)].

Definition process_csv (srv : server) (rows : list row)
    (bearer_token_asset_info bearer_token_pricing : string) (dry_run : bool)
    : M stats unit :=
  modify (λ _, init_stats);;
  log INFO "Starting to process CSV file" [];;
  process_rows srv bearer_token_asset_info bearer_token_pricing dry_run 2 rows;;
  summary.

Record config : Type :=
  { BEARER_TOKEN_ASSET_INFO : option string;
    BEARER_TOKEN_PRICING : option string;
    csv_rows : option (list row);
    DRY_RUN : bool }.

Definition main (cfg : config) (srv : server) : M stats unit :=
  log INFO "Log file created" [];;
  match nonempty (BEARER_TOKEN_ASSET_INFO cfg) with
  | None =>
      log ERROR "Error: BEARER_TOKEN_ASSET_INFO environment variable not set" [];;
      log ERROR "Please set it in your .env file or environment" [];;
      sys_exit 1
  | Some token_asset_info =>
      match nonempty (BEARER_TOKEN_PRICING cfg) with
      | None =>
          log ERROR "Error: BEARER_TOKEN_PRICING environment variable not set" [];;
          log ERROR "Please set it in your .env file or environment" [];;
          sys_exit 1
      | Some token_pricing =>
          match csv_rows cfg with
          | None =>
              log ERROR "Error: CSV file not found" [];;
              sys_exit 1
          | Some rows =>
              log INFO "BACKED ASSETS - MARK AS NOT SPAM (SOLANA)" [];;
              log INFO "CSV file: {}" [JStr CSV_FILE];;
              log INFO "Chain: {}" [JStr SOLANA_CHAIN];;
              (if DRY_RUN cfg
               then log WARNING "Running in DRY-RUN mode - no changes will be made" []
               else mret tt);;
              log INFO "" [];;
              process_csv srv rows token_asset_info token_pricing (DRY_RUN cfg);;
              log INFO "Script completed" []
          end
      end
  end.

Definition start : state stats := mkState init_stats [].

(** *** Outcomes *)

(** The validation of a row: the three cells are stripped, which raises on
    a cell that is [None], and then [not solana_address or not
    product_name]. *)
Definition row_skipped (r : row) : result bool :=
  match py_strip (row_get r "Product name"), py_strip (row_get r "Token Symbol"),
        py_strip (row_get r "Solana Address") with
  | Ok product_name, Ok _, Ok solana_address =>
      Ok (str_empty solana_address || str_empty product_name)
  | _, _, _ => Raise AttributeError
  end.

Definition record (o : outcome) (s : stats) : stats :=
  match o with
  | Success => incr_success s
  | Failed => incr_failed s
  | NotFound => incr_not_found s
  | _ => s
  end.

Definition outcome_total (s : stats) : nat :=
  success s + failed s + not_found s + skipped s.

(** A dry run [sd] and a live run [sl] in step: they agree on the counters
    and on the number of resolutions, and the dry run has made no mutation
    call since [base]. *)
Definition dry_live (base : nat) (sd sl : state stats) : Prop :=
  locals sd = locals sl
  ∧ calls AssetInfos (trace sd) = calls AssetInfos (trace sl)
  ∧ calls MarkAsSpam (trace sd) = base.

End Solana.

(** ** run.py, the price update *)

Module Price.

Record stats : Type := { successful : nat; failed : nat; skipped : nat }.

Definition init_stats : stats := {| successful := 0; failed := 0; skipped := 0 |}.

Definition incr_successful (s : stats) : stats :=
  {| successful := S (successful s); failed := failed s; skipped := skipped s |}.
Definition incr_failed (s : stats) : stats :=
  {| successful := successful s; failed := S (failed s); skipped := skipped s |}.
Definition incr_skipped (s : stats) : stats :=
  {| successful := successful s; failed := failed s; skipped := S (skipped s) |}.

Definition get_asset_info (srv : server) (bsc_address bearer_token : string)
    : M stats json :=
  let payload :=
    JObj [("asset_identifier",
           JObj [("type", JStr "evm");
                 ("details",
                  JObj [("type", JStr "erc20");
                        ("token", JObj [("chain", JStr "evm_56");
                                        ("hex_repr", JStr bsc_address)])])])] in
  r ← requests_post srv AssetInfos bearer_token payload;
  match r with
  | ConnectionFailed =>
      log PRINT "Error getting asset info for {}" [JStr bsc_address];;
      mret JNull
  | FailedWithResponse =>
      log PRINT "Error getting asset info for {}" [JStr bsc_address];;
      log PRINT "Response: {}" [];;
      mret JNull
  | PostRaises name => mthrow (LibraryError name)
  | Response status_code body =>
      if is_error_status status_code then
        log PRINT "Error getting asset info for {}" [JStr bsc_address];;
        log PRINT "Response: {}" [];;
        mret JNull
      else
        match body with
        | None =>
            log PRINT "Error getting asset info for {}" [JStr bsc_address];;
            mret JNull
        | Some v => mret v
        end
  | Undecodable status_code name =>
      if is_error_status status_code then
        log PRINT "Error getting asset info for {}" [JStr bsc_address];;
        log PRINT "Response: {}" [];;
        mret JNull
      else mthrow (LibraryError name)
  end.

(** [str(dry_run).lower()]. *)
Definition str_lower_bool (b : bool) : string := if b then "true" else "false".

Definition update_asset_price (srv : server) (asset_id : json)
    (coingecko_id bearer_token : string) (dry_run : bool) : M stats json :=
  let data :=
    JObj [("asset_id", asset_id); ("price", JStr "");
          ("coingecko_id", JStr coingecko_id);
          ("dry_run", JStr (str_lower_bool dry_run))] in
  r ← requests_post srv UpdatePrice bearer_token data;
  match r with
  | ConnectionFailed =>
      log PRINT "Error updating price for asset {}" [asset_id];;
      mret JNull
  | FailedWithResponse =>
      log PRINT "Error updating price for asset {}" [asset_id];;
      log PRINT "Response: {}" [];;
      mret JNull
  | PostRaises name => mthrow (LibraryError name)
  | Response status_code body =>
      if is_error_status status_code then
        log PRINT "Error updating price for asset {}" [asset_id];;
        log PRINT "Response: {}" [];;
        mret JNull
      else
        match body with
        | None =>
            log PRINT "Error updating price for asset {}" [asset_id];;
            mret JNull
        | Some v => mret v
        end
  | Undecodable status_code name =>
      if is_error_status status_code then
        log PRINT "Error updating price for asset {}" [asset_id];;
        log PRINT "Response: {}" [];;
        mret JNull
      else mthrow (LibraryError name)
  end.

(** The body of [for row_num, row in enumerate(reader, start=2)]. *)
Definition process_row (srv : server) (bearer_token_asset_info bearer_token_pricing : string)
    (dry_run : bool) (row_num : nat) (r : row) : M stats unit :=
  let name := row_get r "Name" in
  bsc_address ← lift (py_strip (row_get r "BSC Deployed Address"));
  coingecko_id ← lift (py_strip (row_get r "CoinGecko API ID"));
  log PRINT "Processing row {}: {}" [py_int row_num; cell_json name];;
  if str_empty bsc_address || str_empty coingecko_id then
    log PRINT "Skipping - Missing BSC address or CoinGecko ID" [];;
    modify incr_skipped
  else
    log PRINT "BSC Address: {}" [JStr bsc_address];;
    log PRINT "CoinGecko ID: {}" [JStr coingecko_id];;
    log PRINT "Step 1: Getting asset info..." [];;
    asset_info ← get_asset_info srv bsc_address bearer_token_asset_info;
    if negb (truthy asset_info) then
      log PRINT "Failed to get asset info" [];;
      modify incr_failed
    else
      asset_id ← lift (py_get asset_info "id" JNull);
      if negb (truthy asset_id) then
        log PRINT "No asset ID in response" [];;
        modify incr_failed
      else
        log PRINT "Got asset ID: {}" [asset_id];;
        asset_name ← lift (py_get asset_info "name" (JStr "N/A"));
        log PRINT "Asset Name: {}" [asset_name];;
        symbol ← lift (py_get asset_info "symbol" (JStr "N/A"));
        log PRINT "Symbol: {}" [symbol];;
        log PRINT "Step 2: Updating price with CoinGecko ID..." [];;
        price_response ← update_asset_price srv asset_id coingecko_id bearer_token_pricing dry_run;
        if negb (truthy price_response) then
          log PRINT "Failed to update price" [];;
          modify incr_failed
        else
          stdout ← lift (py_get price_response "stdout" (JStr ""));
          (if truthy stdout then
             log PRINT "Price updated successfully!" [];;
             n ← lift (py_len stdout);
             log PRINT "stdout present: {} characters" [py_int n];;
             preview ← lift (py_prefix 600 stdout);
             log PRINT "Preview: {}..." [preview];;
             modify incr_successful
           else
             log PRINT "Warning: No stdout in response" [];;
             log PRINT "Response: {}" [price_response];;
             modify incr_failed);;
          log PRINT "Pausing for 5 seconds to respect rate limits..." [];;
          sleep 5.

Definition process_rows (srv : server) (bearer_token_asset_info bearer_token_pricing : string)
    (dry_run : bool) (start : nat) (rows : list row) : M stats unit :=
  for_enumerate start rows
    (process_row srv bearer_token_asset_info bearer_token_pricing dry_run).

Definition summary : M stats unit :=
  s ← get_locals;
  log PRINT "SUMMARY" [];;
  log PRINT "Successful: {}" [py_int (successful s)];;
  log PRINT "Failed: {}" [py_int (failed s)];;
  log PRINT "Skipped: {}" [py_int (skipped s)];;
  log PRINT "Total processed: {}" [py_int (successful s + failed s + skipped s)].

Definition process_csv (srv : server) (rows : list row)
    (bearer_token_asset_info bearer_token_pricing : string) (dry_run : bool)
    : M stats unit :=
  modify (λ _, init_stats);;
  process_rows srv bearer_token_asset_info bearer_token_pricing dry_run 2 rows;;
  summary.

Record config : Type :=
  { BEARER_TOKEN_ASSET_INFO : option string;
    BEARER_TOKEN_PRICING : option string;
    CSV_FILE : string;
    csv_rows : option (list row);
    DRY_RUN : bool }.

(** [not TOKEN or TOKEN == "eyJ"] fails: the token when it is set, not empty
    and not the placeholder. *)
Definition configured (v : option string) : option string :=
  match nonempty v with
  | Some s => if String.eqb s "eyJ" then None else Some s
  | None => None
  end.

Definition main (cfg : config) (srv : server) : M stats unit :=
  match configured (BEARER_TOKEN_ASSET_INFO cfg) with
  | None =>
      log PRINT "Error: Please update BEARER_TOKEN_ASSET_INFO in the script configuration section" [];;
      sys_exit 1
  | Some token_asset_info =>
      match configured (BEARER_TOKEN_PRICING cfg) with
      | None =>
          log PRINT "Error: Please update BEARER_TOKEN_PRICING in the script configuration section" [];;
          sys_exit 1
      | Some token_pricing =>
          if str_empty (CSV_FILE cfg) then
            log PRINT "Error: Please update CSV_FILE in the script configuration section" [];;
            sys_exit 1
          else
            match csv_rows cfg with
            | None =>
                log PRINT "Error: CSV file not found: {}" [JStr (CSV_FILE cfg)];;
                sys_exit 1
            | Some rows =>
                log PRINT "Processing CSV file: {}" [JStr (CSV_FILE cfg)];;
                (if DRY_RUN cfg then log PRINT "Running in DRY-RUN mode" [] else mret tt);;
                log PRINT "" [];;
                process_csv srv rows token_asset_info token_pricing (DRY_RUN cfg)
            end
      end
  end.

Definition start : state stats := mkState init_stats [].

(** *** Outcomes *)

(** The validation of a row: the two cells are stripped, which raises on a
    cell that is [None], and then [not bsc_address or not coingecko_id]. *)
Definition row_skipped (r : row) : result bool :=
  match py_strip (row_get r "BSC Deployed Address"),
        py_strip (row_get r "CoinGecko API ID") with
  | Ok bsc_address, Ok coingecko_id =>
      Ok (str_empty bsc_address || str_empty coingecko_id)
  | _, _ => Raise AttributeError
  end.

(** The outcome of the stdout check on the decoded reply of the price
    update. *)
Definition stdout_outcome (price_response : json) : outcome :=
  match py_get price_response "stdout" (JStr "") with
  | Raise e => Uncaught e
  | Ok stdout =>
      if truthy stdout then
        match py_len stdout with
        | Raise e => Uncaught e
        | Ok _ =>
            match py_prefix 600 stdout with
            | Raise e => Uncaught e
            | Ok _ => Success
            end
        end
      else Failed
  end.

(** The outcome of a row that passes the validation. *)
Definition price_outcome (resolve update : http_result) : outcome :=
  match client_result resolve with
  | Raise e => Uncaught e
  | Ok asset_info =>
      if negb (truthy asset_info) then Failed
      else match py_get asset_info "id" JNull with
           | Raise e => Uncaught e
           | Ok asset_id =>
               if negb (truthy asset_id) then Failed
               else match client_result update with
                    | Raise e => Uncaught e
                    | Ok price_response =>
                        if negb (truthy price_response) then Failed
                        else stdout_outcome price_response
                    end
           end
  end.

(** Whether the row reaches the call of [update_asset_price]. *)
Definition price_mutates (resolve : http_result) : bool :=
  truthy (decoded resolve)
  && match py_get (decoded resolve) "id" JNull with
     | Ok asset_id => truthy asset_id
     | Raise _ => false
     end.

Definition record (o : outcome) (s : stats) : stats :=
  match o with
  | Success => incr_successful s
  | Failed => incr_failed s
  | Skipped => incr_skipped s
  | _ => s
  end.


End Price.

(** ** Exceptions of a run *)


(** ** Requests and pauses of a trace *)

(** The calls of [requests.post] of a trace, in order: endpoint, bearer
    token and payload. *)
Fixpoint posts (t : list event) : list (endpoint * string * json) :=
  match t with
  | [] => []
  | Post ep bearer_token payload :: t' => (ep, bearer_token, payload) :: posts t'
  | _ :: t' => posts t'
  end.

(** The seconds spent in [time.sleep]. *)
Fixpoint slept (t : list event) : nat :=
  match t with
  | [] => 0
  | Sleep seconds :: t' => seconds + slept t'
  | _ :: t' => slept t'
  end.

(** The payloads of the calls on the resolution endpoint, in order. *)
Definition resolutions (t : list event) : list json :=
  omap (λ '(ep, _, payload),
          match ep with AssetInfos => Some payload | _ => None end) (posts t).

(** The JSON body that [get_asset_info] of the EVM script and of the price
    script passes to [requests.post]. *)
Definition evm_resolution (chain evm_address : string) : json :=
  JObj [("asset_identifier",
         JObj [("type", JStr "evm");
               ("details",
                JObj [("type", JStr "erc20");
                      ("token", JObj [("chain", JStr chain);
                                      ("hex_repr", JStr evm_address)])])])].

(** The JSON body that [get_asset_info] of the Solana script passes to
    [requests.post]. *)
Definition solana_resolution (solana_address : string) : json :=
  JObj [("asset_identifier",
         JObj [("type", JStr "solana");
               ("details",
                JObj [("type", JStr "spl_token");
                      ("token", JObj [("chain", JStr Solana.SOLANA_CHAIN);
                                      ("base58_repr", JStr solana_address)])])])].

(** The form data that [mark_asset_not_spam] passes to [requests.post]. *)
Definition spam_form (asset_id : json) : json :=
  JObj [("asset_id", asset_id); ("spam", JStr "false")].

(** The form data that [update_asset_price] passes to [requests.post]. *)
Definition price_form (asset_id : json) (coingecko_id : string) (dry_run : bool) : json :=
  JObj [("asset_id", asset_id); ("price", JStr "");
        ("coingecko_id", JStr coingecko_id);
        ("dry_run", JStr (Price.str_lower_bool dry_run))].

(** [asset_info.get('id')] on the value that a resolution reply decodes
    to. *)
Definition asset_id_of (r : http_result) : json :=
  match py_get (decoded r) "id" JNull with
  | Ok asset_id => asset_id
  | Raise _ => JNull
  end.

(** A string of whitespace only, the empty string included. *)
Fixpoint blank (s : string) : bool :=
  match s with
  | EmptyString => true
  | String c s' => is_space c && blank s'
  end.

(** The first and the last character of a string. *)
Definition first_char (s : string) : option ascii :=
  match s with
  | EmptyString => None
  | String c _ => Some c
  end.

Definition last_char (s : string) : option ascii := first_char (String.rev s).













(** The requests that the spam scripts may make: a resolution with the
    asset-info token, or in a live run a mutation with the pricing token
    that sets [spam] to ["false"] for an asset id that is not falsy. *)
Definition spam_request (token_asset_info token_pricing : string) (dry_run : bool)
    (p : endpoint * string * json) : Prop :=
  match p with
  | (AssetInfos, bearer_token, _) => bearer_token = token_asset_info
  | (MarkAsSpam, bearer_token, form) =>
      bearer_token = token_pricing ∧ dry_run = false
      ∧ ∃ asset_id, truthy asset_id = true ∧ form = spam_form asset_id
  | (UpdatePrice, _, _) => False
  end.

(** The requests that the price script may make: a resolution with the
    asset-info token, or a price update with the pricing token, an empty
    price, a CoinGecko id that is not empty and the dry-run flag of the
    run. *)
Definition price_request (token_asset_info token_pricing : string) (dry_run : bool)
    (p : endpoint * string * json) : Prop :=
  match p with
  | (AssetInfos, bearer_token, _) => bearer_token = token_asset_info
  | (UpdatePrice, bearer_token, form) =>
      bearer_token = token_pricing
      ∧ ∃ asset_id coingecko_id,
          truthy asset_id = true ∧ str_empty coingecko_id = false
          ∧ form = price_form asset_id coingecko_id dry_run
  | (MarkAsSpam, _, _) => False
  end.

(** The resolutions that a file calls for, in order: one per configured
    chain for every row that passes the validation. *)
Definition evm_resolutions (chains : list string) (rows : list row) : list json :=
  flat_map (λ r, match Evm.row_skipped r with
                 | Ok false =>
                     List.map (λ chain,
                                 evm_resolution chain
                                   (strip (cell_text (row_get r "EVM address"))))
                       chains
                 | _ => []
                 end) rows.

Definition solana_resolutions (rows : list row) : list json :=
  flat_map (λ r, match Solana.row_skipped r with
                 | Ok false =>
                     [solana_resolution (strip (cell_text (row_get r "Solana Address")))]
                 | _ => []
                 end) rows.

Definition price_resolutions (rows : list row) : list json :=
  flat_map (λ r, match Price.row_skipped r with
                 | Ok false =>
                     [evm_resolution "evm_56"
                        (strip (cell_text (row_get r "BSC Deployed Address")))]
                 | _ => []
                 end) rows.

(** The rows handled by the price script: [successful + failed + skipped],
    the sum that its summary prints as the total. *)
Definition price_processed (s : Price.stats) : nat :=
  Price.successful s + Price.failed s + Price.skipped s.

(** The number of rows of a file that the validation [skipped] sends to the
    next row. *)
Definition count_rows (skipped : row → result bool) (rows : list row) : nat :=
  length (List.filter (λ r, match skipped r with Ok true => true | _ => false end) rows).

(** The number of rows of a file that pass the validation [skipped]. *)
Definition valid_rows (skipped : row → result bool) (rows : list row) : nat :=
  length (List.filter (λ r, match skipped r with Ok false => true | _ => false end) rows).

(** From a state in [P], the computation [m] only appends to the trace and
    stays in [P]; its requests all satisfy [allowed]; its resolutions are the
    list [expected] when it returns and a prefix of it when it raises. *)
Definition emits {L A} (P : state L → Prop) (allowed : endpoint * string * json → Prop)
    (expected : list json) (m : M L A) : Prop :=
  ∀ st, P st →
    ∃ evs,
      trace (snd (m st)) = (trace st ++ evs)%list
      ∧ P (snd (m st))
      ∧ resolutions evs `prefix_of` expected
      ∧ (is_ok (fst (m st)) = true → resolutions evs = expected)
      ∧ Forall allowed (posts evs).

(** * Sample inputs *)

Definition row_evm : row :=
  list_to_map [("Product name", Some "TokenX"); ("Token Symbol", Some "TKX");
               ("EVM address", Some "0xabc")].

(** A row whose address cell holds only blanks. *)
Definition row_evm_blank : row :=
  list_to_map [("Product name", Some "TokenX"); ("Token Symbol", Some "TKX");
               ("EVM address", Some "  ")].

Definition row_solana : row :=
  list_to_map [("Product name", Some "TokenX"); ("Token Symbol", Some "TKX");
               ("Solana Address", Some "So1abc")].

Definition row_solana_blank : row :=
  list_to_map [("Product name", Some ""); ("Token Symbol", Some "TKX");
               ("Solana Address", Some "So1abc")].

Definition row_price : row :=
  list_to_map [("Name", Some "TokenX"); ("BSC Deployed Address", Some "0xabc");
               ("CoinGecko API ID", Some "tokenx")].


Definition row_price_no_id : row :=
  list_to_map [("Name", Some "TokenX"); ("BSC Deployed Address", Some "0xabc");
               ("CoinGecko API ID", Some "")].

Definition asset_a1 : json :=
  JObj [("id", JStr "A1"); ("name", JStr "TokenX"); ("symbol", JStr "TKX")].

(** A service on which every call succeeds. *)
Definition srv_ok : server :=
  λ ep _,
    match ep with
    | AssetInfos => Response 200 (Some asset_a1)
    | MarkAsSpam => Response 200 None
    | UpdatePrice => Response 200 (Some (JObj [("stdout", JStr "updated")]))
    end.

(** The same service with [r] as the reply of every resolution. *)
Definition srv_resolving (r : http_result) : server :=
  λ ep n, match ep with AssetInfos => r | _ => srv_ok ep n end.

(** The same service with [r] as the reply of every mutation. *)
Definition srv_mutating (r : http_result) : server :=
  λ ep n, match ep with AssetInfos => srv_ok ep n | _ => r end.

(** The service resolves the first address to a JSON array. *)
Definition srv_array_first : server :=
  λ ep n,
    match ep, n with
    | AssetInfos, 0 => Response 200 (Some (JArr [JInt 1]))
    | _, _ => srv_ok ep n
    end.

(** The price update answers with a number under ["stdout"]. *)
Definition srv_numeric_stdout : server :=
  srv_mutating (Response 200 (Some (JObj [("stdout", JInt 5)]))).

Definition evm_config : Evm.config :=
  {| Evm.BEARER_TOKEN_ASSET_INFO := Some "t1";
     Evm.BEARER_TOKEN_PRICING := Some "t2";
     Evm.csv_rows := Some [row_evm; row_evm];
     Evm.DRY_RUN := false;
     Evm.EVM_CHAINS := ["evm_56"] |}.

Definition evm_ready : state Evm.stats := mkState (Evm.init_stats ["evm_56"]) [].

(** * Proofs *)

(** ** The trace and the client functions *)

Lemma calls_app ep t1 t2 : calls ep (t1 ++ t2) = calls ep t1 + calls ep t2.
Proof. induction t1 as [|e t1 IH]; simpl; [done|]. rewrite IH. lia. Qed.

Lemma net_calls_app t1 t2 : net_calls (t1 ++ t2) = net_calls t1 + net_calls t2.
Proof.
  induction t1 as [|e t1 IH]; simpl; [done|].
  destruct e; simpl; rewrite IH; lia.
Qed.

Lemma net_calls_split t :
  net_calls t = calls AssetInfos t + calls MarkAsSpam t + calls UpdatePrice t.
Proof.
  induction t as [|e t IH]; simpl; [done|].
  destruct e as [[] ? ?| |]; simpl; lia.
Qed.

Lemma logged_app lvl msg t1 t2 :
  logged lvl msg (t1 ++ t2) = logged lvl msg t1 || logged lvl msg t2.
Proof.
  induction t1 as [|e t1 IH]; simpl; [done|].
  destruct e; simpl; rewrite ?IH, ?orb_assoc; done.
Qed.

Lemma decoded_failed r : resolution_failed r = true → client_result r = Ok JNull.
Proof.
  unfold client_result.
  destruct r as [| |name|code [v|]|code name]; simpl; try done.
  - rewrite orb_false_r. by intros ->.
  - by destruct (is_error_status code).
  - by intros ->.
Qed.

Lemma client_result_ok r v : client_result r = Ok v → v = decoded r.
Proof. unfold client_result. destruct (client_raises r); congruence. Qed.

Lemma client_result_raise r e : client_result r = Raise e ↔ client_raises r = Some e.
Proof. unfold client_result. destruct (client_raises r); split; congruence. Qed.

Lemma client_raises_decoded r e : client_raises r = Some e → decoded r = JNull.
Proof.
  destruct r as [| |name|code body|code name]; simpl; try done.
Qed.

Lemma mark_result_raise r e : mark_result r = Raise e ↔ post_raises r = Some e.
Proof. unfold mark_result. destruct (post_raises r); split; congruence. Qed.


Lemma recorded_true o : recorded o = true → outcome_result o = Ok tt.
Proof. by destruct o. Qed.

Lemma recorded_false o : recorded o = false → ∃ e, o = Uncaught e.
Proof. destruct o; try done. by eexists. Qed.


Ltac munfold :=
  unfold requests_post, log, sleep, emit, modify, get_locals, lift, sys_exit,
    mthrow, mbind, mret, M_MBind, M_MRet, M_MThrow, M_bind, M_ret, M_throw in *.

(** Splits on the cells that the goal reads from [row]: a text or [None]. *)
Ltac row_cells row :=
  repeat match goal with
  | |- context [row_get row ?key] =>
      let c := fresh "c" in
      let E := fresh "E" in
      destruct (row_get row key) as [c|] eqn:E
  end.

(** Closes a goal [∃ evs, run = (r, mkState l (trace st ++ evs)) ∧ counts]
    once the run has been evaluated. *)
Ltac finish_run :=
  rewrite <- ?app_assoc; eexists; split; [reflexivity|];
  rewrite ?calls_app; cbn;
  rewrite ?andb_false_r, ?andb_true_r; cbn;
  repeat match goal with H : truthy _ = _ |- _ => rewrite H end; cbn;
  repeat split; lia.

Lemma mark_asset_not_spam_run {L} srv asset_id tok (st : state L) :
  ∃ evs,
    mark_asset_not_spam srv asset_id tok st
    = (mark_result (next_reply srv MarkAsSpam st), mkState (locals st) (trace st ++ evs))
    ∧ calls AssetInfos evs = 0 ∧ calls MarkAsSpam evs = 1 ∧ calls UpdatePrice evs = 0.
Proof.
  unfold mark_asset_not_spam, next_reply, mark_result. munfold. cbn.
  destruct (srv MarkAsSpam _) as [| |name|code body|code name]; cbn; try finish_run;
    (destruct (is_error_status code); cbn; [finish_run|]);
    destruct (code =? 200)%Z; cbn; finish_run.
Qed.

#[local] Arguments mark_asset_not_spam : simpl never.

(** ** Loops *)

Lemma for_each_invariant {L A} (P : state L → Prop) (body : A → M L unit) l :
  (∀ a st, P st → P (snd (body a st))) →
  ∀ st, P st → P (snd (for_each l body st)).
Proof.
  intros Hbody. induction l as [|a l IH]; intros st HP; simpl; [done|].
  unfold mbind, M_MBind, M_bind.
  specialize (Hbody a st HP).
  destruct (body a st) as [[[]|e] st1]; simpl in *; auto.
Qed.

Lemma for_enumerate_invariant {L A} (P : state L → Prop) (body : nat → A → M L unit) l :
  (∀ n a st, P st → P (snd (body n a st))) →
  ∀ start st, P st → P (snd (for_enumerate start l body st)).
Proof.
  intros Hbody. induction l as [|a l IH]; intros start st HP; simpl; [done|].
  unfold mbind, M_MBind, M_bind.
  specialize (Hbody start a st HP).
  destruct (body start a st) as [[[]|e] st1]; simpl in *; auto.
Qed.





(** ** mark_not_spam_evm.py *)

Section evm.
Import Evm.

Lemma evm_get_asset_info_run srv addr chain tok (st : state stats) :
  ∃ evs,
    get_asset_info srv addr chain tok st
    = (client_result (next_reply srv AssetInfos st), mkState (locals st) (trace st ++ evs))
    ∧ calls AssetInfos evs = 1 ∧ calls MarkAsSpam evs = 0 ∧ calls UpdatePrice evs = 0.
Proof.
  unfold get_asset_info, next_reply, client_result. munfold. cbn.
  destruct (srv AssetInfos _) as [| |name|code body|code name]; cbn; try finish_run.
  - destruct (is_error_status code); cbn; [finish_run|].
    destruct body; cbn; finish_run.
  - destruct (is_error_status code); cbn; finish_run.
Qed.

#[local] Arguments get_asset_info : simpl never.

(** The body of the chain loop computes [spam_outcome] and records it. *)
Lemma evm_process_chain_run srv t1 t2 dry addr chain (st : state stats) c :
  by_chain (locals st) !! chain = Some c →
  ∃ evs,
    process_chain srv t1 t2 dry addr chain st
    = (outcome_result
         (spam_outcome dry (next_reply srv AssetInfos st) (next_reply srv MarkAsSpam st)),
       mkState
         (record chain c
            (spam_outcome dry (next_reply srv AssetInfos st) (next_reply srv MarkAsSpam st))
            (locals st))
         (trace st ++ evs))
    ∧ calls AssetInfos evs = 1
    ∧ calls MarkAsSpam evs = (if spam_mutates dry (next_reply srv AssetInfos st) then 1 else 0)
    ∧ calls UpdatePrice evs = 0.
Proof.
  intros Hc. unfold process_chain, spam_outcome, spam_mutates, bump.
  munfold. cbn.
  edestruct (evm_get_asset_info_run srv addr chain t1) as (e1 & -> & Ha1 & Hm1 & Hp1).
  unfold next_reply.
  cbn. rewrite ?calls_app. cbn. rewrite ?Nat.add_0_r.
  destruct (client_result _) as [info|e] eqn:Hcr; cbn.
  2:{ apply client_result_raise, client_raises_decoded in Hcr. rewrite Hcr. cbn.
      finish_run. }
  apply client_result_ok in Hcr. rewrite <- Hcr.
  destruct (truthy info) eqn:Ht; cbn.
  2:{ rewrite Hc. cbn. finish_run. }
  destruct info; cbn; try solve [finish_run].
  set (id := match assoc_last "id" items with Some x => x | None => JNull end).
  destruct (truthy id) eqn:Hid; cbn.
  2:{ rewrite Hc. cbn. finish_run. }
  destruct dry; cbn.
  { rewrite Hc. cbn. finish_run. }
  edestruct (mark_asset_not_spam_run (L:=stats) srv id t2) as (e2 & -> & Ha2 & Hm2 & Hp2).
  unfold next_reply. cbn. rewrite ?calls_app, ?Hm1. cbn. rewrite ?Nat.add_0_r.
  destruct (mark_result _) as [[]|e]; cbn; rewrite ?Hc; cbn; finish_run.
Qed.

(** Without a bucket for the chain no counter changes. *)
Lemma evm_process_chain_no_bucket srv t1 t2 dry addr chain (st : state stats) :
  by_chain (locals st) !! chain = None →
  ∃ e evs,
    process_chain srv t1 t2 dry addr chain st
    = (Raise e, mkState (locals st) (trace st ++ evs)).
Proof.
  intros Hc. unfold process_chain, bump.
  munfold. cbn.
  edestruct (evm_get_asset_info_run srv addr chain t1) as (e1 & -> & _).
  cbn. destruct (client_result _) as [info|e]; cbn.
  2:{ rewrite <- ?app_assoc. by eexists _, _. }
  destruct (truthy info) eqn:Ht; cbn.
  2:{ rewrite Hc. cbn. rewrite <- ?app_assoc. by eexists _, _. }
  destruct info; cbn; try solve [rewrite <- ?app_assoc; by eexists _, _].
  set (id := match assoc_last "id" items with Some x => x | None => JNull end).
  destruct (truthy id) eqn:Hid; cbn.
  2:{ rewrite Hc. cbn. rewrite <- ?app_assoc. by eexists _, _. }
  destruct dry; cbn.
  { rewrite Hc. cbn. rewrite <- ?app_assoc. by eexists _, _. }
  edestruct (mark_asset_not_spam_run (L:=stats) srv id t2) as (e2 & -> & _).
  cbn. destruct (mark_result _) as [[]|e]; cbn; rewrite ?Hc; cbn; rewrite <- ?app_assoc;
    by eexists _, _.
Qed.

(** *** Sums over the buckets *)

Lemma bucket_sum_empty g : bucket_sum g ∅ = 0.
Proof. unfold bucket_sum. by rewrite map_fold_empty. Qed.

Lemma bucket_sum_insert_fresh g (m : gmap string chain_stats) i x :
  m !! i = None → bucket_sum g (<[i:=x]> m) = g x + bucket_sum g m.
Proof.
  intros Hi. unfold bucket_sum.
  rewrite map_fold_insert_L; [done| |done].
  intros. lia.
Qed.

Lemma bucket_sum_update g (m : gmap string chain_stats) i x y :
  m !! i = Some x → bucket_sum g (<[i:=y]> m) + g x = bucket_sum g m + g y.
Proof.
  intros Hi.
  rewrite <- (insert_delete_eq m i y).
  rewrite bucket_sum_insert_fresh by apply lookup_delete_eq.
  rewrite <- (insert_delete_id m i x) at 2 by done.
  rewrite bucket_sum_insert_fresh by apply lookup_delete_eq.
  lia.
Qed.

Lemma bucket_sum_zero g (m : gmap string chain_stats) :
  (∀ i x, m !! i = Some x → g x = 0) → bucket_sum g m = 0.
Proof.
  unfold bucket_sum.
  apply (map_fold_weak_ind (λ r m, (∀ i x, m !! i = Some x → g x = 0) → r = 0)).
  - done.
  - intros i x m' r Hi IH Hall.
    rewrite (Hall i x) by apply lookup_insert_eq.
    rewrite IH; [done|].
    intros j y Hj. apply (Hall j y).
    rewrite lookup_insert_ne; [done|]. intros ->. congruence.
Qed.

Lemma init_stats_lookup chains chain c :
  by_chain (init_stats chains) !! chain = Some c → c = zero_chain.
Proof.
  simpl. intros H%elem_of_list_to_map_2.
  apply list_elem_of_fmap in H as (ch & [= _ ->] & _). done.
Qed.

Lemma init_stats_sum g chains :
  g zero_chain = 0 → bucket_sum g (by_chain (init_stats chains)) = 0.
Proof.
  intros Hg. apply bucket_sum_zero. intros i x Hx.
  by rewrite (init_stats_lookup _ _ _ Hx).
Qed.

Lemma init_stats_buckets chains : has_buckets chains (init_stats chains).
Proof.
  intros chain Hin. simpl.
  destruct (list_to_map _ !! chain) eqn:E; [by eexists|].
  apply not_elem_of_list_to_map in E. exfalso. apply E.
  rewrite <- list_fmap_compose. simpl.
  apply list_elem_of_fmap. by exists chain.
Qed.

Lemma init_stats_totals chains : totals_derivable (init_stats chains).
Proof.
  split; simpl; symmetry; by apply (init_stats_sum _ chains).
Qed.

Lemma init_stats_outcome_total chains : outcome_total (init_stats chains) = 0.
Proof.
  unfold outcome_total.
  rewrite !init_stats_sum by done. done.
Qed.

(** *** The effect of recording an outcome *)

Lemma spam_outcome_not_skipped dry r m : spam_outcome dry r m ≠ Skipped.
Proof.
  unfold spam_outcome.
  destruct (client_result r) as [info|]; [|done].
  destruct (truthy info); simpl; [|done].
  destruct (py_get _ _ _) as [id|]; [|done].
  destruct (truthy id); simpl; [|done].
  destruct dry; [done|]. by destruct (mark_result m) as [[]|].
Qed.

Lemma record_outcome_total chain c o s :
  by_chain s !! chain = Some c → o ≠ Skipped →
  outcome_total (record chain c o s) = outcome_total s + (if recorded o then 1 else 0).
Proof.
  intros Hc Ho. unfold outcome_total.
  pose proof (bucket_sum_update success _ _ _ (incr_success c) Hc).
  pose proof (bucket_sum_update failed _ _ _ (incr_success c) Hc).
  pose proof (bucket_sum_update not_found _ _ _ (incr_success c) Hc).
  pose proof (bucket_sum_update success _ _ _ (incr_failed c) Hc).
  pose proof (bucket_sum_update failed _ _ _ (incr_failed c) Hc).
  pose proof (bucket_sum_update not_found _ _ _ (incr_failed c) Hc).
  pose proof (bucket_sum_update success _ _ _ (incr_not_found c) Hc).
  pose proof (bucket_sum_update failed _ _ _ (incr_not_found c) Hc).
  pose proof (bucket_sum_update not_found _ _ _ (incr_not_found c) Hc).
  destruct o; simpl in *; try done; lia.
Qed.

Lemma record_totals chain c o s :
  by_chain s !! chain = Some c →
  totals_derivable s → totals_derivable (record chain c o s).
Proof.
  intros Hc [Hp Hf]. unfold totals_derivable.
  pose proof (bucket_sum_update success _ _ _ (incr_success c) Hc).
  pose proof (bucket_sum_update failed _ _ _ (incr_success c) Hc).
  pose proof (bucket_sum_update success _ _ _ (incr_failed c) Hc).
  pose proof (bucket_sum_update failed _ _ _ (incr_failed c) Hc).
  pose proof (bucket_sum_update success _ _ _ (incr_not_found c) Hc).
  pose proof (bucket_sum_update failed _ _ _ (incr_not_found c) Hc).
  destruct o; simpl in *; try done; lia.
Qed.

Lemma record_buckets chains chain c o s :
  has_buckets chains s → has_buckets chains (record chain c o s).
Proof.
  intros Hb ch Hin. specialize (Hb ch Hin).
  destruct o; simpl; try done;
    (destruct (decide (chain = ch)) as [->|Hne];
     [rewrite lookup_insert_eq; by eexists | by rewrite lookup_insert_ne]).
Qed.

Lemma record_total_rows chain c o s :
  total_rows (record chain c o s) = total_rows s ∧ skipped (record chain c o s) = skipped s.
Proof. by destruct o. Qed.

(** *** The totals are derivable from the buckets at every iteration *)

Lemma evm_process_chain_totals srv t1 t2 dry addr chain (st : state stats) :
  totals_derivable (locals st) →
  totals_derivable (locals (snd (process_chain srv t1 t2 dry addr chain st))).
Proof.
  intros Hinv.
  destruct (by_chain (locals st) !! chain) as [c|] eqn:Hc.
  - destruct (evm_process_chain_run srv t1 t2 dry addr chain st c Hc) as (evs & -> & _).
    simpl. by apply record_totals.
  - destruct (evm_process_chain_no_bucket srv t1 t2 dry addr chain st Hc) as (e & evs & ->).
    done.
Qed.

Lemma evm_process_row_totals srv t1 t2 dry chains n r (st : state stats) :
  totals_derivable (locals st) →
  totals_derivable (locals (snd (process_row srv t1 t2 dry chains n r st))).
Proof.
  intros Hinv. unfold process_row. munfold.
  row_cells r; cbn; try done.
  destruct (_ || _); [done|].
  destruct dry; cbn;
  match goal with |- context [for_each chains ?body ?st1] =>
    pose proof (for_each_invariant (λ st, totals_derivable (locals st)) body chains
                  (λ a st, evm_process_chain_totals srv t1 t2 _ _ a st) st1) as Hloop;
    destruct (for_each chains body st1) as [[[]|e] st2]
  end; simpl in *; by apply Hloop.
Qed.

Lemma evm_process_rows_totals srv t1 t2 dry chains start rows (st : state stats) :
  totals_derivable (locals st) →
  totals_derivable (locals (snd (process_rows srv t1 t2 dry chains start rows st))).
Proof.
  unfold process_rows.
  apply (for_enumerate_invariant (λ st, totals_derivable (locals st))).
  intros n a st1. apply evm_process_row_totals.
Qed.

Lemma evm_summary_locals chains (st : state stats) :
  locals (snd (summary chains st)) = locals st.
Proof.
  unfold summary. munfold. cbn.
  match goal with |- context [for_each chains ?body ?st1] =>
    assert (locals (snd (for_each chains body st1)) = locals st) as Hloop;
    [ apply (for_each_invariant (λ st', locals st' = locals st)); [|done];
      intros a st' Hst'; destruct (by_chain _ !! a); cbn; done
    | destruct (for_each chains body st1) as [[[]|e] st2] ]
  end; done.
Qed.

Lemma evm_process_csv_totals srv chains rows t1 t2 dry (st : state stats) :
  totals_derivable (locals (snd (process_csv srv chains rows t1 t2 dry st))).
Proof.
  unfold process_csv.
  unfold mbind at 1 2 3, M_MBind, M_bind at 1 2 3. cbn.
  match goal with |- context [process_rows srv t1 t2 dry chains 2 rows ?st1] =>
    pose proof (evm_process_rows_totals srv t1 t2 dry chains 2 rows st1
                  (init_stats_totals chains)) as Hrows;
    destruct (process_rows srv t1 t2 dry chains 2 rows st1) as [[[]|e] st2]
  end; simpl in *; [|done].
  by rewrite evm_summary_locals.
Qed.

(** *** Counting the pairs *)

Lemma evm_chain_loop_count srv t1 t2 dry addr cs :
  ∀ (st : state stats) r st',
    has_buckets cs (locals st) →
    for_each cs (process_chain srv t1 t2 dry addr) st = (r, st') →
    ∃ n,
      (∀ l, has_buckets l (locals st) → has_buckets l (locals st'))
      ∧ total_rows (locals st') = total_rows (locals st)
      ∧ skipped (locals st') = skipped (locals st)
      ∧ calls AssetInfos (trace st') = calls AssetInfos (trace st) + n
      ∧ outcome_total (locals st') + (if is_ok r then 0 else 1)
        = outcome_total (locals st) + n
      ∧ (if is_ok r then n = length cs else 1 ≤ n ≤ length cs).
Proof.
  induction cs as [|chain cs IH]; intros st r st' Hb Hrun.
  { simpl in Hrun. injection Hrun as <- <-. exists 0. simpl. repeat split; auto with lia. }
  simpl in Hrun. unfold mbind, M_MBind, M_bind in Hrun.
  destruct (Hb chain) as [c Hc]; [left|].
  destruct (evm_process_chain_run srv t1 t2 dry addr chain st c Hc)
    as (evs & Hbody & Ha & _).
  rewrite Hbody in Hrun. clear Hbody.
  set (o := spam_outcome dry (next_reply srv AssetInfos st) (next_reply srv MarkAsSpam st)) in *.
  pose proof (record_outcome_total chain c o (locals st) Hc
                (spam_outcome_not_skipped _ _ _)) as Htot.
  pose proof (record_total_rows chain c o (locals st)) as [Htr Hsk].
  destruct (recorded o) eqn:Hrec.
  - rewrite (recorded_true o Hrec) in Hrun.
    apply IH in Hrun as (n & Hb' & Htr' & Hsk' & Hcalls & Hsum & Hn).
    + exists (S n). simpl in *. rewrite calls_app, Ha in Hcalls.
      repeat split; try lia.
      * intros l Hl. apply Hb'. by apply record_buckets.
      * destruct (is_ok r); lia.
    + simpl. intros ch Hch. apply (record_buckets (chain :: cs)); [done | by right].
  - destruct (recorded_false o Hrec) as [e He]. rewrite He in *.
    injection Hrun as <- <-. exists 1. simpl in *.
    rewrite calls_app, Ha. repeat split; auto with lia.
Qed.

Lemma evm_process_row_count srv t1 t2 dry chains num row (st : state stats) r st' :
  has_buckets chains (locals st) →
  process_row srv t1 t2 dry chains num row st = (r, st') →
  (∀ l, has_buckets l (locals st) → has_buckets l (locals st'))
  ∧ skipped (locals st') = skipped (locals st)
  ∧ match row_skipped row with
    | Raise _ => r = Raise AttributeError ∧ st' = st
    | Ok true => r = Ok tt ∧ st' = st
    | Ok false =>
        ∃ k,
          total_rows (locals st') = S (total_rows (locals st))
          ∧ calls AssetInfos (trace st') = calls AssetInfos (trace st) + k
          ∧ outcome_total (locals st') + (if is_ok r then 0 else 1)
            = outcome_total (locals st) + k
          ∧ (if is_ok r then k = length chains else 1 ≤ k ≤ length chains)
    end.
Proof.
  intros Hb. unfold process_row, row_skipped, py_strip. munfold.
  row_cells row; cbn; try (intros [= <- <-]; done).
  destruct (_ || _).
  { intros [= <- <-]. done. }
  destruct dry; cbn;
  match goal with |- context [for_each chains (process_chain _ _ _ ?d ?a) ?st1] =>
    pose proof (evm_chain_loop_count srv t1 t2 d a chains st1) as Hloop;
    destruct (for_each chains (process_chain srv t1 t2 d a) st1) as [[[]|e] st2]
  end;
  (destruct (Hloop _ _ Hb eq_refl) as (k & Hb' & Htr & Hsk & Hcalls & Hsum & Hk));
  clear Hloop; intros [= <- <-]; simpl in *;
  rewrite ?calls_app in *; unfold outcome_total in *; simpl in *;
  (split; [exact Hb'|]); (split; [done|]); exists k; repeat split; lia.
Qed.

Lemma evm_process_rows_count srv t1 t2 dry chains rows :
  ∀ start (st : state stats) r st' base,
    has_buckets chains (locals st) →
    calls AssetInfos (trace st) = base + outcome_total (locals st) →
    outcome_total (locals st) = total_rows (locals st) * length chains + skipped (locals st) →
    process_rows srv t1 t2 dry chains start rows st = (r, st') →
    has_buckets chains (locals st')
    ∧ skipped (locals st') = skipped (locals st)
    ∧ base + outcome_total (locals st') ≤ calls AssetInfos (trace st')
    ∧ calls AssetInfos (trace st')
      ≤ base + outcome_total (locals st') + (if is_ok r then 0 else 1)
    ∧ (is_ok r = true →
       outcome_total (locals st')
       = total_rows (locals st') * length chains + skipped (locals st')).
Proof.
  unfold process_rows.
  induction rows as [|row rows IH]; intros start st r st' base Hb Hcalls Htot Hrun.
  { injection Hrun as <- <-. simpl. repeat split; auto with lia. }
  simpl in Hrun. unfold mbind, M_MBind, M_bind in Hrun.
  destruct (process_row srv t1 t2 dry chains start row st) as [r1 st1] eqn:Hrow.
  apply evm_process_row_count in Hrow as (Hb1 & Hsk1 & Hcase); [|done].
  destruct (row_skipped row) as [[]|].
  - destruct Hcase as [-> ->]. by apply (IH _ _ _ _ base) in Hrun.
  - destruct Hcase as (k & Htr1 & Hcalls1 & Hsum1 & Hk).
    destruct r1 as [[]|e]; simpl in *.
    + apply (IH _ _ _ _ base) in Hrun; [|by apply Hb1|lia|lia].
      destruct Hrun as (? & ? & ? & ? & ?). repeat split; auto with lia.
    + injection Hrun as <- <-. simpl. repeat split; auto with lia.
  - destruct Hcase as [-> ->]. injection Hrun as <- <-. simpl.
    repeat split; auto with lia.
Qed.

Lemma evm_summary_run chains (st : state stats) :
  has_buckets chains (locals st) →
  ∃ evs, summary chains st = (Ok tt, mkState (locals st) (trace st ++ evs))
         ∧ net_calls evs = 0.
Proof.
  intros Hb. unfold summary. munfold. cbn.
  match goal with |- context [for_each chains ?body ?st1] =>
    assert (∀ cs (st2 : state stats), (∀ ch, ch ∈ cs → ch ∈ chains) →
              ∃ evs, for_each cs body st2 = (Ok tt, mkState (locals st2) (trace st2 ++ evs))
                     ∧ net_calls evs = 0) as Hloop
  end.
  { induction cs as [|ch cs IH]; intros st2 Hin; simpl.
    - exists []. rewrite app_nil_r. by destruct st2.
    - destruct (Hb ch) as [c ->]; [apply Hin; left|].
      unfold mbind, M_MBind, M_bind. cbn.
      edestruct IH as (evs & -> & Hn); [intros; apply Hin; by right|].
      cbn. rewrite <- ?app_assoc. eexists; split; [reflexivity|].
      rewrite ?net_calls_app. simpl. done. }
  edestruct Hloop as (evs & -> & Hn); [done|].
  cbn. rewrite <- ?app_assoc. eexists; split; [reflexivity|].
  rewrite ?net_calls_app. simpl. done.
Qed.

Lemma evm_process_csv_count srv chains rows t1 t2 dry (st : state stats) r st' :
  process_csv srv chains rows t1 t2 dry st = (r, st') →
  calls AssetInfos (trace st) + outcome_total (locals st') ≤ calls AssetInfos (trace st')
  ∧ calls AssetInfos (trace st')
    ≤ calls AssetInfos (trace st) + outcome_total (locals st') + (if is_ok r then 0 else 1)
  ∧ skipped (locals st') = 0
  ∧ (is_ok r = true →
     outcome_total (locals st') = total_rows (locals st') * length chains).
Proof.
  unfold process_csv.
  unfold mbind at 1 2 3, M_MBind, M_bind at 1 2 3. cbn.
  match goal with |- context [process_rows srv t1 t2 dry chains 2 rows ?st1] =>
    pose proof (evm_process_rows_count srv t1 t2 dry chains rows 2 st1) as Hrows;
    destruct (process_rows srv t1 t2 dry chains 2 rows st1) as [r1 st2]
  end.
  destruct (Hrows r1 st2 (calls AssetInfos (trace st)))
    as (Hb & Hsk & Hlow & Hcalls & Htot);
    [apply init_stats_buckets | | | done |].
  { simpl. rewrite calls_app, init_stats_outcome_total. simpl. lia. }
  { simpl. rewrite init_stats_outcome_total. simpl. lia. }
  clear Hrows. simpl in Hsk.
  destruct r1 as [[]|e]; simpl in *.
  - destruct (evm_summary_run chains st2 Hb) as (evs & -> & Hn).
    intros [= <- <-]. simpl.
    pose proof (net_calls_split evs).
    rewrite calls_app. specialize (Htot eq_refl). repeat split; lia.
  - intros [= <- <-]. simpl. repeat split; [lia|lia|done|done].
Qed.

(** *** A dry run against a live run whose mutations all succeed *)




End evm.

(** ** mark_not_spam_solana.py *)

Section solana.
Import Solana.

Lemma solana_get_asset_info_run srv addr tok (st : state stats) :
  ∃ evs,
    get_asset_info srv addr tok st
    = (client_result (next_reply srv AssetInfos st), mkState (locals st) (trace st ++ evs))
    ∧ calls AssetInfos evs = 1 ∧ calls MarkAsSpam evs = 0 ∧ calls UpdatePrice evs = 0.
Proof.
  unfold get_asset_info, next_reply, client_result. munfold. cbn.
  destruct (srv AssetInfos _) as [| |name|code body|code name]; cbn; try finish_run.
  - destruct (is_error_status code); cbn; [finish_run|].
    destruct body; cbn; finish_run.
  - destruct (is_error_status code); cbn; finish_run.
Qed.

#[local] Arguments get_asset_info : simpl never.

Lemma solana_process_row_skip srv t1 t2 dry num row (st : state stats) :
  row_skipped row = Ok true →
  process_row srv t1 t2 dry num row st = (Ok tt, st).
Proof.
  unfold process_row, row_skipped, py_strip. munfold.
  row_cells row; cbn; try done. by intros [= ->].
Qed.

(** A row with a cell that is [None] raises before anything is done. *)
Lemma solana_process_row_malformed srv t1 t2 dry num row (st : state stats) e :
  row_skipped row = Raise e →
  process_row srv t1 t2 dry num row st = (Raise AttributeError, st).
Proof.
  unfold process_row, row_skipped, py_strip. munfold.
  row_cells row; cbn; done.
Qed.

(** The body of the row loop computes [spam_outcome] and records it. *)
Lemma solana_process_row_run srv t1 t2 dry num row (st : state stats) :
  row_skipped row = Ok false →
  ∃ evs,
    process_row srv t1 t2 dry num row st
    = (outcome_result
         (spam_outcome dry (next_reply srv AssetInfos st) (next_reply srv MarkAsSpam st)),
       mkState
         (record
            (spam_outcome dry (next_reply srv AssetInfos st) (next_reply srv MarkAsSpam st))
            (incr_total_rows (locals st)))
         (trace st ++ evs))
    ∧ calls AssetInfos evs = 1
    ∧ calls MarkAsSpam evs = (if spam_mutates dry (next_reply srv AssetInfos st) then 1 else 0)
    ∧ calls UpdatePrice evs = 0.
Proof.
  unfold process_row, row_skipped, py_strip, spam_outcome, spam_mutates. munfold.
  row_cells row; cbn; try done. intros [= ->].
  destruct dry; cbn;
    (edestruct (solana_get_asset_info_run srv) as (e1 & -> & Ha1 & Hm1 & Hp1));
    unfold next_reply; cbn; rewrite ?calls_app; cbn; rewrite ?Nat.add_0_r;
    (destruct (client_result _) as [info|e] eqn:Hcr; cbn;
     [ apply client_result_ok in Hcr; rewrite <- ?Hcr
     | apply client_result_raise, client_raises_decoded in Hcr; rewrite ?Hcr; cbn;
       finish_run ]);
    (destruct (truthy info) eqn:Ht; cbn; [|finish_run]);
    (destruct info; cbn; try solve [finish_run]);
    set (id := match assoc_last "id" items with Some x => x | None => JNull end);
    (destruct (truthy id) eqn:Hid; cbn; [|finish_run]).
  - finish_run.
  - edestruct (mark_asset_not_spam_run (L:=stats) srv id t2) as (e2 & -> & Ha2 & Hm2 & Hp2).
    unfold next_reply. cbn. rewrite ?calls_app, ?Hm1. cbn. rewrite ?Nat.add_0_r.
    destruct (mark_result _) as [[]|e]; cbn; finish_run.
Qed.

Lemma solana_record_outcome_total o s :
  o ≠ Skipped →
  outcome_total (record o (incr_total_rows s))
  = outcome_total s + (if recorded o then 1 else 0)
  ∧ total_rows (record o (incr_total_rows s)) = S (total_rows s)
  ∧ skipped (record o (incr_total_rows s)) = skipped s.
Proof. unfold outcome_total. destruct o; simpl; try done; lia. Qed.

Lemma solana_process_row_count srv t1 t2 dry num row (st : state stats) r st' :
  process_row srv t1 t2 dry num row st = (r, st') →
  skipped (locals st') = skipped (locals st)
  ∧ match row_skipped row with
    | Raise _ => r = Raise AttributeError ∧ st' = st
    | Ok true => r = Ok tt ∧ st' = st
    | Ok false =>
        total_rows (locals st') = S (total_rows (locals st))
        ∧ calls AssetInfos (trace st') = S (calls AssetInfos (trace st))
        ∧ outcome_total (locals st') + (if is_ok r then 0 else 1)
          = S (outcome_total (locals st))
    end.
Proof.
  destruct (row_skipped row) as [[]|e] eqn:Hskip.
  - rewrite solana_process_row_skip by done. by intros [= <- <-].
  - destruct (solana_process_row_run srv t1 t2 dry num row st Hskip)
      as (evs & -> & Ha & _).
    set (o := spam_outcome _ _ _).
    destruct (solana_record_outcome_total o (locals st) (spam_outcome_not_skipped _ _ _))
      as (Htot & Htr & Hsk).
    intros [= <- <-]. simpl. rewrite calls_app, Ha, Htot, Htr, Hsk.
    repeat split; try lia. destruct o; simpl; lia.
  - rewrite (solana_process_row_malformed _ _ _ _ _ _ _ _ Hskip). by intros [= <- <-].
Qed.

Lemma solana_process_rows_count srv t1 t2 dry rows :
  ∀ start (st : state stats) r st' base,
    calls AssetInfos (trace st) = base + outcome_total (locals st) →
    outcome_total (locals st) = total_rows (locals st) + skipped (locals st) →
    process_rows srv t1 t2 dry start rows st = (r, st') →
    skipped (locals st') = skipped (locals st)
    ∧ base + outcome_total (locals st') ≤ calls AssetInfos (trace st')
    ∧ calls AssetInfos (trace st')
      ≤ base + outcome_total (locals st') + (if is_ok r then 0 else 1)
    ∧ (is_ok r = true →
       outcome_total (locals st') = total_rows (locals st') + skipped (locals st')).
Proof.
  unfold process_rows.
  induction rows as [|row rows IH]; intros start st r st' base Hcalls Htot Hrun.
  { injection Hrun as <- <-. simpl. repeat split; auto with lia. }
  simpl in Hrun. unfold mbind, M_MBind, M_bind in Hrun.
  destruct (process_row srv t1 t2 dry start row st) as [r1 st1] eqn:Hrow.
  apply solana_process_row_count in Hrow as (Hsk1 & Hcase).
  destruct (row_skipped row) as [[]|].
  - destruct Hcase as [-> ->]. by apply (IH _ _ _ _ base) in Hrun.
  - destruct Hcase as (Htr1 & Hcalls1 & Hsum1).
    destruct r1 as [[]|e]; simpl in *.
    + apply (IH _ _ _ _ base) in Hrun; [|lia|lia].
      destruct Hrun as (? & ? & ? & ?). repeat split; auto with lia.
    + injection Hrun as <- <-. simpl. repeat split; auto with lia.
  - destruct Hcase as [-> ->]. injection Hrun as <- <-. simpl.
    repeat split; auto with lia.
Qed.

Lemma solana_summary_run (st : state stats) :
  ∃ evs, summary st = (Ok tt, mkState (locals st) (trace st ++ evs))
         ∧ net_calls evs = 0.
Proof.
  unfold summary. munfold. cbn. rewrite <- ?app_assoc.
  eexists; split; [reflexivity|]. done.
Qed.

Lemma solana_process_csv_count srv rows t1 t2 dry (st : state stats) r st' :
  process_csv srv rows t1 t2 dry st = (r, st') →
  calls AssetInfos (trace st) + outcome_total (locals st') ≤ calls AssetInfos (trace st')
  ∧ calls AssetInfos (trace st')
    ≤ calls AssetInfos (trace st) + outcome_total (locals st') + (if is_ok r then 0 else 1)
  ∧ skipped (locals st') = 0
  ∧ (is_ok r = true → outcome_total (locals st') = total_rows (locals st')).
Proof.
  unfold process_csv.
  unfold mbind at 1 2 3, M_MBind, M_bind at 1 2 3. cbn.
  match goal with |- context [process_rows srv t1 t2 dry 2 rows ?st1] =>
    pose proof (solana_process_rows_count srv t1 t2 dry rows 2 st1) as Hrows;
    destruct (process_rows srv t1 t2 dry 2 rows st1) as [r1 st2]
  end.
  destruct (Hrows r1 st2 (calls AssetInfos (trace st))) as (Hsk & Hlow & Hcalls & Htot);
    [ | done | done | ].
  { simpl. rewrite calls_app. simpl. unfold outcome_total. simpl. lia. }
  clear Hrows. simpl in Hsk.
  destruct r1 as [[]|e]; simpl in *.
  - destruct (solana_summary_run st2) as (evs & -> & Hn).
    intros [= <- <-]. simpl.
    pose proof (net_calls_split evs).
    rewrite calls_app. specialize (Htot eq_refl). repeat split; lia.
  - intros [= <- <-]. simpl. repeat split; [lia|lia|done|done].
Qed.

(** *** A dry run against a live run whose mutations all succeed *)



End solana.

(** ** run.py *)

Section price.
Import Price.

Lemma price_get_asset_info_run srv addr tok (st : state stats) :
  ∃ evs,
    get_asset_info srv addr tok st
    = (client_result (next_reply srv AssetInfos st), mkState (locals st) (trace st ++ evs))
    ∧ calls AssetInfos evs = 1 ∧ calls MarkAsSpam evs = 0 ∧ calls UpdatePrice evs = 0.
Proof.
  unfold get_asset_info, next_reply, client_result. munfold. cbn.
  destruct (srv AssetInfos _) as [| |name|code body|code name]; cbn; try finish_run.
  - destruct (is_error_status code); cbn; [finish_run|].
    destruct body; cbn; finish_run.
  - destruct (is_error_status code); cbn; finish_run.
Qed.

Lemma price_update_asset_price_run srv asset_id cg tok dry (st : state stats) :
  ∃ evs,
    update_asset_price srv asset_id cg tok dry st
    = (client_result (next_reply srv UpdatePrice st), mkState (locals st) (trace st ++ evs))
    ∧ calls AssetInfos evs = 0 ∧ calls MarkAsSpam evs = 0 ∧ calls UpdatePrice evs = 1.
Proof.
  unfold update_asset_price, next_reply, client_result. munfold. cbn.
  destruct (srv UpdatePrice _) as [| |name|code body|code name]; cbn; try finish_run.
  - destruct (is_error_status code); cbn; [finish_run|].
    destruct body; cbn; finish_run.
  - destruct (is_error_status code); cbn; finish_run.
Qed.

#[local] Arguments get_asset_info : simpl never.
#[local] Arguments update_asset_price : simpl never.

Lemma price_process_row_skip srv t1 t2 dry num row (st : state stats) :
  row_skipped row = Ok true →
  process_row srv t1 t2 dry num row st
  = (Ok tt,
     mkState (incr_skipped (locals st))
       (trace st ++ [Log PRINT "Processing row {}: {}"
                       [py_int num; cell_json (row_get row "Name")];
                     Log PRINT "Skipping - Missing BSC address or CoinGecko ID" []])).
Proof.
  unfold process_row, row_skipped, py_strip. munfold.
  destruct (row_get row "BSC Deployed Address"); [|done].
  destruct (row_get row "CoinGecko API ID"); [|done].
  cbn. intros [= ->]. cbn. by rewrite <- app_assoc.
Qed.

(** A row with a cell that is [None] raises before anything is printed. *)
Lemma price_process_row_malformed srv t1 t2 dry num row (st : state stats) e :
  row_skipped row = Raise e →
  process_row srv t1 t2 dry num row st = (Raise AttributeError, st).
Proof.
  unfold process_row, row_skipped, py_strip. munfold.
  destruct (row_get row "BSC Deployed Address"); [|done].
  destruct (row_get row "CoinGecko API ID"); done.
Qed.

(** The body of the row loop computes [price_outcome] and records it,
    whatever [dry_run] is. *)
Lemma price_process_row_run srv t1 t2 dry num row (st : state stats) :
  row_skipped row = Ok false →
  ∃ evs,
    process_row srv t1 t2 dry num row st
    = (outcome_result
         (price_outcome (next_reply srv AssetInfos st) (next_reply srv UpdatePrice st)),
       mkState
         (record
            (price_outcome (next_reply srv AssetInfos st) (next_reply srv UpdatePrice st))
            (locals st))
         (trace st ++ evs))
    ∧ calls AssetInfos evs = 1
    ∧ calls MarkAsSpam evs = 0
    ∧ calls UpdatePrice evs = (if price_mutates (next_reply srv AssetInfos st) then 1 else 0).
Proof.
  unfold process_row, row_skipped, py_strip, price_outcome, price_mutates, stdout_outcome.
  munfold.
  destruct (row_get row "BSC Deployed Address") as [addr|]; [|done].
  destruct (row_get row "CoinGecko API ID") as [cg|]; [|done].
  cbn. intros [= ->]. cbn.
  edestruct (price_get_asset_info_run srv (strip addr) t1)
    as (e1 & -> & Ha1 & Hm1 & Hp1).
  unfold next_reply. cbn. rewrite ?calls_app. cbn. rewrite ?Nat.add_0_r.
  destruct (client_result (srv AssetInfos _)) as [info|e] eqn:Hcr; cbn.
  2:{ apply client_result_raise, client_raises_decoded in Hcr. rewrite Hcr. cbn.
      finish_run. }
  apply client_result_ok in Hcr. rewrite <- Hcr.
  destruct (truthy info) eqn:Ht; cbn; [|finish_run].
  destruct info; cbn; try solve [finish_run].
  set (id := match assoc_last "id" items with Some x => x | None => JNull end).
  destruct (truthy id) eqn:Hid; cbn; [|finish_run].
  edestruct (price_update_asset_price_run srv id (strip cg) t2 dry)
    as (e2 & -> & Ha2 & Hm2 & Hp2).
  unfold next_reply. cbn. rewrite ?calls_app, ?Hp1. cbn. rewrite ?Nat.add_0_r.
  destruct (client_result (srv UpdatePrice _)) as [resp|e]; cbn; [|finish_run].
  destruct (truthy resp) eqn:Hr; cbn; [|finish_run].
  destruct resp as [| | | | |?|kv]; cbn; try solve [finish_run].
  set (out := match assoc_last "stdout" kv with Some x => x | None => JStr "" end).
  destruct (truthy out) eqn:Hout; cbn; [|finish_run].
  destruct out; cbn; finish_run.
Qed.

(** *** The dry-run flag only travels in the form data *)


Lemma price_summary_run (st : state stats) :
  ∃ evs, summary st = (Ok tt, mkState (locals st) (trace st ++ evs))
         ∧ net_calls evs = 0.
Proof.
  unfold summary. munfold. cbn. rewrite <- ?app_assoc.
  eexists; split; [reflexivity|]. done.
Qed.


End price.

(** * The claims *)

(** ** C10: run-wide totals and per-chain buckets *)

(** C10.  In the EVM script the run-wide counter [processed_chains] is the
    sum of the per-chain [success] counters and [failed_chains] is the sum of
    the per-chain [failed] counters, at every iteration boundary: the fresh
    [stats] satisfies it, the body of the chain loop, the body of the row
    loop and the row loop preserve it, and it holds when [process_csv]
    ends, whether it returns or raises. *)
Theorem evm_totals_derivable_from_buckets srv t1 t2 dry chains (st : state Evm.stats) :
  Evm.totals_derivable (locals st) →
  (∀ addr chain,
     Evm.totals_derivable (locals (snd (Evm.process_chain srv t1 t2 dry addr chain st))))
  ∧ (∀ num row,
       Evm.totals_derivable (locals (snd (Evm.process_row srv t1 t2 dry chains num row st))))
  ∧ (∀ start rows,
       Evm.totals_derivable
         (locals (snd (Evm.process_rows srv t1 t2 dry chains start rows st))))
  ∧ (∀ rows,
       Evm.totals_derivable (locals (snd (Evm.process_csv srv chains rows t1 t2 dry st))))
  ∧ Evm.totals_derivable (Evm.init_stats chains).
Proof.
  intros Hinv. split; [|split; [|split; [|split]]]; intros.
  - by apply evm_process_chain_totals.
  - by apply evm_process_row_totals.
  - by apply evm_process_rows_totals.
  - apply evm_process_csv_totals.
  - apply init_stats_totals.
Qed.

Lemma evm_totals_derivable_witness :
  Evm.totals_derivable (locals evm_ready)
  ∧ Evm.totals_derivable
      (locals (snd (Evm.process_chain srv_ok "t1" "t2" false "0xabc" "evm_56" evm_ready))).
Proof.
  assert (Evm.totals_derivable (locals evm_ready)) as H by (split; vm_compute; reflexivity).
  split; [exact H|].
  apply (proj1 (evm_totals_derivable_from_buckets srv_ok "t1" "t2" false ["evm_56"] evm_ready H)).
Defined.

(** ** C5: one outcome per pair *)

(** C5 fails on this input.  The only row of the file has no address.  The
    EVM and Solana scripts leave the loop body with [continue] and count
    nothing: [stats["skipped"]] is created and reported and never
    incremented, so the four counters add up to 0 for the one row handled
    and the summary says that 0 rows were skipped.  The price script counts
    its skipped row. *)
Theorem skipped_row_is_not_counted :
  let evm := Evm.process_csv srv_ok ["evm_56"] [row_evm_blank] "t1" "t2" false Evm.start in
  let solana := Solana.process_csv srv_ok [row_solana_blank] "t1" "t2" false Solana.start in
  let price := Price.process_csv srv_ok [row_price_no_id] "t1" "t2" false Price.start in
  (Evm.row_skipped row_evm_blank = Ok true
   ∧ fst evm = Ok tt
   ∧ Evm.skipped (locals (snd evm)) = 0
   ∧ Evm.outcome_total (locals (snd evm)) = 0
   ∧ In (Log INFO "Rows skipped: {}" [JInt 0]) (trace (snd evm)))
  ∧ (Solana.row_skipped row_solana_blank = Ok true
     ∧ fst solana = Ok tt
     ∧ Solana.skipped (locals (snd solana)) = 0
     ∧ Solana.outcome_total (locals (snd solana)) = 0
     ∧ In (Log INFO "Rows skipped: {}" [JInt 0]) (trace (snd solana)))
  ∧ (Price.row_skipped row_price_no_id = Ok true
     ∧ fst price = Ok tt
     ∧ Price.skipped (locals (snd price)) = 1).
Proof.
  vm_compute. repeat split; try reflexivity;
    repeat (first [left; reflexivity | right]).
Qed.

(** X1.  Every pair that reaches the resolution is counted once.  The body
    of the loop calls the resolution once and records one outcome for the
    pair, success, failed or not found: the sum of the outcome counters goes
    up by one, unless the pair raises, and then by nothing.  When
    [process_csv] returns, the outcome counters add up to the number of
    resolution calls of the run, and to [total_rows] times the number of
    chains; when an exception ends the run, they add up to the number of
    resolution calls or to one less (the pair that raised has called the
    resolution and is in no counter; a row with a cell that is [None] raises
    before any call). *)
Theorem outcome_counters_sum_to_attempts srv chains rows t1 t2 dry addr chain c num row
    (se pe : state Evm.stats) (ss ps : state Solana.stats) :
  Evm.by_chain (locals pe) !! chain = Some c →
  Solana.row_skipped row = Ok false →
  (let pair := Evm.process_chain srv t1 t2 dry addr chain pe in
   ∃ o, o ≠ Skipped
        ∧ fst pair = outcome_result o
        ∧ locals (snd pair) = Evm.record chain c o (locals pe)
        ∧ Evm.outcome_total (locals (snd pair))
          = Evm.outcome_total (locals pe) + (if is_ok (fst pair) then 1 else 0)
        ∧ calls AssetInfos (trace (snd pair)) = S (calls AssetInfos (trace pe)))
  ∧ (let pair := Solana.process_row srv t1 t2 dry num row ps in
     ∃ o, o ≠ Skipped
          ∧ fst pair = outcome_result o
          ∧ locals (snd pair) = Solana.record o (Solana.incr_total_rows (locals ps))
          ∧ Solana.outcome_total (locals (snd pair))
            = Solana.outcome_total (locals ps) + (if is_ok (fst pair) then 1 else 0)
          ∧ calls AssetInfos (trace (snd pair)) = S (calls AssetInfos (trace ps)))
  ∧ (let run := Evm.process_csv srv chains rows t1 t2 dry se in
     calls AssetInfos (trace se) + Evm.outcome_total (locals (snd run))
     ≤ calls AssetInfos (trace (snd run))
     ∧ calls AssetInfos (trace (snd run))
       ≤ calls AssetInfos (trace se) + Evm.outcome_total (locals (snd run))
         + (if is_ok (fst run) then 0 else 1)
     ∧ (if is_ok (fst run)
        then Evm.outcome_total (locals (snd run))
             = Evm.total_rows (locals (snd run)) * length chains
        else True))
  ∧ (let run := Solana.process_csv srv rows t1 t2 dry ss in
     calls AssetInfos (trace ss) + Solana.outcome_total (locals (snd run))
     ≤ calls AssetInfos (trace (snd run))
     ∧ calls AssetInfos (trace (snd run))
       ≤ calls AssetInfos (trace ss) + Solana.outcome_total (locals (snd run))
         + (if is_ok (fst run) then 0 else 1)
     ∧ (if is_ok (fst run)
        then Solana.outcome_total (locals (snd run)) = Solana.total_rows (locals (snd run))
        else True)).
Proof.
  intros Hc Hrow. split; [|split; [|split]]; cbv zeta.
  - destruct (evm_process_chain_run srv t1 t2 dry addr chain pe c Hc) as (evs & -> & Ha & _).
    set (o := spam_outcome _ _ _).
    pose proof (spam_outcome_not_skipped dry (next_reply srv AssetInfos pe)
                  (next_reply srv MarkAsSpam pe)) as Hns.
    exists o. simpl. rewrite calls_app, Ha.
    rewrite (record_outcome_total chain c o (locals pe) Hc Hns).
    repeat split; try done; try lia. by destruct o.
  - destruct (solana_process_row_run srv t1 t2 dry num row ps Hrow) as (evs & -> & Ha & _).
    set (o := spam_outcome _ _ _).
    pose proof (spam_outcome_not_skipped dry (next_reply srv AssetInfos ps)
                  (next_reply srv MarkAsSpam ps)) as Hns.
    destruct (solana_record_outcome_total o (locals ps) Hns) as (Htot & _).
    exists o. simpl. rewrite calls_app, Ha, Htot.
    repeat split; try done; try lia. by destruct o.
  - destruct (Evm.process_csv srv chains rows t1 t2 dry se) as [r st'] eqn:Hrun.
    apply evm_process_csv_count in Hrun as (Hlow & Hcalls & _ & Htot). simpl.
    split; [done|]. split; [done|]. destruct (is_ok r); auto.
  - destruct (Solana.process_csv srv rows t1 t2 dry ss) as [r st'] eqn:Hrun.
    apply solana_process_csv_count in Hrun as (Hlow & Hcalls & _ & Htot). simpl.
    split; [done|]. split; [done|]. destruct (is_ok r); auto.
Qed.

Lemma outcome_counters_sum_to_attempts_witness :
  Evm.by_chain (locals evm_ready) !! "evm_56" = Some Evm.zero_chain
  ∧ Solana.row_skipped row_solana = Ok false
  ∧ (let run := Evm.process_csv srv_ok ["evm_56"] [row_evm; row_evm_blank; row_evm]
                  "t1" "t2" false Evm.start in
     calls AssetInfos (trace Evm.start) + Evm.outcome_total (locals (snd run))
     ≤ calls AssetInfos (trace (snd run))
     ∧ calls AssetInfos (trace (snd run))
       ≤ calls AssetInfos (trace Evm.start) + Evm.outcome_total (locals (snd run))
         + (if is_ok (fst run) then 0 else 1)
     ∧ (if is_ok (fst run)
        then Evm.outcome_total (locals (snd run))
             = Evm.total_rows (locals (snd run)) * length ["evm_56"]
        else True)).
Proof.
  split; [reflexivity|]. split; [reflexivity|].
  apply (outcome_counters_sum_to_attempts srv_ok ["evm_56"] [row_evm; row_evm_blank; row_evm]
           "t1" "t2" false "0xabc" "evm_56" Evm.zero_chain 2 row_solana
           Evm.start evm_ready Solana.start Solana.start);
    reflexivity.
Defined.

(** ** C6: a resolution that returns not found *)

(** C6.  When the resolution call of a pair is answered with HTTP 404, the
    pair ends normally, the [not_found] counter of its chain goes up by one
    and nothing else is counted, and no call to the mutation endpoint is
    made for it; in the EVM script for the bucket of the chain, in the
    Solana script for the single counter. *)
Theorem not_found_is_counted_without_mutation srv t1 t2 dry body addr chain c num row
    (se : state Evm.stats) (ss : state Solana.stats) :
  Evm.by_chain (locals se) !! chain = Some c →
  next_reply srv AssetInfos se = Response 404 body →
  Solana.row_skipped row = Ok false →
  next_reply srv AssetInfos ss = Response 404 body →
  (∃ evs,
     Evm.process_chain srv t1 t2 dry addr chain se
     = (Ok tt, mkState (Evm.record chain c NotFound (locals se)) (trace se ++ evs))
     ∧ Evm.by_chain (Evm.record chain c NotFound (locals se)) !! chain
       = Some {| Evm.success := Evm.success c; Evm.failed := Evm.failed c;
                 Evm.not_found := S (Evm.not_found c) |}
     ∧ Evm.processed_chains (Evm.record chain c NotFound (locals se))
       = Evm.processed_chains (locals se)
     ∧ Evm.failed_chains (Evm.record chain c NotFound (locals se))
       = Evm.failed_chains (locals se)
     ∧ calls AssetInfos evs = 1 ∧ calls MarkAsSpam evs = 0 ∧ calls UpdatePrice evs = 0)
  ∧ (∃ evs,
       Solana.process_row srv t1 t2 dry num row ss
       = (Ok tt,
          mkState (Solana.incr_not_found (Solana.incr_total_rows (locals ss)))
            (trace ss ++ evs))
       ∧ Solana.not_found (Solana.incr_not_found (Solana.incr_total_rows (locals ss)))
         = S (Solana.not_found (locals ss))
       ∧ Solana.success (Solana.incr_not_found (Solana.incr_total_rows (locals ss)))
         = Solana.success (locals ss)
       ∧ Solana.failed (Solana.incr_not_found (Solana.incr_total_rows (locals ss)))
         = Solana.failed (locals ss)
       ∧ calls AssetInfos evs = 1 ∧ calls MarkAsSpam evs = 0 ∧ calls UpdatePrice evs = 0).
Proof.
  intros Hc He Hrow Hs. split.
  - destruct (evm_process_chain_run srv t1 t2 dry addr chain se c Hc)
      as (evs & Hrun & Ha & Hm & Hp).
    rewrite He in Hrun, Hm. unfold spam_outcome, spam_mutates in *. simpl in *.
    rewrite andb_false_r in Hm.
    exists evs. repeat split; try done. apply lookup_insert_eq.
  - destruct (solana_process_row_run srv t1 t2 dry num row ss Hrow)
      as (evs & Hrun & Ha & Hm & Hp).
    rewrite Hs in Hrun, Hm. unfold spam_outcome, spam_mutates in *. simpl in *.
    rewrite andb_false_r in Hm.
    exists evs. repeat split; done.
Qed.

Lemma not_found_is_counted_without_mutation_witness :
  Evm.by_chain (locals evm_ready) !! "evm_56" = Some Evm.zero_chain
  ∧ next_reply (srv_resolving (Response 404 None)) AssetInfos evm_ready = Response 404 None
  ∧ Solana.row_skipped row_solana = Ok false
  ∧ ∃ evs,
      Evm.process_chain (srv_resolving (Response 404 None)) "t1" "t2" false "0xabc" "evm_56"
        evm_ready
      = (Ok tt, mkState (Evm.record "evm_56" Evm.zero_chain NotFound (locals evm_ready))
                  (trace evm_ready ++ evs))
      ∧ calls MarkAsSpam evs = 0.
Proof.
  split; [reflexivity|]. split; [reflexivity|]. split; [reflexivity|].
  destruct (not_found_is_counted_without_mutation (srv_resolving (Response 404 None))
              "t1" "t2" false None "0xabc" "evm_56" Evm.zero_chain 2 row_solana
              evm_ready Solana.start eq_refl eq_refl eq_refl eq_refl)
    as [(evs & Hrun & _ & _ & _ & _ & Hm & _) _].
  exists evs. split; [exact Hrun | exact Hm].
Defined.

(** ** C2: a resolution that fails *)

(** A transport failure of the resolution call is counted as not found: the
    [failed] counter of the chain stays at 0. *)
Lemma transport_failure_counted_not_found :
  let run := Evm.process_csv (srv_resolving ConnectionFailed) ["evm_56"] [row_evm]
               "t1" "t2" false Evm.start in
  fst run = Ok tt
  ∧ Evm.by_chain (locals (snd run)) !! "evm_56"
    = Some {| Evm.success := 0; Evm.failed := 0; Evm.not_found := 1 |}
  ∧ Evm.failed_chains (locals (snd run)) = 0
  ∧ calls MarkAsSpam (trace (snd run)) = 0.
Proof. vm_compute. repeat split; reflexivity. Qed.

(** C2, amended.  When the resolution call of a pair fails with a
    [RequestException], because the call raises one, the status is an error
    (404 or another) or the body is not JSON, the kind of failure is not
    told apart: the EVM and Solana scripts count the pair as not found,
    [not_found] goes up by one and [failed] stays as it was; the price
    script counts it as failed, [failed] goes up by one.  In the three
    scripts the pair ends normally and no mutation call is made for it. *)
Theorem failed_resolution_is_counted_alike srv t1 t2 dry addr chain c num row_s row_p
    (se : state Evm.stats) (ss : state Solana.stats) (sp : state Price.stats) :
  Evm.by_chain (locals se) !! chain = Some c →
  resolution_failed (next_reply srv AssetInfos se) = true →
  Solana.row_skipped row_s = Ok false →
  resolution_failed (next_reply srv AssetInfos ss) = true →
  Price.row_skipped row_p = Ok false →
  resolution_failed (next_reply srv AssetInfos sp) = true →
  (∃ evs,
     Evm.process_chain srv t1 t2 dry addr chain se
     = (Ok tt, mkState (Evm.record chain c NotFound (locals se)) (trace se ++ evs))
     ∧ Evm.by_chain (Evm.record chain c NotFound (locals se)) !! chain
       = Some {| Evm.success := Evm.success c; Evm.failed := Evm.failed c;
                 Evm.not_found := S (Evm.not_found c) |}
     ∧ Evm.failed_chains (Evm.record chain c NotFound (locals se))
       = Evm.failed_chains (locals se)
     ∧ Evm.processed_chains (Evm.record chain c NotFound (locals se))
       = Evm.processed_chains (locals se)
     ∧ calls AssetInfos evs = 1 ∧ calls MarkAsSpam evs = 0 ∧ calls UpdatePrice evs = 0)
  ∧ (∃ evs,
       Solana.process_row srv t1 t2 dry num row_s ss
       = (Ok tt,
          mkState (Solana.incr_not_found (Solana.incr_total_rows (locals ss)))
            (trace ss ++ evs))
       ∧ Solana.not_found (Solana.incr_not_found (Solana.incr_total_rows (locals ss)))
         = S (Solana.not_found (locals ss))
       ∧ Solana.failed (Solana.incr_not_found (Solana.incr_total_rows (locals ss)))
         = Solana.failed (locals ss)
       ∧ Solana.success (Solana.incr_not_found (Solana.incr_total_rows (locals ss)))
         = Solana.success (locals ss)
       ∧ calls AssetInfos evs = 1 ∧ calls MarkAsSpam evs = 0 ∧ calls UpdatePrice evs = 0)
  ∧ (∃ evs,
       Price.process_row srv t1 t2 dry num row_p sp
       = (Ok tt, mkState (Price.incr_failed (locals sp)) (trace sp ++ evs))
       ∧ Price.failed (Price.incr_failed (locals sp)) = S (Price.failed (locals sp))
       ∧ Price.successful (Price.incr_failed (locals sp)) = Price.successful (locals sp)
       ∧ Price.skipped (Price.incr_failed (locals sp)) = Price.skipped (locals sp)
       ∧ calls AssetInfos evs = 1 ∧ calls MarkAsSpam evs = 0 ∧ calls UpdatePrice evs = 0).
Proof.
  intros Hc He Hrs Hs Hrp Hp.
  pose proof (decoded_failed _ He) as He'. apply client_result_ok in He' as Hde.
  pose proof (decoded_failed _ Hs) as Hs'. apply client_result_ok in Hs' as Hds.
  pose proof (decoded_failed _ Hp) as Hp'. apply client_result_ok in Hp' as Hdp.
  split; [|split].
  - destruct (evm_process_chain_run srv t1 t2 dry addr chain se c Hc)
      as (evs & Hrun & Ha & Hm & Hu).
    unfold spam_outcome, spam_mutates in *. rewrite He', <- Hde in *. simpl in *.
    rewrite andb_false_r in Hm. exists evs. repeat split; try done.
    apply lookup_insert_eq.
  - destruct (solana_process_row_run srv t1 t2 dry num row_s ss Hrs)
      as (evs & Hrun & Ha & Hm & Hu).
    unfold spam_outcome, spam_mutates in *. rewrite Hs', <- Hds in *. simpl in *.
    rewrite andb_false_r in Hm. by exists evs.
  - destruct (price_process_row_run srv t1 t2 dry num row_p sp Hrp)
      as (evs & Hrun & Ha & Hm & Hu).
    unfold Price.price_outcome, Price.price_mutates in *. rewrite Hp', <- Hdp in *.
    simpl in *. by exists evs.
Qed.

Lemma failed_resolution_is_counted_alike_witness :
  Evm.by_chain (locals evm_ready) !! "evm_56" = Some Evm.zero_chain
  ∧ resolution_failed (next_reply (srv_resolving ConnectionFailed) AssetInfos evm_ready) = true
  ∧ Solana.row_skipped row_solana = Ok false
  ∧ Price.row_skipped row_price = Ok false
  ∧ ∃ evs,
      Evm.process_chain (srv_resolving ConnectionFailed) "t1" "t2" false "0xabc" "evm_56"
        evm_ready
      = (Ok tt, mkState (Evm.record "evm_56" Evm.zero_chain NotFound (locals evm_ready))
                  (trace evm_ready ++ evs))
      ∧ calls MarkAsSpam evs = 0.
Proof.
  split; [reflexivity|]. split; [reflexivity|]. split; [reflexivity|]. split; [reflexivity|].
  destruct (failed_resolution_is_counted_alike (srv_resolving ConnectionFailed)
              "t1" "t2" false "0xabc" "evm_56" Evm.zero_chain 2 row_solana row_price
              evm_ready Solana.start Price.start
              eq_refl eq_refl eq_refl eq_refl eq_refl eq_refl)
    as [(evs & Hrun & _ & _ & _ & _ & Hm & _) _].
  exists evs. split; [exact Hrun | exact Hm].
Defined.

(** ** C9: a resolution without an asset id *)

(** An empty JSON object, which has no ["id"], is counted as not found: the
    [failed] counter of the chain stays at 0. *)
Lemma empty_object_counted_not_found :
  let run := Evm.process_csv (srv_resolving (Response 200 (Some (JObj [])))) ["evm_56"]
               [row_evm] "t1" "t2" false Evm.start in
  fst run = Ok tt
  ∧ Evm.by_chain (locals (snd run)) !! "evm_56"
    = Some {| Evm.success := 0; Evm.failed := 0; Evm.not_found := 1 |}
  ∧ Evm.failed_chains (locals (snd run)) = 0.
Proof. vm_compute. repeat split; reflexivity. Qed.

(** C9, amended.  In the EVM and Solana scripts, when the resolution call
    succeeds with a non-empty JSON object whose ["id"] is absent or falsy,
    the pair is counted as failed: [failed] goes up by one (in the EVM
    script that of the chain and [failed_chains]) and [not_found] stays as
    it was; the pair ends normally and no mutation call is made for it.
    When the decoded body is falsy, an empty object among others, the pair
    is counted as not found instead: [not_found] goes up by one and [failed]
    stays as it was. *)
Theorem missing_id_is_counted_failed srv t1 t2 dry addr chain c num row
    (se : state Evm.stats) (ss : state Solana.stats) :
  Evm.by_chain (locals se) !! chain = Some c →
  Solana.row_skipped row = Ok false →
  (lacks_id (next_reply srv AssetInfos se) = true →
   ∃ evs,
     Evm.process_chain srv t1 t2 dry addr chain se
     = (Ok tt, mkState (Evm.record chain c Failed (locals se)) (trace se ++ evs))
     ∧ Evm.by_chain (Evm.record chain c Failed (locals se)) !! chain
       = Some {| Evm.success := Evm.success c; Evm.failed := S (Evm.failed c);
                 Evm.not_found := Evm.not_found c |}
     ∧ Evm.failed_chains (Evm.record chain c Failed (locals se))
       = S (Evm.failed_chains (locals se))
     ∧ Evm.processed_chains (Evm.record chain c Failed (locals se))
       = Evm.processed_chains (locals se)
     ∧ calls AssetInfos evs = 1 ∧ calls MarkAsSpam evs = 0 ∧ calls UpdatePrice evs = 0)
  ∧ (lacks_id (next_reply srv AssetInfos ss) = true →
     ∃ evs,
       Solana.process_row srv t1 t2 dry num row ss
       = (Ok tt,
          mkState (Solana.incr_failed (Solana.incr_total_rows (locals ss)))
            (trace ss ++ evs))
       ∧ Solana.failed (Solana.incr_failed (Solana.incr_total_rows (locals ss)))
         = S (Solana.failed (locals ss))
       ∧ Solana.not_found (Solana.incr_failed (Solana.incr_total_rows (locals ss)))
         = Solana.not_found (locals ss)
       ∧ Solana.success (Solana.incr_failed (Solana.incr_total_rows (locals ss)))
         = Solana.success (locals ss)
       ∧ calls AssetInfos evs = 1 ∧ calls MarkAsSpam evs = 0 ∧ calls UpdatePrice evs = 0)
  ∧ (nothing_resolved (next_reply srv AssetInfos se) = true →
     ∃ evs,
       Evm.process_chain srv t1 t2 dry addr chain se
       = (Ok tt, mkState (Evm.record chain c NotFound (locals se)) (trace se ++ evs))
       ∧ Evm.by_chain (Evm.record chain c NotFound (locals se)) !! chain
         = Some {| Evm.success := Evm.success c; Evm.failed := Evm.failed c;
                   Evm.not_found := S (Evm.not_found c) |}
       ∧ Evm.failed_chains (Evm.record chain c NotFound (locals se))
         = Evm.failed_chains (locals se)
       ∧ calls MarkAsSpam evs = 0)
  ∧ (nothing_resolved (next_reply srv AssetInfos ss) = true →
     ∃ evs,
       Solana.process_row srv t1 t2 dry num row ss
       = (Ok tt,
          mkState (Solana.incr_not_found (Solana.incr_total_rows (locals ss)))
            (trace ss ++ evs))
       ∧ Solana.not_found (Solana.incr_not_found (Solana.incr_total_rows (locals ss)))
         = S (Solana.not_found (locals ss))
       ∧ Solana.failed (Solana.incr_not_found (Solana.incr_total_rows (locals ss)))
         = Solana.failed (locals ss)
       ∧ calls MarkAsSpam evs = 0).
Proof.
  intros Hc Hrow.
  destruct (evm_process_chain_run srv t1 t2 dry addr chain se c Hc)
    as (ee & Hre & Hae & Hme & Hue).
  destruct (solana_process_row_run srv t1 t2 dry num row ss Hrow)
    as (es & Hrs & Has & Hms & Hus).
  unfold spam_outcome, spam_mutates, nothing_resolved, lacks_id in *.
  split; [|split; [|split]]; intros Hl.
  - clear Hrs Has Hms Hus.
    destruct (next_reply srv AssetInfos se) as [| | |code [[]|]|]; try done.
    unfold client_result in *. simpl in *. destruct (is_error_status code); [done|].
    destruct items as [|kv items]; [done|]. simpl in *.
    destruct (truthy _); [done|]. simpl in *.
    rewrite ?andb_true_r, ?andb_false_r in Hme. simpl in Hme.
    exists ee. repeat split; try done. apply lookup_insert_eq.
  - clear Hre Hae Hme Hue.
    destruct (next_reply srv AssetInfos ss) as [| | |code [[]|]|]; try done.
    unfold client_result in *. simpl in *. destruct (is_error_status code); [done|].
    destruct items as [|kv items]; [done|]. simpl in *.
    destruct (truthy _); [done|]. simpl in *.
    rewrite ?andb_true_r, ?andb_false_r in Hms. simpl in Hms. by exists es.
  - destruct (client_result (next_reply srv AssetInfos se)) as [info|] eqn:Hcr; [|done].
    apply client_result_ok in Hcr. rewrite <- Hcr in *.
    destruct (truthy info); [done|]. simpl in *.
    rewrite ?andb_true_r, ?andb_false_r in Hme. simpl in Hme.
    exists ee. repeat split; try done. apply lookup_insert_eq.
  - destruct (client_result (next_reply srv AssetInfos ss)) as [info|] eqn:Hcr; [|done].
    apply client_result_ok in Hcr. rewrite <- Hcr in *.
    destruct (truthy info); [done|]. simpl in *.
    rewrite ?andb_true_r, ?andb_false_r in Hms. simpl in Hms. by exists es.
Qed.

Lemma missing_id_is_counted_failed_witness :
  Evm.by_chain (locals evm_ready) !! "evm_56" = Some Evm.zero_chain
  ∧ Solana.row_skipped row_solana = Ok false
  ∧ lacks_id (next_reply (srv_resolving (Response 200 (Some (JObj [("name", JStr "TokenX")]))))
                AssetInfos evm_ready) = true
  ∧ ∃ evs,
      Evm.process_chain (srv_resolving (Response 200 (Some (JObj [("name", JStr "TokenX")]))))
        "t1" "t2" false "0xabc" "evm_56" evm_ready
      = (Ok tt, mkState (Evm.record "evm_56" Evm.zero_chain Failed (locals evm_ready))
                  (trace evm_ready ++ evs))
      ∧ calls MarkAsSpam evs = 0.
Proof.
  split; [reflexivity|]. split; [reflexivity|]. split; [reflexivity|].
  destruct (missing_id_is_counted_failed
              (srv_resolving (Response 200 (Some (JObj [("name", JStr "TokenX")]))))
              "t1" "t2" false "0xabc" "evm_56" Evm.zero_chain 2 row_solana
              evm_ready Solana.start eq_refl eq_refl)
    as [Hfailed _].
  destruct (Hfailed eq_refl) as (evs & Hrun & _ & _ & _ & _ & Hm & _).
  exists evs. split; [exact Hrun | exact Hm].
Defined.

(** ** C4: a price update without stdout *)

(** The price update answers 200 with a JSON object that has no ["stdout"]:
    the warning is printed and the row is counted as failed. *)
Lemma missing_stdout_counted_failed :
  let run := Price.process_csv
               (srv_mutating (Response 200 (Some (JObj [("status", JStr "ok")]))))
               [row_price] "t1" "t2" false Price.start in
  fst run = Ok tt
  ∧ Price.failed (locals (snd run)) = 1
  ∧ Price.successful (locals (snd run)) = 0
  ∧ logged PRINT "Warning: No stdout in response" (trace (snd run)) = true.
Proof. vm_compute. repeat split; reflexivity. Qed.

(** C4, amended.  In the price script, when the row reaches the price update
    and the update succeeds (HTTP 200 or another status below 400) with a
    non-empty JSON object whose ["stdout"] is absent or falsy, the warning
    is printed, the row is counted under [failed] and not under
    [successful], and the loop goes on. *)
Theorem missing_stdout_is_warned_and_failed srv t1 t2 dry num row (st : state Price.stats) :
  Price.row_skipped row = Ok false →
  Price.price_mutates (next_reply srv AssetInfos st) = true →
  lacks_stdout (next_reply srv UpdatePrice st) = true →
  ∃ evs,
    Price.process_row srv t1 t2 dry num row st
    = (Ok tt, mkState (Price.incr_failed (locals st)) (trace st ++ evs))
    ∧ logged PRINT "Warning: No stdout in response" evs = true
    ∧ Price.failed (Price.incr_failed (locals st)) = S (Price.failed (locals st))
    ∧ Price.successful (Price.incr_failed (locals st)) = Price.successful (locals st)
    ∧ calls UpdatePrice evs = 1.
Proof.
  unfold Price.process_row, Price.row_skipped, py_strip, Price.price_mutates, lacks_stdout.
  munfold.
  destruct (row_get row "BSC Deployed Address") as [addr|]; [|done].
  destruct (row_get row "CoinGecko API ID") as [cg|]; [|done].
  cbn. intros [= Hs] Hm Hu. rewrite Hs. cbn.
  edestruct (price_get_asset_info_run srv (strip addr) t1)
    as (e1 & -> & Ha1 & Hm1 & Hp1).
  unfold next_reply in *. cbn. rewrite ?calls_app. cbn. rewrite ?Nat.add_0_r.
  destruct (client_result (srv AssetInfos _)) as [info|e] eqn:Hcr.
  2:{ apply client_result_raise, client_raises_decoded in Hcr. by rewrite Hcr in Hm. }
  apply client_result_ok in Hcr. rewrite <- Hcr in Hm. cbn.
  destruct (truthy info) eqn:Ht; [|done]. cbn.
  destruct info; try done. cbn in *.
  set (id := match assoc_last "id" items with Some x => x | None => JNull end) in *.
  rewrite Hm. cbn.
  edestruct (price_update_asset_price_run srv id (strip cg) t2 dry)
    as (e2 & -> & Ha2 & Hm2 & Hp2).
  unfold next_reply in *. cbn. rewrite ?calls_app, ?Hp1. cbn. rewrite ?Nat.add_0_r.
  destruct (srv UpdatePrice _) as [| | |code [[| | | | | |kv]|]|]; try done.
  unfold client_result, client_raises, decoded.
  destruct (is_error_status code); [done|].
  unfold py_get.
  remember (match assoc_last "stdout" kv with Some x => x | None => JStr "" end)
    as out eqn:Hout.
  destruct kv as [|b kv]; [done|]. clear Hout. cbn in *.
  destruct (truthy out); [done|]. cbn.
  rewrite <- ?app_assoc. eexists; split; [reflexivity|].
  rewrite ?logged_app, ?calls_app. cbn. rewrite ?orb_true_r.
  repeat split; lia.
Qed.

Lemma missing_stdout_is_warned_and_failed_witness :
  Price.row_skipped row_price = Ok false
  ∧ lacks_stdout
      (next_reply (srv_mutating (Response 200 (Some (JObj [("status", JStr "ok")]))))
         UpdatePrice Price.start) = true
  ∧ ∃ evs,
      Price.process_row (srv_mutating (Response 200 (Some (JObj [("status", JStr "ok")]))))
        "t1" "t2" false 2 row_price Price.start
      = (Ok tt, mkState (Price.incr_failed (locals Price.start)) (trace Price.start ++ evs))
      ∧ logged PRINT "Warning: No stdout in response" evs = true.
Proof.
  split; [reflexivity|]. split; [reflexivity|].
  destruct (missing_stdout_is_warned_and_failed
              (srv_mutating (Response 200 (Some (JObj [("status", JStr "ok")]))))
              "t1" "t2" false 2 row_price Price.start eq_refl eq_refl eq_refl)
    as (evs & Hrun & Hlog & _).
  exists evs. split; [exact Hrun | exact Hlog].
Defined.

(** ** C3: rows that fail the validation *)





(** ** C1: dry runs *)




(** ** The exceptions that leave a batch *)











(** ** C8: the exit status *)

Section exit_status.
#[local] Arguments Evm.process_csv : simpl never.
#[local] Arguments Solana.process_csv : simpl never.
#[local] Arguments Price.process_csv : simpl never.






End exit_status.


(** Both rows of the file are counted as not found and the exit status
    is 0; without the pricing token the status is 1 and nothing is called. *)
Lemma exit_status_examples :
  let run := Evm.main evm_config (srv_resolving (Response 404 None)) Evm.start in
  let no_token :=
    Evm.main {| Evm.BEARER_TOKEN_ASSET_INFO := Some "t1";
                Evm.BEARER_TOKEN_PRICING := None;
                Evm.csv_rows := Some [row_evm; row_evm];
                Evm.DRY_RUN := false;
                Evm.EVM_CHAINS := ["evm_56"] |} srv_ok Evm.start in
  exit_code (fst run) = 0%Z
  ∧ Evm.by_chain (locals (snd run)) !! "evm_56"
    = Some {| Evm.success := 0; Evm.failed := 0; Evm.not_found := 2 |}
  ∧ exit_code (fst no_token) = 1%Z
  ∧ net_calls (trace (snd no_token)) = 0.
Proof. vm_compute. repeat split; reflexivity. Qed.

(** ** C7: failures that end the batch *)

(** C7 fails on this input.  The first resolution is answered 200 with the
    JSON array [[1]]: [asset_info.get] raises [AttributeError], nothing
    catches it, and [process_csv] ends with the first pair uncounted, the
    second row never read and no summary; [main] exits with status 1.  The
    Solana script does the same.  In the price script a number under
    ["stdout"] ends the batch with [TypeError] at [len(stdout)]. *)
Theorem non_object_reply_aborts_batch :
  let evm := Evm.process_csv srv_array_first ["evm_56"] [row_evm; row_evm]
               "t1" "t2" false Evm.start in
  let solana := Solana.process_csv srv_array_first [row_solana; row_solana]
                  "t1" "t2" false Solana.start in
  let price := Price.process_csv srv_numeric_stdout [row_price; row_price]
                 "t1" "t2" false Price.start in
  (fst evm = Raise AttributeError
   ∧ calls AssetInfos (trace (snd evm)) = 1
   ∧ Evm.total_rows (locals (snd evm)) = 1
   ∧ Evm.outcome_total (locals (snd evm)) = 0
   ∧ logged INFO "SUMMARY" (trace (snd evm)) = false
   ∧ exit_code (fst (Evm.main evm_config srv_array_first Evm.start)) = 1%Z)
  ∧ (fst solana = Raise AttributeError
     ∧ calls AssetInfos (trace (snd solana)) = 1
     ∧ Solana.outcome_total (locals (snd solana)) = 0
     ∧ logged INFO "SUMMARY" (trace (snd solana)) = false)
  ∧ (fst price = Raise TypeError
     ∧ calls AssetInfos (trace (snd price)) = 1
     ∧ Price.successful (locals (snd price)) + Price.failed (locals (snd price))
       + Price.skipped (locals (snd price)) = 0
     ∧ logged PRINT "SUMMARY" (trace (snd price)) = false).
Proof. vm_compute. repeat split; reflexivity. Qed.

(** * Further properties of the scripts *)

(** ** Requests and pauses *)

Lemma posts_app t1 t2 : posts (t1 ++ t2) = (posts t1 ++ posts t2)%list.
Proof.
  induction t1 as [|e t1 IH]; simpl; [done|].
  destruct e; simpl; by rewrite ?IH.
Qed.

Lemma slept_app t1 t2 : slept (t1 ++ t2) = slept t1 + slept t2.
Proof.
  induction t1 as [|e t1 IH]; simpl; [done|].
  destruct e; simpl; rewrite ?IH; lia.
Qed.

Lemma resolutions_app t1 t2 :
  resolutions (t1 ++ t2) = (resolutions t1 ++ resolutions t2)%list.
Proof. unfold resolutions. by rewrite posts_app, omap_app. Qed.

(** Closes a goal [∃ evs, run = (r, mkState l (trace st ++ evs)) ∧ effects]
    once the run has been evaluated. *)
Ltac finish_effects :=
  rewrite <- ?app_assoc; eexists; split; [reflexivity|];
  rewrite ?posts_app, ?slept_app; cbn;
  repeat match goal with H : posts _ = _ |- _ => rewrite H end;
  repeat match goal with H : slept _ = _ |- _ => rewrite H end; cbn;
  rewrite ?andb_false_r, ?andb_true_r; cbn;
  repeat match goal with H : truthy _ = _ |- _ => rewrite H end; cbn;
  repeat split; solve [reflexivity | lia].

Lemma mark_asset_not_spam_effects {L} srv asset_id tok (st : state L) :
  ∃ evs,
    mark_asset_not_spam srv asset_id tok st
    = (mark_result (next_reply srv MarkAsSpam st), mkState (locals st) (trace st ++ evs))
    ∧ posts evs = [(MarkAsSpam, tok, spam_form asset_id)]
    ∧ slept evs = 0.
Proof.
  unfold mark_asset_not_spam, next_reply, mark_result, spam_form. munfold. cbn.
  destruct (srv MarkAsSpam _) as [| |name|code body|code name]; cbn; try finish_effects;
    (destruct (is_error_status code); cbn; [finish_effects|]);
    destruct (code =? 200)%Z; cbn; finish_effects.
Qed.

Lemma evm_get_asset_info_effects srv addr chain tok (st : state Evm.stats) :
  ∃ evs,
    Evm.get_asset_info srv addr chain tok st
    = (client_result (next_reply srv AssetInfos st), mkState (locals st) (trace st ++ evs))
    ∧ posts evs = [(AssetInfos, tok, evm_resolution chain addr)]
    ∧ slept evs = 0.
Proof.
  unfold Evm.get_asset_info, next_reply, client_result, evm_resolution. munfold. cbn.
  destruct (srv AssetInfos _) as [| |name|code body|code name]; cbn; try finish_effects.
  - destruct (is_error_status code); cbn; [finish_effects|].
    destruct body; cbn; finish_effects.
  - destruct (is_error_status code); cbn; finish_effects.
Qed.

Lemma solana_get_asset_info_effects srv addr tok (st : state Solana.stats) :
  ∃ evs,
    Solana.get_asset_info srv addr tok st
    = (client_result (next_reply srv AssetInfos st), mkState (locals st) (trace st ++ evs))
    ∧ posts evs = [(AssetInfos, tok, solana_resolution addr)]
    ∧ slept evs = 0.
Proof.
  unfold Solana.get_asset_info, next_reply, client_result, solana_resolution. munfold. cbn.
  destruct (srv AssetInfos _) as [| |name|code body|code name]; cbn; try finish_effects.
  - destruct (is_error_status code); cbn; [finish_effects|].
    destruct body; cbn; finish_effects.
  - destruct (is_error_status code); cbn; finish_effects.
Qed.

Lemma price_get_asset_info_effects srv addr tok (st : state Price.stats) :
  ∃ evs,
    Price.get_asset_info srv addr tok st
    = (client_result (next_reply srv AssetInfos st), mkState (locals st) (trace st ++ evs))
    ∧ posts evs = [(AssetInfos, tok, evm_resolution "evm_56" addr)]
    ∧ slept evs = 0.
Proof.
  unfold Price.get_asset_info, next_reply, client_result, evm_resolution. munfold. cbn.
  destruct (srv AssetInfos _) as [| |name|code body|code name]; cbn; try finish_effects.
  - destruct (is_error_status code); cbn; [finish_effects|].
    destruct body; cbn; finish_effects.
  - destruct (is_error_status code); cbn; finish_effects.
Qed.

Lemma price_update_asset_price_effects srv asset_id cg tok dry (st : state Price.stats) :
  ∃ evs,
    Price.update_asset_price srv asset_id cg tok dry st
    = (client_result (next_reply srv UpdatePrice st), mkState (locals st) (trace st ++ evs))
    ∧ posts evs = [(UpdatePrice, tok, price_form asset_id cg dry)]
    ∧ slept evs = 0.
Proof.
  unfold Price.update_asset_price, next_reply, client_result, price_form. munfold. cbn.
  destruct (srv UpdatePrice _) as [| |name|code body|code name]; cbn; try finish_effects.
  - destruct (is_error_status code); cbn; [finish_effects|].
    destruct body; cbn; finish_effects.
  - destruct (is_error_status code); cbn; finish_effects.
Qed.

Lemma calls_posts ep t :
  calls ep t
  = length (List.filter (λ '(ep', _, _), endpoint_eqb ep ep') (posts t)).
Proof.
  induction t as [|e t IH]; simpl; [done|].
  destruct e as [ep' ? ?| |]; simpl; [|done..].
  destruct (endpoint_eqb ep ep'); simpl; by rewrite IH.
Qed.

Lemma calls_of_posts ep t ps :
  posts t = ps →
  calls ep t = length (List.filter (λ '(ep', _, _), endpoint_eqb ep ep') ps).
Proof. intros <-. apply calls_posts. Qed.

(** The calls and the pause of one pair of the EVM script: the resolution,
    then the mutation if the pair gets that far, and one second once an
    asset id has been read, unless the pair raises. *)
Lemma evm_process_chain_effects srv t1 t2 dry addr chain (st : state Evm.stats) c :
  Evm.by_chain (locals st) !! chain = Some c →
  ∃ evs,
    Evm.process_chain srv t1 t2 dry addr chain st
    = (outcome_result
         (spam_outcome dry (next_reply srv AssetInfos st) (next_reply srv MarkAsSpam st)),
       mkState
         (Evm.record chain c
            (spam_outcome dry (next_reply srv AssetInfos st) (next_reply srv MarkAsSpam st))
            (locals st))
         (trace st ++ evs))
    ∧ posts evs
      = (AssetInfos, t1, evm_resolution chain addr)
        :: (if spam_mutates dry (next_reply srv AssetInfos st)
            then [(MarkAsSpam, t2, spam_form (asset_id_of (next_reply srv AssetInfos st)))]
            else [])
    ∧ slept evs
      = (if spam_mutates false (next_reply srv AssetInfos st)
            && recorded (spam_outcome dry (next_reply srv AssetInfos st)
                           (next_reply srv MarkAsSpam st))
         then 1 else 0).
Proof.
  intros Hc.
  unfold Evm.process_chain, spam_outcome, spam_mutates, asset_id_of, Evm.bump.
  munfold. cbn.
  edestruct (evm_get_asset_info_effects srv addr chain t1) as (e1 & -> & Hp1 & Hs1).
  pose proof (calls_of_posts MarkAsSpam e1 _ Hp1) as Hm1. simpl in Hm1.
  unfold next_reply.
  cbn. rewrite ?calls_app. cbn. rewrite ?Nat.add_0_r.
  destruct (client_result _) as [info|e] eqn:Hcr; cbn.
  2:{ apply client_result_raise, client_raises_decoded in Hcr. rewrite Hcr. cbn.
      finish_effects. }
  apply client_result_ok in Hcr. rewrite <- Hcr.
  destruct (truthy info) eqn:Ht; cbn.
  2:{ rewrite Hc. cbn. finish_effects. }
  destruct info; cbn; try solve [finish_effects].
  set (id := match assoc_last "id" items with Some x => x | None => JNull end).
  destruct (truthy id) eqn:Hid; cbn.
  2:{ rewrite Hc. cbn. finish_effects. }
  destruct dry; cbn.
  { rewrite Hc. cbn. finish_effects. }
  edestruct (mark_asset_not_spam_effects (L:=Evm.stats) srv id t2) as (e2 & -> & Hp2 & Hs2).
  unfold next_reply. cbn. rewrite ?calls_app, ?Hm1. cbn. rewrite ?Nat.add_0_r.
  destruct (mark_result _) as [[]|e]; cbn; rewrite ?Hc; cbn; finish_effects.
Qed.

(** The calls and the pause of one valid row of the Solana script: two
    seconds when the row ends without an asset id, three when it got one,
    none when it raises. *)
Lemma solana_process_row_effects srv t1 t2 dry num row (st : state Solana.stats) :
  Solana.row_skipped row = Ok false →
  ∃ evs,
    Solana.process_row srv t1 t2 dry num row st
    = (outcome_result
         (spam_outcome dry (next_reply srv AssetInfos st) (next_reply srv MarkAsSpam st)),
       mkState
         (Solana.record
            (spam_outcome dry (next_reply srv AssetInfos st) (next_reply srv MarkAsSpam st))
            (Solana.incr_total_rows (locals st)))
         (trace st ++ evs))
    ∧ posts evs
      = (AssetInfos, t1,
         solana_resolution (strip (cell_text (row_get row "Solana Address"))))
        :: (if spam_mutates dry (next_reply srv AssetInfos st)
            then [(MarkAsSpam, t2, spam_form (asset_id_of (next_reply srv AssetInfos st)))]
            else [])
    ∧ slept evs
      = (if recorded (spam_outcome dry (next_reply srv AssetInfos st)
                        (next_reply srv MarkAsSpam st))
         then if spam_mutates false (next_reply srv AssetInfos st) then 3 else 2
         else 0).
Proof.
  unfold Solana.process_row, Solana.row_skipped, py_strip, spam_outcome, spam_mutates,
    asset_id_of.
  munfold.
  row_cells row; cbn; try done. intros [= ->].
  destruct dry; cbn;
    (edestruct (solana_get_asset_info_effects srv) as (e1 & -> & Hp1 & Hs1));
    pose proof (calls_of_posts MarkAsSpam e1 _ Hp1) as Hm1; simpl in Hm1;
    unfold next_reply; cbn; rewrite ?calls_app; cbn; rewrite ?Nat.add_0_r;
    (destruct (client_result _) as [info|e] eqn:Hcr; cbn;
     [ apply client_result_ok in Hcr; rewrite <- ?Hcr
     | apply client_result_raise, client_raises_decoded in Hcr; rewrite ?Hcr; cbn;
       finish_effects ]);
    (destruct (truthy info) eqn:Ht; cbn; [|finish_effects]);
    (destruct info; cbn; try solve [finish_effects]);
    set (id := match assoc_last "id" items with Some x => x | None => JNull end);
    (destruct (truthy id) eqn:Hid; cbn; [|finish_effects]).
  - finish_effects.
  - edestruct (mark_asset_not_spam_effects (L:=Solana.stats) srv id t2)
      as (e2 & -> & Hp2 & Hs2).
    unfold next_reply. cbn. rewrite ?calls_app, ?Hm1. cbn. rewrite ?Nat.add_0_r.
    destruct (mark_result _) as [[]|e]; cbn; finish_effects.
Qed.

(** The calls and the pause of one valid row of the price script: five
    seconds only when the row reaches the stdout check and does not raise. *)
Lemma price_process_row_effects srv t1 t2 dry num row (st : state Price.stats) :
  Price.row_skipped row = Ok false →
  ∃ evs,
    Price.process_row srv t1 t2 dry num row st
    = (outcome_result
         (Price.price_outcome (next_reply srv AssetInfos st) (next_reply srv UpdatePrice st)),
       mkState
         (Price.record
            (Price.price_outcome (next_reply srv AssetInfos st)
               (next_reply srv UpdatePrice st))
            (locals st))
         (trace st ++ evs))
    ∧ posts evs
      = (AssetInfos, t1,
         evm_resolution "evm_56" (strip (cell_text (row_get row "BSC Deployed Address"))))
        :: (if Price.price_mutates (next_reply srv AssetInfos st)
            then [(UpdatePrice, t2,
                   price_form (asset_id_of (next_reply srv AssetInfos st))
                     (strip (cell_text (row_get row "CoinGecko API ID"))) dry)]
            else [])
    ∧ slept evs
      = (if Price.price_mutates (next_reply srv AssetInfos st)
            && truthy (decoded (next_reply srv UpdatePrice st))
            && recorded (Price.price_outcome (next_reply srv AssetInfos st)
                           (next_reply srv UpdatePrice st))
         then 5 else 0).
Proof.
  unfold Price.process_row, Price.row_skipped, py_strip, Price.price_outcome,
    Price.price_mutates, Price.stdout_outcome, asset_id_of.
  munfold.
  destruct (row_get row "BSC Deployed Address") as [addr|]; [|done].
  destruct (row_get row "CoinGecko API ID") as [cg|]; [|done].
  cbn. intros [= ->]. cbn.
  edestruct (price_get_asset_info_effects srv (strip addr) t1)
    as (e1 & -> & Hp1 & Hs1).
  pose proof (calls_of_posts UpdatePrice e1 _ Hp1) as Hu1. simpl in Hu1.
  unfold next_reply. cbn. rewrite ?calls_app. cbn. rewrite ?Nat.add_0_r.
  destruct (client_result (srv AssetInfos _)) as [info|e] eqn:Hcr; cbn.
  2:{ apply client_result_raise, client_raises_decoded in Hcr. rewrite Hcr. cbn.
      finish_effects. }
  apply client_result_ok in Hcr. rewrite <- Hcr.
  destruct (truthy info) eqn:Ht; cbn; [|finish_effects].
  destruct info; cbn; try solve [finish_effects].
  set (id := match assoc_last "id" items with Some x => x | None => JNull end).
  destruct (truthy id) eqn:Hid; cbn; [|finish_effects].
  edestruct (price_update_asset_price_effects srv id (strip cg) t2 dry)
    as (e2 & -> & Hp2 & Hs2).
  unfold next_reply. cbn. rewrite ?calls_app, ?Hu1. cbn. rewrite ?Nat.add_0_r.
  destruct (client_result (srv UpdatePrice _)) as [resp|e] eqn:Hcu; cbn.
  2:{ apply client_result_raise, client_raises_decoded in Hcu. rewrite ?Hcu. cbn.
      finish_effects. }
  apply client_result_ok in Hcu. rewrite <- ?Hcu.
  destruct (truthy resp) eqn:Hr; cbn; [|finish_effects].
  destruct resp as [| | | | |?|kv]; cbn; try solve [finish_effects].
  set (out := match assoc_last "stdout" kv with Some x => x | None => JStr "" end).
  destruct (truthy out) eqn:Hout; cbn; [|finish_effects].
  destruct out; cbn; finish_effects.
Qed.

(** ** Trimming and the validation of a row *)

Lemma append_cons a s t : (String a s ++ t)%string = String a (s ++ t)%string.
Proof. reflexivity. Qed.

Lemma append_empty_r s : (s ++ "")%string = s.
Proof. induction s as [|a s IH]; [done|]. by rewrite append_cons, IH. Qed.

Lemma append_assoc s t u : ((s ++ t) ++ u)%string = (s ++ (t ++ u))%string.
Proof. induction s as [|a s IH]; [done|]. by rewrite !append_cons, IH. Qed.

Lemma rev_app_append s t u :
  String.rev_app s (t ++ u)%string = (String.rev_app s t ++ u)%string.
Proof.
  revert t. induction s as [|a s IH]; intros t; simpl; [done|].
  by rewrite <- IH, append_cons.
Qed.

Lemma rev_cons a s : String.rev (String a s) = (String.rev s ++ String a "")%string.
Proof. unfold String.rev. simpl. by rewrite <- rev_app_append. Qed.

Lemma rev_append s t : String.rev (s ++ t)%string = (String.rev t ++ String.rev s)%string.
Proof.
  induction s as [|a s IH].
  - by rewrite append_empty_r.
  - by rewrite append_cons, !rev_cons, IH, append_assoc.
Qed.

Lemma rev_involutive s : String.rev (String.rev s) = s.
Proof.
  induction s as [|a s IH]; [done|].
  by rewrite rev_cons, rev_append, IH.
Qed.

Lemma blank_append s t : blank (s ++ t)%string = blank s && blank t.
Proof.
  induction s as [|a s IH]; [done|].
  rewrite append_cons. simpl. by rewrite IH, andb_assoc.
Qed.

Lemma blank_rev s : blank (String.rev s) = blank s.
Proof.
  induction s as [|a s IH]; [done|].
  rewrite rev_cons, blank_append, IH. simpl.
  rewrite andb_true_r. apply andb_comm.
Qed.

Lemma lstrip_blank s : blank s = true → lstrip s = "".
Proof.
  induction s as [|a s IH]; simpl; [done|].
  intros [Ha Hs]%andb_true_iff. rewrite Ha. auto.
Qed.

Lemma lstrip_split s : ∃ pre, blank pre = true ∧ s = (pre ++ lstrip s)%string.
Proof.
  induction s as [|a s (pre & Hpre & Hs)]; simpl.
  - by exists "".
  - destruct (is_space a) eqn:Ha.
    + exists (String a pre). simpl. rewrite Ha, Hpre, append_cons. by rewrite <- Hs.
    + by exists "".
Qed.

Lemma lstrip_first s c : first_char (lstrip s) = Some c → is_space c = false.
Proof.
  induction s as [|a s IH]; simpl; [done|].
  destruct (is_space a) eqn:Ha; [done|].
  simpl. by intros [= <-].
Qed.

Lemma rstrip_split s : ∃ post, blank post = true ∧ s = (rstrip s ++ post)%string.
Proof.
  destruct (lstrip_split (String.rev s)) as (pre & Hpre & Hs).
  exists (String.rev pre). split; [by rewrite blank_rev|].
  unfold rstrip. by rewrite <- rev_append, <- Hs, rev_involutive.
Qed.

Lemma strip_split s :
  ∃ pre post,
    blank pre = true ∧ blank post = true ∧ s = (pre ++ strip s ++ post)%string.
Proof.
  destruct (lstrip_split s) as (pre & Hpre & Hs).
  destruct (rstrip_split (lstrip s)) as (post & Hpost & Hl).
  exists pre, post. unfold strip. by rewrite <- Hl.
Qed.

(** [strip] removes the blanks around a cell and nothing else: the cell is
    the result between two runs of whitespace, and the result neither starts
    nor ends with whitespace. *)
Theorem strip_removes_surrounding_blanks s :
  ∃ pre post,
    blank pre = true ∧ blank post = true
    ∧ s = (pre ++ strip s ++ post)%string
    ∧ (∀ c, first_char (strip s) = Some c → is_space c = false)
    ∧ (∀ c, last_char (strip s) = Some c → is_space c = false).
Proof.
  destruct (lstrip_split s) as (pre & Hpre & Hs).
  destruct (rstrip_split (lstrip s)) as (post & Hpost & Hl).
  exists pre, post. unfold strip in *.
  split; [done|]. split; [done|]. split; [by rewrite <- Hl|].
  split; intros c Hc.
  - apply (lstrip_first s). rewrite Hl.
    destruct (rstrip (lstrip s)); [done|]. by rewrite append_cons.
  - unfold last_char, rstrip in Hc. rewrite rev_involutive in Hc.
    by apply lstrip_first in Hc.
Qed.

Lemma strip_empty s : str_empty (strip s) = blank s.
Proof.
  destruct (strip_split s) as (pre & post & Hpre & Hpost & Hs).
  unfold str_empty. destruct (String.eqb_spec (strip s) "") as [He|Hne].
  - rewrite Hs, He, !blank_append, Hpre, Hpost. done.
  - symmetry. apply not_true_is_false. intros Hb. apply Hne.
    unfold strip. by rewrite (lstrip_blank s Hb).
Qed.

(** X3.  The validation of a row.  When the cells that the script strips
    are all there, the row fails the validation exactly when one of its two
    required cells is blank, that is empty or made of whitespace only.  When
    one of the stripped cells is [None], the cell of a line too short to
    reach its column, the validation is not reached: [strip] raises
    [AttributeError] and the loop body ends with it, nothing counted, logged
    or called; in the spam scripts the token symbol is such a cell, though
    the validation does not look at it.  A column that the header does not
    have counts as an empty cell. *)
Theorem blank_cells_fail_validation (r : row) srv t1 t2 dry chains num
    (se : state Evm.stats) (ss : state Solana.stats) (sp : state Price.stats) :
  match row_get r "Product name", row_get r "Token Symbol", row_get r "EVM address" with
  | Some product_name, Some _, Some evm_address =>
      Evm.row_skipped r = Ok (blank evm_address || blank product_name)
  | _, _, _ =>
      Evm.row_skipped r = Raise AttributeError
      ∧ Evm.process_row srv t1 t2 dry chains num r se = (Raise AttributeError, se)
  end
  ∧ match row_get r "Product name", row_get r "Token Symbol",
          row_get r "Solana Address" with
    | Some product_name, Some _, Some solana_address =>
        Solana.row_skipped r = Ok (blank solana_address || blank product_name)
    | _, _, _ =>
        Solana.row_skipped r = Raise AttributeError
        ∧ Solana.process_row srv t1 t2 dry num r ss = (Raise AttributeError, ss)
    end
  ∧ match row_get r "BSC Deployed Address", row_get r "CoinGecko API ID" with
    | Some bsc_address, Some coingecko_id =>
        Price.row_skipped r = Ok (blank bsc_address || blank coingecko_id)
    | _, _ =>
        Price.row_skipped r = Raise AttributeError
        ∧ Price.process_row srv t1 t2 dry num r sp = (Raise AttributeError, sp)
    end
  ∧ (∀ key, r !! key = None → row_get r key = Some "")
  ∧ (∀ key, r !! key = Some None → row_get r key = None).
Proof.
  split; [|split; [|split; [|split]]].
  - unfold Evm.row_skipped, Evm.process_row, py_strip. munfold.
    row_cells r; cbn; try done. by rewrite !strip_empty.
  - unfold Solana.row_skipped, Solana.process_row, py_strip. munfold.
    row_cells r; cbn; try done. by rewrite !strip_empty.
  - unfold Price.row_skipped, Price.process_row, py_strip. munfold.
    destruct (row_get r "BSC Deployed Address"); [|done].
    destruct (row_get r "CoinGecko API ID"); [|done].
    by rewrite !strip_empty.
  - intros key Hkey. unfold row_get. by rewrite Hkey.
  - intros key Hkey. unfold row_get. by rewrite Hkey.
Qed.

(** ** The requests of a run *)

#[local] Open Scope list_scope.

Section requests.
Context {L : Type} (P : state L → Prop) (allowed : endpoint * string * json → Prop).

Lemma emits_ret {A} (a : A) : emits P allowed [] (mret a : M L A).
Proof.
  intros st HP. exists []. simpl. rewrite app_nil_r.
  repeat split; auto; constructor.
Qed.

Lemma emits_bind {A B} (m : M L A) (f : A → M L B) e1 e2 :
  emits P allowed e1 m → (∀ a, emits P allowed e2 (f a)) →
  emits P allowed (e1 ++ e2) (m ≫= f).
Proof.
  intros Hm Hf st HP. unfold mbind, M_MBind, M_bind.
  destruct (Hm st HP) as (evs1 & Ht1 & HP1 & Hpre1 & Heq1 & Hall1).
  destruct (m st) as [[a|e] st1]; simpl in *.
  - destruct (Hf a st1 HP1) as (evs2 & Ht2 & HP2 & Hpre2 & Heq2 & Hall2).
    exists (evs1 ++ evs2). rewrite Ht2, Ht1, <- app_assoc.
    rewrite resolutions_app, posts_app, Heq1 by done.
    repeat split; auto.
    + by apply prefix_app.
    + intros Hok. by rewrite Heq2.
    + by apply Forall_app.
  - exists evs1. repeat split; auto; [|done].
    by apply prefix_app_r.
Qed.

Lemma emits_expected {A} (m : M L A) e1 e2 :
  e1 = e2 → emits P allowed e1 m → emits P allowed e2 m.
Proof. by intros ->. Qed.

Lemma emits_for_each {A} (body : A → M L unit) (expected : A → list json) l :
  (∀ a, a ∈ l → emits P allowed (expected a) (body a)) →
  emits P allowed (flat_map expected l) (for_each l body).
Proof.
  induction l as [|a l IH]; intros Hbody; simpl.
  - apply emits_ret.
  - apply emits_bind; [apply Hbody; left|].
    intros _. apply IH. intros b Hb. apply Hbody. by right.
Qed.

Lemma emits_for_enumerate {A} (body : nat → A → M L unit) (expected : A → list json) l :
  (∀ n a, emits P allowed (expected a) (body n a)) →
  ∀ start, emits P allowed (flat_map expected l) (for_enumerate start l body).
Proof.
  intros Hbody. induction l as [|a l IH]; intros start; simpl.
  - apply emits_ret.
  - apply emits_bind; [apply Hbody|]. intros _. apply IH.
Qed.

(** A step that returns, makes no request and keeps [P]. *)
Lemma emits_quiet {A} (m : M L A) :
  (∀ st, P st →
     ∃ a l evs, m st = (Ok a, mkState l (trace st ++ evs))
                ∧ P (mkState l (trace st ++ evs)) ∧ posts evs = []) →
  emits P allowed [] m.
Proof.
  intros Hm st HP. destruct (Hm st HP) as (a & l & evs & -> & HP' & Hposts).
  exists evs. simpl. unfold resolutions. rewrite Hposts. simpl.
  repeat split; auto; constructor.
Qed.

(** A step that raises at once. *)
Lemma emits_raises {A} (m : M L A) expected :
  (∀ st, P st → ∃ e, m st = (Raise e, st)) →
  emits P allowed expected m.
Proof.
  intros Hm st HP. destruct (Hm st HP) as (e & ->).
  exists []. simpl. rewrite app_nil_r.
  split; [done|]. split; [done|]. split; [apply prefix_nil|].
  split; [done|constructor].
Qed.

Lemma emits_lift_ok {A B} (a : A) (f : A → M L B) expected :
  emits P allowed expected (f a) → emits P allowed expected (lift (Ok a) ≫= f).
Proof. done. Qed.

Lemma emits_lift_raise {A B} e (f : A → M L B) expected :
  emits P allowed expected (lift (Raise e) ≫= f).
Proof. apply emits_raises. intros st _. by exists e. Qed.

End requests.

Lemma flat_map_singleton {A B} (f : A → B) (l : list A) :
  flat_map (λ a, [f a]) l = List.map f l.
Proof. induction l as [|a l IH]; simpl; by rewrite ?IH. Qed.

Lemma posts_nil_of_net_calls evs : net_calls evs = 0 → posts evs = [].
Proof.
  induction evs as [|e evs IH]; simpl; [done|].
  destruct e; simpl; auto. done.
Qed.

Lemma emits_modify {L} (P : state L → Prop) allowed (f : L → L) :
  (∀ st, P st → P (mkState (f (locals st)) (trace st))) →
  emits P allowed [] (modify f).
Proof.
  intros Hf. apply emits_quiet. intros st HP.
  exists tt, (f (locals st)), []. rewrite app_nil_r. auto.
Qed.

Lemma spam_mutates_true dry r :
  spam_mutates dry r = true → dry = false ∧ truthy (asset_id_of r) = true.
Proof.
  unfold spam_mutates, asset_id_of.
  intros [[Hd _]%andb_true_iff Hid]%andb_true_iff.
  split; [by destruct dry|]. by destruct (py_get _ _ _).
Qed.

Lemma price_mutates_true r :
  Price.price_mutates r = true → truthy (asset_id_of r) = true.
Proof.
  unfold Price.price_mutates, asset_id_of.
  intros [_ Hid]%andb_true_iff. by destruct (py_get _ _ _).
Qed.

(** Solves the steps of a loop body that only log, sleep or return. *)
Ltac emits_quiet_step :=
  first
    [ apply emits_ret
    | apply emits_quiet; intros ? ?; eexists _, _, _;
      split; [reflexivity | split; [assumption || exact I | reflexivity]] ].

Lemma evm_process_chain_emits srv t1 t2 dry chains addr chain :
  chain ∈ chains →
  emits (λ st, Evm.has_buckets chains (locals st)) (spam_request t1 t2 dry)
    [evm_resolution chain addr] (Evm.process_chain srv t1 t2 dry addr chain).
Proof.
  intros Hin st Hb. destruct (Hb chain Hin) as [c Hc].
  destruct (evm_process_chain_effects srv t1 t2 dry addr chain st c Hc)
    as (evs & Hrun & Hposts & _).
  exists evs. rewrite Hrun. simpl.
  split; [done|]. split; [by apply record_buckets|].
  assert (resolutions evs = [evm_resolution chain addr]) as Hres.
  { unfold resolutions. rewrite Hposts. by destruct (spam_mutates _ _). }
  rewrite Hres. split; [done|]. split; [done|].
  rewrite Hposts. constructor; [done|].
  destruct (spam_mutates dry _) eqn:Hm; constructor; [|constructor].
  apply spam_mutates_true in Hm as [-> Hid]. simpl. eauto.
Qed.

Lemma evm_process_row_emits srv t1 t2 dry chains num row :
  emits (λ st, Evm.has_buckets chains (locals st)) (spam_request t1 t2 dry)
    (match Evm.row_skipped row with
     | Ok false =>
         List.map (λ chain,
                     evm_resolution chain (strip (cell_text (row_get row "EVM address"))))
           chains
     | _ => []
     end)
    (Evm.process_row srv t1 t2 dry chains num row).
Proof.
  unfold Evm.process_row, Evm.row_skipped, py_strip.
  row_cells row; cbn;
    repeat first [apply emits_lift_raise | apply emits_lift_ok].
  destruct (_ || _); [apply emits_ret|].
  eapply emits_expected; cycle 1.
  - apply emits_bind; [by apply emits_modify|]. intros _.
    apply emits_bind; [emits_quiet_step|]. intros _.
    apply emits_bind; [emits_quiet_step|]. intros _.
    apply emits_bind; [destruct dry; emits_quiet_step|]. intros _.
    apply emits_bind.
    { apply emits_for_each. intros chain Hin. by apply evm_process_chain_emits. }
    intros _.
    apply emits_bind; [emits_quiet_step|]. intros _.
    emits_quiet_step.
  - simpl. by rewrite app_nil_r, flat_map_singleton.
Qed.

Lemma evm_process_csv_emits srv chains rows t1 t2 dry (st : state Evm.stats) :
  ∃ evs,
    trace (snd (Evm.process_csv srv chains rows t1 t2 dry st)) = trace st ++ evs
    ∧ resolutions evs `prefix_of` evm_resolutions chains rows
    ∧ (is_ok (fst (Evm.process_csv srv chains rows t1 t2 dry st)) = true →
       resolutions evs = evm_resolutions chains rows)
    ∧ Forall (spam_request t1 t2 dry) (posts evs).
Proof.
  assert (emits (λ st, Evm.has_buckets chains (locals st)) (spam_request t1 t2 dry)
            (evm_resolutions chains rows)
            (log INFO "Starting to process CSV file" [];;
             Evm.process_rows srv t1 t2 dry chains 2 rows;;
             Evm.summary chains)) as Hrest.
  { eapply emits_expected; cycle 1.
    - apply emits_bind; [emits_quiet_step|]. intros _.
      apply emits_bind.
      { unfold Evm.process_rows. apply emits_for_enumerate.
        intros n r. apply evm_process_row_emits. }
      intros _. apply emits_quiet. intros st1 Hb.
      destruct (evm_summary_run chains st1 Hb) as (evs & -> & Hn).
      exists tt, (locals st1), evs. split; [done|]. split; [done|].
      by apply posts_nil_of_net_calls.
    - simpl. by rewrite app_nil_r. }
  destruct (Hrest (mkState (Evm.init_stats chains) (trace st)))
    as (evs & Ht & _ & Hpre & Heq & Hall); [apply init_stats_buckets|].
  exists evs. done.
Qed.

Lemma solana_process_row_emits srv t1 t2 dry num row :
  emits (λ _ : state Solana.stats, True) (spam_request t1 t2 dry)
    (match Solana.row_skipped row with
     | Ok false => [solana_resolution (strip (cell_text (row_get row "Solana Address")))]
     | _ => []
     end)
    (Solana.process_row srv t1 t2 dry num row).
Proof.
  destruct (Solana.row_skipped row) as [[]|e] eqn:Hskip.
  { apply emits_quiet. intros st _. rewrite solana_process_row_skip by done.
    exists tt, (locals st), []. rewrite app_nil_r. by destruct st. }
  2:{ apply emits_raises. intros st _.
      rewrite (solana_process_row_malformed _ _ _ _ _ _ _ _ Hskip). by eexists. }
  intros st _.
  destruct (solana_process_row_effects srv t1 t2 dry num row st Hskip)
    as (evs & Hrun & Hposts & _).
  exists evs. rewrite Hrun. simpl.
  split; [done|]. split; [done|].
  assert (resolutions evs
          = [solana_resolution (strip (cell_text (row_get row "Solana Address")))])
    as Hres.
  { unfold resolutions. rewrite Hposts. by destruct (spam_mutates _ _). }
  rewrite Hres. split; [done|]. split; [done|].
  rewrite Hposts. constructor; [done|].
  destruct (spam_mutates dry _) eqn:Hm; constructor; [|constructor].
  apply spam_mutates_true in Hm as [-> Hid]. simpl. eauto.
Qed.

Lemma solana_process_csv_emits srv rows t1 t2 dry (st : state Solana.stats) :
  ∃ evs,
    trace (snd (Solana.process_csv srv rows t1 t2 dry st)) = trace st ++ evs
    ∧ resolutions evs `prefix_of` solana_resolutions rows
    ∧ (is_ok (fst (Solana.process_csv srv rows t1 t2 dry st)) = true →
       resolutions evs = solana_resolutions rows)
    ∧ Forall (spam_request t1 t2 dry) (posts evs).
Proof.
  assert (emits (λ _ : state Solana.stats, True) (spam_request t1 t2 dry)
            (solana_resolutions rows)
            (log INFO "Starting to process CSV file" [];;
             Solana.process_rows srv t1 t2 dry 2 rows;;
             Solana.summary)) as Hrest.
  { eapply emits_expected; cycle 1.
    - apply emits_bind; [emits_quiet_step|]. intros _.
      apply emits_bind.
      { unfold Solana.process_rows. apply emits_for_enumerate.
        intros n r. apply solana_process_row_emits. }
      intros _. apply emits_quiet. intros st1 _.
      destruct (solana_summary_run st1) as (evs & -> & Hn).
      exists tt, (locals st1), evs. split; [done|]. split; [done|].
      by apply posts_nil_of_net_calls.
    - simpl. by rewrite app_nil_r. }
  destruct (Hrest (mkState Solana.init_stats (trace st)))
    as (evs & Ht & _ & Hpre & Heq & Hall); [done|].
  exists evs. done.
Qed.

Lemma price_process_row_emits srv t1 t2 dry num row :
  emits (λ _ : state Price.stats, True) (price_request t1 t2 dry)
    (match Price.row_skipped row with
     | Ok false =>
         [evm_resolution "evm_56" (strip (cell_text (row_get row "BSC Deployed Address")))]
     | _ => []
     end)
    (Price.process_row srv t1 t2 dry num row).
Proof.
  destruct (Price.row_skipped row) as [[]|e] eqn:Hskip.
  { apply emits_quiet. intros st _.
    rewrite price_process_row_skip by done. by eexists _, _, _. }
  2:{ apply emits_raises. intros st _.
      rewrite (price_process_row_malformed _ _ _ _ _ _ _ _ Hskip). by eexists. }
  intros st _.
  destruct (price_process_row_effects srv t1 t2 dry num row st Hskip)
    as (evs & Hrun & Hposts & _).
  exists evs. rewrite Hrun. simpl.
  split; [done|]. split; [done|].
  assert (resolutions evs
          = [evm_resolution "evm_56"
               (strip (cell_text (row_get row "BSC Deployed Address")))])
    as Hres.
  { unfold resolutions. rewrite Hposts. by destruct (Price.price_mutates _). }
  rewrite Hres. split; [done|]. split; [done|].
  rewrite Hposts. constructor; [done|].
  destruct (Price.price_mutates _) eqn:Hm; constructor; [|constructor].
  apply price_mutates_true in Hm. simpl. split; [done|].
  eexists _, _. split; [exact Hm|]. split; [|reflexivity].
  unfold Price.row_skipped, py_strip in Hskip.
  destruct (row_get row "BSC Deployed Address"); [|done].
  destruct (row_get row "CoinGecko API ID"); [|done].
  injection Hskip as Hskip. by apply orb_false_iff in Hskip as [_ ?].
Qed.

Lemma price_process_csv_emits srv rows t1 t2 dry (st : state Price.stats) :
  ∃ evs,
    trace (snd (Price.process_csv srv rows t1 t2 dry st)) = trace st ++ evs
    ∧ resolutions evs `prefix_of` price_resolutions rows
    ∧ (is_ok (fst (Price.process_csv srv rows t1 t2 dry st)) = true →
       resolutions evs = price_resolutions rows)
    ∧ Forall (price_request t1 t2 dry) (posts evs).
Proof.
  assert (emits (λ _ : state Price.stats, True) (price_request t1 t2 dry)
            (price_resolutions rows)
            (Price.process_rows srv t1 t2 dry 2 rows;; Price.summary)) as Hrest.
  { eapply emits_expected; cycle 1.
    - apply emits_bind.
      { unfold Price.process_rows. apply emits_for_enumerate.
        intros n r. apply price_process_row_emits. }
      intros _. apply emits_quiet. intros st1 _.
      destruct (price_summary_run st1) as (evs & -> & Hn).
      exists tt, (locals st1), evs. split; [done|]. split; [done|].
      by apply posts_nil_of_net_calls.
    - simpl. by rewrite app_nil_r. }
  destruct (Hrest (mkState Price.init_stats (trace st)))
    as (evs & Ht & _ & Hpre & Heq & Hall); [done|].
  exists evs. done.
Qed.

(** X4.  Every valid row is resolved, once per configured chain, in the
    order of the file and with its trimmed address: when [process_csv]
    returns, the resolution payloads with which it has called
    [requests.post] are exactly those of the valid rows of the file; when an
    exception ends it, they are the first of them.  A call counts whatever
    became of it: a [Post] of the trace records that [requests.post] was
    called, not that a request reached the service. *)
Theorem resolutions_follow_the_file srv chains rows t1 t2 dry
    (se : state Evm.stats) (ss : state Solana.stats) (sp : state Price.stats) :
  (∃ evs,
     trace (snd (Evm.process_csv srv chains rows t1 t2 dry se)) = trace se ++ evs
     ∧ resolutions evs `prefix_of` evm_resolutions chains rows
     ∧ (is_ok (fst (Evm.process_csv srv chains rows t1 t2 dry se)) = true →
        resolutions evs = evm_resolutions chains rows))
  ∧ (∃ evs,
       trace (snd (Solana.process_csv srv rows t1 t2 dry ss)) = trace ss ++ evs
       ∧ resolutions evs `prefix_of` solana_resolutions rows
       ∧ (is_ok (fst (Solana.process_csv srv rows t1 t2 dry ss)) = true →
          resolutions evs = solana_resolutions rows))
  ∧ (∃ evs,
       trace (snd (Price.process_csv srv rows t1 t2 dry sp)) = trace sp ++ evs
       ∧ resolutions evs `prefix_of` price_resolutions rows
       ∧ (is_ok (fst (Price.process_csv srv rows t1 t2 dry sp)) = true →
          resolutions evs = price_resolutions rows)).
Proof.
  split; [|split].
  - destruct (evm_process_csv_emits srv chains rows t1 t2 dry se) as (evs & ? & ? & ? & _).
    by exists evs.
  - destruct (solana_process_csv_emits srv rows t1 t2 dry ss) as (evs & ? & ? & ? & _).
    by exists evs.
  - destruct (price_process_csv_emits srv rows t1 t2 dry sp) as (evs & ? & ? & ? & _).
    by exists evs.
Qed.

(** X5.  A run makes no other request than these.  In the spam scripts: a
    resolution carrying the asset-info token, or, in a live run only, a
    mutation carrying the pricing token that sets [spam] to ["false"] for an
    asset id that is not falsy; never a price update.  In the price script:
    a resolution carrying the asset-info token, or a price update carrying
    the pricing token, an empty price, a CoinGecko id that is not empty and
    the dry-run flag of the run; never a spam mutation. *)
Theorem requests_are_allowed srv chains rows t1 t2 dry
    (se : state Evm.stats) (ss : state Solana.stats) (sp : state Price.stats) :
  (∃ evs,
     trace (snd (Evm.process_csv srv chains rows t1 t2 dry se)) = trace se ++ evs
     ∧ Forall (spam_request t1 t2 dry) (posts evs))
  ∧ (∃ evs,
       trace (snd (Solana.process_csv srv rows t1 t2 dry ss)) = trace ss ++ evs
       ∧ Forall (spam_request t1 t2 dry) (posts evs))
  ∧ (∃ evs,
       trace (snd (Price.process_csv srv rows t1 t2 dry sp)) = trace sp ++ evs
       ∧ Forall (price_request t1 t2 dry) (posts evs)).
Proof.
  split; [|split].
  - destruct (evm_process_csv_emits srv chains rows t1 t2 dry se) as (evs & ? & _ & _ & ?).
    by exists evs.
  - destruct (solana_process_csv_emits srv rows t1 t2 dry ss) as (evs & ? & _ & _ & ?).
    by exists evs.
  - destruct (price_process_csv_emits srv rows t1 t2 dry sp) as (evs & ? & _ & _ & ?).
    by exists evs.
Qed.

(** ** The client functions *)

Ltac finish_client :=
  rewrite <- ?app_assoc; eexists; split; [reflexivity|]; cbn;
  repeat split; try reflexivity; try done.

Lemma mark_result_true r : mark_result r = Ok true ↔ status_of r = Some 200%Z.
Proof.
  unfold mark_result.
  destruct r as [| |name|code body|code name]; simpl; try by split.
  all: split;
    [ intros [= [_ ->%Z.eqb_eq]%andb_true_iff]; done
    | by intros [= ->] ].
Qed.

Lemma mark_result_raises r e :
  mark_result r = Raise e ↔ ∃ name, r = PostRaises name ∧ e = LibraryError name.
Proof.
  unfold mark_result.
  destruct r as [| |name|code body|code name]; simpl; split;
    try done; try (by intros (? & ? & _)).
  - intros [= <-]. by exists name.
  - by intros (? & [= <-] & ->).
Qed.

Lemma client_result_failed r : resolution_failed r = true → client_result r = Ok JNull.
Proof. apply decoded_failed. Qed.

Lemma client_result_raises r e :
  client_result r = Raise e
  ↔ ∃ name, e = LibraryError name
            ∧ (r = PostRaises name
               ∨ ∃ status_code,
                   r = Undecodable status_code name ∧ is_error_status status_code = false).
Proof.
  unfold client_result.
  destruct r as [| |name|code body|code name]; simpl.
  - split; [done|]. by intros (? & _ & [|(? & ? & _)]).
  - split; [done|]. by intros (? & _ & [|(? & ? & _)]).
  - split.
    + intros [= <-]. exists name. auto.
    + by intros (? & -> & [[= ->]|(? & ? & _)]).
  - split; [done|]. by intros (? & _ & [|(? & ? & _)]).
  - destruct (is_error_status code) eqn:Hcode; simpl; split.
    + done.
    + intros (? & _ & [|(? & [= <- _] & ?)]); [done|congruence].
    + intros [= <-]. exists name. split; [done|]. right. by exists code.
    + by intros (? & -> & [|(? & [= _ ->] & _)]).
Qed.

(** X6.  [mark_asset_not_spam] calls [requests.post] once, with the form
    whose [spam] is ["false"], and leaves the counters alone.  An exception
    that leaves the call and is not a [RequestException] leaves the function
    too, and no line is logged.  Otherwise the function returns: [True] when
    the call returned a response with status 200, and in no other case (a
    [RequestException], an error status, and also a 204 or any other status,
    give [False]).  A success leaves the confirmation in the log and no
    error or warning; a failure leaves an error or a warning and no
    confirmation. *)
Theorem mark_asset_not_spam_needs_200 {L} srv asset_id tok (st : state L) :
  ∃ evs,
    mark_asset_not_spam srv asset_id tok st
    = (mark_result (next_reply srv MarkAsSpam st), mkState (locals st) (trace st ++ evs))
    ∧ posts evs = [(MarkAsSpam, tok, spam_form asset_id)]
    ∧ (mark_result (next_reply srv MarkAsSpam st) = Ok true
       ↔ status_of (next_reply srv MarkAsSpam st) = Some 200%Z)
    ∧ (∀ e, mark_result (next_reply srv MarkAsSpam st) = Raise e
            ↔ ∃ name, next_reply srv MarkAsSpam st = PostRaises name
                      ∧ e = LibraryError name)
    ∧ match mark_result (next_reply srv MarkAsSpam st) with
      | Ok ok =>
          logged INFO "Successfully marked asset {} as not spam (200 OK)" evs = ok
          ∧ logged ERROR "Error marking asset {} as not spam" evs
            || logged WARNING "Unexpected status code for asset {}: {}" evs
            = negb ok
      | Raise _ => evs = [Post MarkAsSpam tok (spam_form asset_id)]
      end.
Proof.
  assert (∃ evs,
    mark_asset_not_spam srv asset_id tok st
    = (mark_result (next_reply srv MarkAsSpam st), mkState (locals st) (trace st ++ evs))
    ∧ posts evs = [(MarkAsSpam, tok, spam_form asset_id)]
    ∧ match mark_result (next_reply srv MarkAsSpam st) with
      | Ok ok =>
          logged INFO "Successfully marked asset {} as not spam (200 OK)" evs = ok
          ∧ logged ERROR "Error marking asset {} as not spam" evs
            || logged WARNING "Unexpected status code for asset {}: {}" evs
            = negb ok
      | Raise _ => evs = [Post MarkAsSpam tok (spam_form asset_id)]
      end) as (evs & Hrun & Hposts & Hlog).
  { unfold mark_asset_not_spam, next_reply, mark_result, spam_form. munfold. cbn.
    destruct (srv MarkAsSpam _) as [| |name|code body|code name]; cbn;
      try finish_client;
      (destruct (is_error_status code); cbn; [finish_client|]);
      destruct (code =? 200)%Z; cbn; finish_client. }
  exists evs. split; [done|]. split; [done|].
  split; [apply mark_result_true|]. split; [|done].
  intros e. apply mark_result_raises.
Qed.

(** X7.  [get_asset_info] of the three scripts and [update_asset_price] call
    [requests.post] once and leave the counters alone.  They catch
    [RequestException] only: an exception of another class that leaves the
    call, or that leaves [response.json()] on a response whose status is not
    an error, leaves the function, and no error line is written.  Otherwise
    they return: the decoded body of a response that is not an error, and
    [None] when a [RequestException] was caught, in which case, and in no
    other, they write the error line; the line with the response text
    follows when the exception carries a response. *)
Theorem client_failures_are_logged srv addr chain tok asset_id cg dry
    (se : state Evm.stats) (ss : state Solana.stats) (sp : state Price.stats) :
  (∃ evs,
     Evm.get_asset_info srv addr chain tok se
     = (client_result (next_reply srv AssetInfos se), mkState (locals se) (trace se ++ evs))
     ∧ posts evs = [(AssetInfos, tok, evm_resolution chain addr)]
     ∧ logged ERROR "Error getting asset info for {} on {}" evs
       = resolution_failed (next_reply srv AssetInfos se)
     ∧ logged ERROR "Response: {}" evs
       = failed_with_response (next_reply srv AssetInfos se))
  ∧ (∃ evs,
       Solana.get_asset_info srv addr tok ss
       = (client_result (next_reply srv AssetInfos ss), mkState (locals ss) (trace ss ++ evs))
       ∧ posts evs = [(AssetInfos, tok, solana_resolution addr)]
       ∧ logged ERROR "Error getting asset info for {}" evs
         = resolution_failed (next_reply srv AssetInfos ss)
       ∧ logged ERROR "Response: {}" evs
         = failed_with_response (next_reply srv AssetInfos ss))
  ∧ (∃ evs,
       Price.get_asset_info srv addr tok sp
       = (client_result (next_reply srv AssetInfos sp), mkState (locals sp) (trace sp ++ evs))
       ∧ posts evs = [(AssetInfos, tok, evm_resolution "evm_56" addr)]
       ∧ logged PRINT "Error getting asset info for {}" evs
         = resolution_failed (next_reply srv AssetInfos sp)
       ∧ logged PRINT "Response: {}" evs
         = failed_with_response (next_reply srv AssetInfos sp))
  ∧ (∃ evs,
       Price.update_asset_price srv asset_id cg tok dry sp
       = (client_result (next_reply srv UpdatePrice sp), mkState (locals sp) (trace sp ++ evs))
       ∧ posts evs = [(UpdatePrice, tok, price_form asset_id cg dry)]
       ∧ logged PRINT "Error updating price for asset {}" evs
         = resolution_failed (next_reply srv UpdatePrice sp)
       ∧ logged PRINT "Response: {}" evs
         = failed_with_response (next_reply srv UpdatePrice sp))
  ∧ (∀ r, resolution_failed r = true → client_result r = Ok JNull)
  ∧ (∀ r v, client_result r = Ok v → resolution_failed r = false →
            ∃ status_code, r = Response status_code (Some v)
                           ∧ is_error_status status_code = false)
  ∧ (∀ r e, client_result r = Raise e
            ↔ ∃ name, e = LibraryError name
                      ∧ (r = PostRaises name
                         ∨ ∃ status_code,
                             r = Undecodable status_code name
                             ∧ is_error_status status_code = false)).
Proof.
  split; [|split; [|split; [|split; [|split; [|split]]]]].
  - unfold Evm.get_asset_info, next_reply, client_result, evm_resolution. munfold. cbn.
    destruct (srv AssetInfos _) as [| |name|code body|code name]; cbn; try finish_client;
      (destruct (is_error_status code); cbn; [finish_client|]);
      try destruct body; cbn; finish_client.
  - unfold Solana.get_asset_info, next_reply, client_result, solana_resolution. munfold. cbn.
    destruct (srv AssetInfos _) as [| |name|code body|code name]; cbn; try finish_client;
      (destruct (is_error_status code); cbn; [finish_client|]);
      try destruct body; cbn; finish_client.
  - unfold Price.get_asset_info, next_reply, client_result, evm_resolution. munfold. cbn.
    destruct (srv AssetInfos _) as [| |name|code body|code name]; cbn; try finish_client;
      (destruct (is_error_status code); cbn; [finish_client|]);
      try destruct body; cbn; finish_client.
  - unfold Price.update_asset_price, next_reply, client_result, price_form. munfold. cbn.
    destruct (srv UpdatePrice _) as [| |name|code body|code name]; cbn; try finish_client;
      (destruct (is_error_status code); cbn; [finish_client|]);
      try destruct body; cbn; finish_client.
  - apply client_result_failed.
  - intros r v. unfold client_result.
    destruct r as [| |name|code body|code name]; simpl; try done.
    + destruct (is_error_status code) eqn:Hcode; simpl; [done|].
      destruct body as [w|]; simpl; [|done]. intros [= ->] _. by exists code.
    + by destruct (is_error_status code).
  - apply client_result_raises.
Qed.

(** ** The requests and the pauses of one pair *)

Lemma is_ok_outcome_result o : is_ok (outcome_result o) = recorded o.
Proof. by destruct o. Qed.

(** X8.  The calls of [requests.post] that a pair makes are the resolution
    of its address and then, if the reply gave an asset id and, in the spam
    scripts, the run is live, one mutation for that very id; the pair makes
    no other call, whether it returns or raises.  The address and the
    CoinGecko id are those of the row, trimmed. *)
Theorem mutation_follows_resolution srv t1 t2 dry addr chain c num row_s row_p
    (se : state Evm.stats) (ss : state Solana.stats) (sp : state Price.stats) :
  Evm.by_chain (locals se) !! chain = Some c →
  Solana.row_skipped row_s = Ok false →
  Price.row_skipped row_p = Ok false →
  posts (trace (snd (Evm.process_chain srv t1 t2 dry addr chain se)))
  = posts (trace se)
    ++ (AssetInfos, t1, evm_resolution chain addr)
       :: (if spam_mutates dry (next_reply srv AssetInfos se)
           then [(MarkAsSpam, t2, spam_form (asset_id_of (next_reply srv AssetInfos se)))]
           else [])
  ∧ posts (trace (snd (Solana.process_row srv t1 t2 dry num row_s ss)))
    = posts (trace ss)
      ++ (AssetInfos, t1,
          solana_resolution (strip (cell_text (row_get row_s "Solana Address"))))
         :: (if spam_mutates dry (next_reply srv AssetInfos ss)
             then [(MarkAsSpam, t2, spam_form (asset_id_of (next_reply srv AssetInfos ss)))]
             else [])
  ∧ posts (trace (snd (Price.process_row srv t1 t2 dry num row_p sp)))
    = posts (trace sp)
      ++ (AssetInfos, t1,
          evm_resolution "evm_56" (strip (cell_text (row_get row_p "BSC Deployed Address"))))
         :: (if Price.price_mutates (next_reply srv AssetInfos sp)
             then [(UpdatePrice, t2,
                    price_form (asset_id_of (next_reply srv AssetInfos sp))
                      (strip (cell_text (row_get row_p "CoinGecko API ID"))) dry)]
             else []).
Proof.
  intros Hc Hs Hp. split; [|split].
  - destruct (evm_process_chain_effects srv t1 t2 dry addr chain se c Hc)
      as (evs & -> & Hposts & _).
    simpl. by rewrite posts_app, Hposts.
  - destruct (solana_process_row_effects srv t1 t2 dry num row_s ss Hs)
      as (evs & -> & Hposts & _).
    simpl. by rewrite posts_app, Hposts.
  - destruct (price_process_row_effects srv t1 t2 dry num row_p sp Hp)
      as (evs & -> & Hposts & _).
    simpl. by rewrite posts_app, Hposts.
Qed.

Lemma mutation_follows_resolution_witness :
  Evm.by_chain (locals evm_ready) !! "evm_56" = Some Evm.zero_chain
  ∧ Solana.row_skipped row_solana = Ok false
  ∧ Price.row_skipped row_price = Ok false
  ∧ posts (trace (snd (Evm.process_chain srv_ok "t1" "t2" false "0xabc" "evm_56" evm_ready)))
    = [(AssetInfos, "t1", evm_resolution "evm_56" "0xabc");
       (MarkAsSpam, "t2", spam_form (JStr "A1"))].
Proof.
  split; [reflexivity|]. split; [reflexivity|]. split; [reflexivity|].
  apply (mutation_follows_resolution srv_ok "t1" "t2" false "0xabc" "evm_56"
           Evm.zero_chain 2 row_solana row_price evm_ready Solana.start Price.start
           eq_refl eq_refl eq_refl).
Defined.

(** X9.  The pause after a pair depends on how far the pair got.  EVM: one
    second once an asset id has been read, none after a pair that is not
    found or has no id.  Solana: three seconds once an asset id has been
    read, two after a row that is not found or has no id.  Price: five
    seconds after a row whose update returned a body that is not falsy, none
    after a row that failed earlier.  A pair that raises has not paused. *)
Theorem pauses_depend_on_progress srv t1 t2 dry addr chain c num row_s row_p
    (se : state Evm.stats) (ss : state Solana.stats) (sp : state Price.stats) :
  Evm.by_chain (locals se) !! chain = Some c →
  Solana.row_skipped row_s = Ok false →
  Price.row_skipped row_p = Ok false →
  slept (trace (snd (Evm.process_chain srv t1 t2 dry addr chain se)))
  = slept (trace se)
    + (if spam_mutates false (next_reply srv AssetInfos se)
          && is_ok (fst (Evm.process_chain srv t1 t2 dry addr chain se))
       then 1 else 0)
  ∧ slept (trace (snd (Solana.process_row srv t1 t2 dry num row_s ss)))
    = slept (trace ss)
      + (if is_ok (fst (Solana.process_row srv t1 t2 dry num row_s ss))
         then if spam_mutates false (next_reply srv AssetInfos ss) then 3 else 2
         else 0)
  ∧ slept (trace (snd (Price.process_row srv t1 t2 dry num row_p sp)))
    = slept (trace sp)
      + (if Price.price_mutates (next_reply srv AssetInfos sp)
            && truthy (decoded (next_reply srv UpdatePrice sp))
            && is_ok (fst (Price.process_row srv t1 t2 dry num row_p sp))
         then 5 else 0).
Proof.
  intros Hc Hs Hp. split; [|split].
  - destruct (evm_process_chain_effects srv t1 t2 dry addr chain se c Hc)
      as (evs & -> & _ & Hslept).
    simpl. by rewrite slept_app, Hslept, is_ok_outcome_result.
  - destruct (solana_process_row_effects srv t1 t2 dry num row_s ss Hs)
      as (evs & -> & _ & Hslept).
    simpl. by rewrite slept_app, Hslept, is_ok_outcome_result.
  - destruct (price_process_row_effects srv t1 t2 dry num row_p sp Hp)
      as (evs & -> & _ & Hslept).
    simpl. by rewrite slept_app, Hslept, is_ok_outcome_result.
Qed.

Lemma pauses_depend_on_progress_witness :
  Evm.by_chain (locals evm_ready) !! "evm_56" = Some Evm.zero_chain
  ∧ Solana.row_skipped row_solana = Ok false
  ∧ Price.row_skipped row_price = Ok false
  ∧ slept (trace (snd (Solana.process_row (srv_resolving (Response 404 None))
                         "t1" "t2" false 2 row_solana Solana.start)))
    = 2.
Proof.
  split; [reflexivity|]. split; [reflexivity|]. split; [reflexivity|].
  apply (pauses_depend_on_progress (srv_resolving (Response 404 None)) "t1" "t2" false
           "0xabc" "evm_56" Evm.zero_chain 2 row_solana row_price
           evm_ready Solana.start Price.start eq_refl eq_refl eq_refl).
Defined.

(** ** What ends a batch early *)

(** *** Calls that pass and calls that raise *)









(** *** The exception of a pair *)










(** *** The loops *)




(** *** The three batches *)
















(** ** The rows of a file and the counters *)

Lemma valid_rows_cons skipped (r : row) rows :
  valid_rows skipped (r :: rows)
  = (match skipped r with Ok false => 1 | _ => 0 end) + valid_rows skipped rows.
Proof. unfold valid_rows. simpl. by destruct (skipped r) as [[]|]. Qed.

Lemma count_rows_cons p (r : row) rows :
  count_rows p (r :: rows)
  = (match p r with Ok true => 1 | _ => 0 end) + count_rows p rows.
Proof. unfold count_rows. simpl. by destruct (p r) as [[]|]. Qed.

Lemma valid_rows_nil skipped : valid_rows skipped [] = 0.
Proof. done. Qed.





Lemma price_outcome_cases r u :
  Price.price_outcome r u = Success ∨ Price.price_outcome r u = Failed
  ∨ ∃ e, Price.price_outcome r u = Uncaught e.
Proof.
  unfold Price.price_outcome, Price.stdout_outcome.
  destruct (client_result r) as [info|]; [|by right; right; eexists].
  destruct (negb (truthy info)); [by right; left|].
  destruct (py_get info "id" JNull); [|by right; right; eexists].
  destruct (negb (truthy _)); [by right; left|].
  destruct (client_result u) as [resp|]; [|by right; right; eexists].
  destruct (negb (truthy _)); [by right; left|].
  destruct (py_get resp "stdout" (JStr "")) as [out|]; [|by right; right; eexists].
  destruct (truthy out); [|by right; left].
  destruct (py_len out); [|by right; right; eexists].
  destruct (py_prefix 600 out); [by left|by right; right; eexists].
Qed.

Lemma price_process_row_processed srv t1 t2 dry num row (st : state Price.stats) r st' :
  Price.process_row srv t1 t2 dry num row st = (r, st') →
  match Price.row_skipped row with
  | Ok true =>
      r = Ok tt
      ∧ Price.skipped (locals st') = S (Price.skipped (locals st))
      ∧ Price.successful (locals st') + Price.failed (locals st')
        = Price.successful (locals st) + Price.failed (locals st)
  | Ok false =>
      Price.skipped (locals st') = Price.skipped (locals st)
      ∧ Price.successful (locals st') + Price.failed (locals st')
        + (if is_ok r then 0 else 1)
        = S (Price.successful (locals st) + Price.failed (locals st))
  | Raise _ => r = Raise AttributeError ∧ st' = st
  end.
Proof.
  destruct (Price.row_skipped row) as [[]|e] eqn:Hskip.
  - rewrite price_process_row_skip by done. intros [= <- <-]. simpl. done.
  - destruct (price_process_row_run srv t1 t2 dry num row st Hskip) as (evs & -> & _).
    destruct (price_outcome_cases (next_reply srv AssetInfos st)
                (next_reply srv UpdatePrice st)) as [->|[->|[e ->]]];
      intros [= <- <-]; simpl; split; try done; lia.
  - rewrite (price_process_row_malformed _ _ _ _ _ _ _ _ Hskip). by intros [= <- <-].
Qed.

Lemma price_process_rows_processed srv t1 t2 dry rows :
  ∀ start (st : state Price.stats) r st',
    Price.process_rows srv t1 t2 dry start rows st = (r, st') →
    Price.skipped (locals st')
    ≤ Price.skipped (locals st) + count_rows Price.row_skipped rows
    ∧ if is_ok r
      then price_processed (locals st') = price_processed (locals st) + length rows
           ∧ Price.skipped (locals st')
             = Price.skipped (locals st) + count_rows Price.row_skipped rows
           ∧ Price.successful (locals st') + Price.failed (locals st')
             = Price.successful (locals st) + Price.failed (locals st)
               + valid_rows Price.row_skipped rows
      else price_processed (locals st') < price_processed (locals st) + length rows.
Proof.
  unfold Price.process_rows, price_processed.
  induction rows as [|row rows IH]; intros start st r st' Hrun.
  { injection Hrun as <- <-. simpl. rewrite valid_rows_nil. unfold count_rows. simpl. lia. }
  simpl in Hrun. unfold mbind, M_MBind, M_bind in Hrun.
  destruct (Price.process_row srv t1 t2 dry start row st) as [r1 st1] eqn:Hrow.
  apply price_process_row_processed in Hrow.
  rewrite count_rows_cons, valid_rows_cons.
  destruct (Price.row_skipped row) as [[]|].
  - destruct Hrow as (-> & Hs & Hp).
    apply IH in Hrun as [Hle Hrun]. split; [lia|].
    destruct (is_ok r); simpl length; lia.
  - destruct Hrow as (Hs & Hp).
    destruct r1 as [[]|e]; simpl in *.
    + apply IH in Hrun as [Hle Hrun]. split; [lia|].
      destruct (is_ok r); lia.
    + injection Hrun as <- <-. simpl. lia.
  - destruct Hrow as [-> ->]. injection Hrun as <- <-. simpl. lia.
Qed.

(** X12.  The price script accounts for every row.  When [process_csv]
    returns, [successful + failed + skipped] is the number of rows of the file,
    [skipped] is the number of rows that fail the validation, and the last
    line printed is the total, the number of rows.  When it is aborted, the
    row that raised is in no counter. *)
Theorem price_counters_account_for_every_row srv rows t1 t2 dry (st : state Price.stats) :
  let run := Price.process_csv srv rows t1 t2 dry st in
  Price.skipped (locals (snd run)) ≤ count_rows Price.row_skipped rows
  ∧ match fst run with
    | Ok _ =>
        price_processed (locals (snd run)) = length rows
        ∧ Price.skipped (locals (snd run)) = count_rows Price.row_skipped rows
        ∧ Price.successful (locals (snd run)) + Price.failed (locals (snd run))
          = valid_rows Price.row_skipped rows
        ∧ last (trace (snd run))
          = Some (Log PRINT "Total processed: {}" [py_int (length rows)])
    | Raise _ => price_processed (locals (snd run)) < length rows
    end.
Proof.
  cbv zeta. unfold Price.process_csv.
  unfold mbind, M_MBind, M_bind, modify. cbn.
  match goal with |- context [Price.process_rows srv t1 t2 dry 2 rows ?st1] =>
    pose proof (price_process_rows_processed srv t1 t2 dry rows 2 st1) as Hrows;
    destruct (Price.process_rows srv t1 t2 dry 2 rows st1) as [r1 st2] eqn:Hrun
  end.
  specialize (Hrows r1 st2 eq_refl) as [Hle Hrows].
  destruct r1 as [[]|e]; simpl in *; [|unfold price_processed in *; simpl in *; lia].
  destruct Hrows as (Hp & Hs & Hv). unfold price_processed in *. simpl in *.
  split; [lia|]. split; [lia|]. split; [lia|]. split; [lia|].
  rewrite last_snoc. by rewrite Hp.
Qed.

(** ** The per-chain buckets of the EVM script *)

Lemma evm_record_delete chain c o s :
  delete chain (Evm.by_chain (Evm.record chain c o s)) = delete chain (Evm.by_chain s).
Proof. destruct o; simpl; try done; apply delete_insert_eq. Qed.

Lemma evm_record_dom chain c o s :
  Evm.by_chain s !! chain = Some c →
  dom (Evm.by_chain (Evm.record chain c o s)) =@{gset string} dom (Evm.by_chain s).
Proof.
  intros Hc.
  assert (chain ∈ dom (Evm.by_chain s)) as Hin by (apply elem_of_dom; by eexists).
  destruct o; simpl; try done; rewrite dom_insert_L;
    apply set_eq; intros x; rewrite elem_of_union, elem_of_singleton;
    (split; [by intros [->|] | by right]).
Qed.

Lemma evm_process_chain_dom srv t1 t2 dry addr chain (st : state Evm.stats) :
  dom (Evm.by_chain (locals (snd (Evm.process_chain srv t1 t2 dry addr chain st))))
  =@{gset string} dom (Evm.by_chain (locals st)).
Proof.
  destruct (Evm.by_chain (locals st) !! chain) as [c|] eqn:Hc.
  - destruct (evm_process_chain_run srv t1 t2 dry addr chain st c Hc) as (evs & -> & _).
    simpl. by apply evm_record_dom.
  - by destruct (evm_process_chain_no_bucket srv t1 t2 dry addr chain st Hc)
      as (e & evs & ->).
Qed.

Lemma evm_process_row_dom srv t1 t2 dry chains n r (st : state Evm.stats) :
  dom (Evm.by_chain (locals (snd (Evm.process_row srv t1 t2 dry chains n r st))))
  =@{gset string} dom (Evm.by_chain (locals st)).
Proof.
  unfold Evm.process_row, py_strip. munfold.
  row_cells r; cbn; try done.
  destruct (_ || _); [done|].
  destruct dry; cbn;
  match goal with |- context [for_each chains ?body ?st1] =>
    pose proof (for_each_invariant
                  (λ st', dom (Evm.by_chain (locals st'))
                          =@{gset string} dom (Evm.by_chain (locals st)))
                  body chains
                  (λ a st' H, eq_trans (evm_process_chain_dom srv t1 t2 _ _ a st') H)
                  st1 eq_refl) as Hloop;
    destruct (for_each chains body st1) as [[[]|e] st2]
  end; simpl in *; done.
Qed.

(** X13.  The per-chain report has one bucket for each configured chain, at
    every point of a run.  A pair changes no bucket but that of its own chain, and
    leaves [total_rows] and [skipped] alone; at the end of [process_csv],
    returned or aborted, the chains that have a bucket are the configured
    chains. *)
Theorem buckets_are_those_of_the_chains srv chains rows t1 t2 dry addr chain
    (pe se : state Evm.stats) :
  (let pair := Evm.process_chain srv t1 t2 dry addr chain pe in
   delete chain (Evm.by_chain (locals (snd pair))) = delete chain (Evm.by_chain (locals pe))
   ∧ dom (Evm.by_chain (locals (snd pair))) =@{gset string} dom (Evm.by_chain (locals pe))
   ∧ Evm.total_rows (locals (snd pair)) = Evm.total_rows (locals pe)
   ∧ Evm.skipped (locals (snd pair)) = Evm.skipped (locals pe))
  ∧ dom (Evm.by_chain (locals (snd (Evm.process_csv srv chains rows t1 t2 dry se))))
    =@{gset string} list_to_set chains.
Proof.
  split; cbv zeta.
  - split; [|split; [apply evm_process_chain_dom|]].
    + destruct (Evm.by_chain (locals pe) !! chain) as [c|] eqn:Hc.
      * destruct (evm_process_chain_run srv t1 t2 dry addr chain pe c Hc) as (evs & -> & _).
        simpl. apply evm_record_delete.
      * by destruct (evm_process_chain_no_bucket srv t1 t2 dry addr chain pe Hc)
          as (e & evs & ->).
    + destruct (Evm.by_chain (locals pe) !! chain) as [c|] eqn:Hc.
      * destruct (evm_process_chain_run srv t1 t2 dry addr chain pe c Hc) as (evs & -> & _).
        simpl. apply record_total_rows.
      * by destruct (evm_process_chain_no_bucket srv t1 t2 dry addr chain pe Hc)
          as (e & evs & ->).
  - unfold Evm.process_csv, Evm.process_rows.
    unfold mbind, M_MBind, M_bind, modify, log, emit. cbn.
    match goal with |- context [for_enumerate 2 rows ?body ?st1] =>
      pose proof (for_enumerate_invariant
                    (λ st', dom (Evm.by_chain (locals st'))
                            =@{gset string} list_to_set chains)
                    body rows) as Hloop;
      specialize (Hloop (λ n a st' H, eq_trans (evm_process_row_dom srv t1 t2 dry chains n a st') H)
                    2 st1);
      destruct (for_enumerate 2 rows body st1) as [[[]|e] st2]
    end; simpl in *.
    + rewrite evm_summary_locals. apply Hloop.
      rewrite dom_list_to_map_L, <- list_fmap_compose. simpl.
      by rewrite list_fmap_id.
    + apply Hloop.
      rewrite dom_list_to_map_L, <- list_fmap_compose. simpl.
      by rewrite list_fmap_id.
Qed.
